(** * Notas.py: lectura, combinación y consulta de hojas de notas

    Shallow embedding of [Notas.py]: the header heuristic and the loading of
    one workbook ([GestorNotas.cargar_datos] and the loop of [main]), the
    lookup by identity number ([GestorNotas.buscar_por_cedula]), the merge
    and its column-count check ([main]), the positional projection onto the
    six display columns ([generar_html5_interactivo]) and the search script
    embedded in the generated page ([searchTable], [renderTable]).

    Python and JavaScript text is kept as [string], read as UTF-8: removing
    an ASCII character, keeping the ASCII digits and testing for a substring
    give on the bytes the result they give on the code points. *)

From Stdlib Require Import List Bool Arith ZArith Lia.
From Stdlib Require Import Strings.String Strings.Ascii Numbers.DecimalString.
Import ListNotations.

Local Open Scope string_scope.
Local Open Scope list_scope.

(** ** Text *)

Module Texto.

(** [sub in s] of Python, [str.contains(sub, regex=False)] of pandas on a
    text cell: [sub] occurs in [s] as a contiguous run of characters. *)
Fixpoint contiene (sub s : string) : bool :=
  if String.prefix sub s then true
  else match s with
       | EmptyString => false
       | String _ s' => contiene sub s'
       end.

(** [s.replace(c, "")] for a pattern [c] of one character. *)
Fixpoint quitar (c : ascii) (s : string) : string :=
  match s with
  | EmptyString => EmptyString
  | String a s' => if Ascii.eqb a c then quitar c s' else String a (quitar c s')
  end.

(** The characters of [s] that satisfy [f], in order. *)
Fixpoint filtrar (f : ascii -> bool) (s : string) : string :=
  match s with
  | EmptyString => EmptyString
  | String a s' => if f a then String a (filtrar f s') else filtrar f s'
  end.

Fixpoint todos (f : ascii -> bool) (s : string) : bool :=
  match s with
  | EmptyString => true
  | String a s' => f a && todos f s'
  end.

Definition es_digito (a : ascii) : bool :=
  let n := nat_of_ascii a in ((48 <=? n) && (n <=? 57))%nat.

Definition es_mayuscula_ascii (a : ascii) : bool :=
  let n := nat_of_ascii a in ((65 <=? n) && (n <=? 90))%nat.

(** Second byte of a two-byte sequence that starts with 0xC3 and encodes
    an upper-case letter of the Latin-1 Supplement (U+00C0 to U+00DE, the
    multiplication sign U+00D7 apart). *)
Definition es_mayuscula_latin1 (a : ascii) : bool :=
  let n := nat_of_ascii a in ((128 <=? n) && (n <=? 158) && negb (n =? 151))%nat.

Definition bajar (a : ascii) : ascii := ascii_of_nat (nat_of_ascii a + 32).

(** [str.lower()] of Python and [toLowerCase()] of JavaScript on the Basic
    Latin and Latin-1 Supplement letters, which cover Spanish text; every
    other character is kept.  [tras_c3] records that the byte before was
    0xC3. *)
Fixpoint lower_desde (tras_c3 : bool) (s : string) : string :=
  match s with
  | EmptyString => EmptyString
  | String a s' =>
      let a' :=
        if tras_c3 then (if es_mayuscula_latin1 a then bajar a else a)
        else (if es_mayuscula_ascii a then bajar a else a) in
      String a' (lower_desde (nat_of_ascii a =? 195)%nat s')
  end.

Definition lower (s : string) : string := lower_desde false s.

(** White space removed by [trim()]: the ASCII white space characters. *)
Definition es_espacio (a : ascii) : bool :=
  let n := nat_of_ascii a in ((n =? 32) || ((9 <=? n) && (n <=? 13)))%nat.

Fixpoint ltrim (s : string) : string :=
  match s with
  | EmptyString => EmptyString
  | String a s' => if es_espacio a then ltrim s' else s
  end.

(** Drops the trailing white space: a character is kept when something
    that is not white space follows it or it is not white space itself. *)
Fixpoint rtrim (s : string) : string :=
  match s with
  | EmptyString => EmptyString
  | String a s' =>
      match rtrim s' with
      | EmptyString => if es_espacio a then EmptyString else String a EmptyString
      | r => String a r
      end
  end.

Definition trim (s : string) : string := rtrim (ltrim s).

(** [" ".join(l)]. *)
Fixpoint unir (sep : string) (l : list string) : string :=
  match l with
  | [] => EmptyString
  | [x] => x
  | x :: l' => (x ++ sep ++ unir sep l')%string
  end.

(** [str(n)] for an integer. *)
Definition de_entero (z : Z) : string := NilEmpty.string_of_int (Z.to_int z).

Definition de_natural (n : nat) : string := NilEmpty.string_of_uint (Nat.to_uint n).

Definition startswith (p s : string) : bool := String.prefix p s.

End Texto.

Import Texto.

(** ** Exceptions *)

Inductive excepcion : Type :=
| AttributeError      (* a method asked of a value that does not have it *)
| FileNotFoundError
| ErrorDeLectura      (* the workbook could not be parsed *)
| ErrorDeEscritura.   (* the page could not be written *)

Inductive resultado (A : Type) : Type :=
| Ok (a : A)
| Lanza (e : excepcion).

Arguments Ok {A} a.
Arguments Lanza {A} e.

Definition ligar {A B : Type} (r : resultado A) (k : A -> resultado B) : resultado B :=
  match r with
  | Ok a => k a
  | Lanza e => Lanza e
  end.

Notation "x <- r ;; k" := (ligar r (fun x => k))
  (at level 61, r at next level, right associativity).

(** ** Frames *)

(** A cell of a frame.  [VOtro] stands for any scalar that is neither text
    nor an integer nor missing (a float, a time stamp, a boolean); the
    program only ever asks such a value for its [str()], which the
    constructor carries. *)
Inductive valor : Type :=
| VTexto (s : string)
| VEntero (z : Z)
| VNaN
| VOtro (repr : string).

(** A column label: text, or a label that is not a [str] (a number or a
    date standing in the header row), kept by its printed form. *)
Inductive etiqueta : Type :=
| ETexto (s : string)
| EOtra (repr : string).

Definition etiqueta_eqb (a b : etiqueta) : bool :=
  match a, b with
  | ETexto s, ETexto t => String.eqb s t
  | EOtra s, EOtra t => String.eqb s t
  | _, _ => false
  end.

(** [pandas.DataFrame] with the default index 0..n-1: the labels of the
    columns, in order, and the rows, each with one cell per column.
    The frames the program builds come from [read_excel] and [concat],
    which hand out distinct labels. *)
Record DataFrame : Type := {
  columns : list etiqueta;
  filas : list (list valor)
}.

Definition registro : Type := list (etiqueta * valor).

Definition vacio : DataFrame := {| columns := []; filas := [] |}.

(** [str(v)]. *)
Definition str (v : valor) : string :=
  match v with
  | VTexto s => s
  | VEntero z => de_entero z
  | VNaN => "nan"
  | VOtro t => t
  end.

(** The cell of [fila] under the label [c]. *)
Fixpoint valor_en (cols : list etiqueta) (c : etiqueta) (fila : list valor) : option valor :=
  match cols, fila with
  | col :: cols', v :: fila' => if etiqueta_eqb col c then Some v else valor_en cols' c fila'
  | _, _ => None
  end.

(** [df.iloc[:, i]]. *)
Definition iloc_col (d : DataFrame) (i : nat) : list valor :=
  map (fun fila => nth i fila VNaN) (filas d).

(** [row.to_dict()]. *)
Definition to_dict (cols : list etiqueta) (fila : list valor) : registro :=
  combine cols fila.

(** [df.to_json(orient="records")], before it is printed: one record per row. *)
Definition registros (d : DataFrame) : list registro :=
  map (to_dict (columns d)) (filas d).

(** Every row has one cell per column and no label occurs twice. *)
Definition rectangular (d : DataFrame) : Prop :=
  Forall (fun fila => List.length fila = List.length (columns d)) (filas d).

Definition marco_valido (d : DataFrame) : Prop :=
  NoDup (columns d) /\ rectangular d.

(** ** Reading a workbook *)

(** The first sheet of a workbook as it lies in the file: its rows from the
    top, the header line included. *)
Definition hoja : Type := list (list valor).

(** The label [read_excel] gives to the [k]-th cell of the header line. *)
Definition etiqueta_de (k : nat) (v : valor) : etiqueta :=
  match v with
  | VTexto s => ETexto s
  | VEntero z => EOtra (de_entero z)
  | VNaN => ETexto ("Unnamed: " ++ de_natural k)
  | VOtro t => EOtra t
  end.

Fixpoint etiquetas_desde (k : nat) (encabezado : list valor) : list etiqueta :=
  match encabezado with
  | [] => []
  | v :: resto => etiqueta_de k v :: etiquetas_desde (S k) resto
  end.

(** [pd.read_excel(archivo, skiprows=skiprows, nrows=nrows)]: the lines
    skipped first, the next line gives the labels, and the lines below it
    (at most [nrows] of them) are the rows. *)
Definition read_excel (skiprows : nat) (nrows : option nat) (h : hoja) : DataFrame :=
  match skipn skiprows h with
  | [] => vacio
  | encabezado :: datos =>
      {| columns := etiquetas_desde 0 encabezado;
         filas := match nrows with
                  | None => datos
                  | Some n => firstn n datos
                  end |}
  end.

(** What is behind a path: nothing, a file that cannot be parsed, or a sheet. *)
Inductive archivo : Type :=
| NoExiste
| Ilegible
| Libro (h : hoja).

Definition leer (skiprows : nat) (nrows : option nat) (a : archivo) : resultado DataFrame :=
  match a with
  | NoExiste => Lanza FileNotFoundError
  | Ilegible => Lanza ErrorDeLectura
  | Libro h => Ok (read_excel skiprows nrows h)
  end.

Definition palabras_encabezado : list string :=
  ["columna"; "atinencia"; "nombre"; "modulos"; "módulos"].

(** [primera_fila.values.flatten()]. *)
Definition values_flatten (d : DataFrame) : list valor := List.concat (filas d).

(** [" ".join(str(valor).lower() for valor in primera_fila.values.flatten())]. *)
Definition primera_fila_texto (primera_fila : DataFrame) : string :=
  unir " " (map (fun valor => lower (str valor)) (values_flatten primera_fila)).

(** [any(palabra in primera_fila_texto for palabra in palabras_encabezado)]. *)
Definition contiene_palabras_encabezado (primera_fila : DataFrame) : bool :=
  existsb (fun palabra => contiene palabra (primera_fila_texto primera_fila))
          palabras_encabezado.

(** The body of the [try] of [GestorNotas.cargar_datos], which is also the
    body of the loop of [main]: read one row, decide, read again. *)
Definition cargar_datos (a : archivo) : resultado DataFrame :=
  primera_fila <- leer 0 (Some 1) a ;;
  if contiene_palabras_encabezado primera_fila
  then leer 1 None a
  else leer 0 None a.

(** ** Lookup by identity number *)

Definition palabras_cedula : list string :=
  ["cedula"; "cédula"; "identificacion"; "identificación"; "dni"; "id"].

(** [any(palabra in col.lower() for palabra in [...])]: a label that is
    not a [str] has no [lower]. *)
Definition es_columna_cedula (col : etiqueta) : resultado bool :=
  match col with
  | ETexto s => Ok (existsb (fun palabra => contiene palabra (lower s)) palabras_cedula)
  | EOtra _ => Lanza AttributeError
  end.

(** The first loop of [buscar_por_cedula], over [self.datos.columns]. *)
Fixpoint columnas_cedula (cols : list etiqueta) : resultado (list etiqueta) :=
  match cols with
  | [] => Ok []
  | col :: resto =>
      b <- es_columna_cedula col ;;
      cc <- columnas_cedula resto ;;
      Ok (if b then col :: cc else cc)
  end.

Fixpoint astype_str_fila (c : etiqueta) (cols : list etiqueta) (fila : list valor) : list valor :=
  match cols, fila with
  | col :: cols', v :: fila' =>
      (if etiqueta_eqb col c then VTexto (str v) else v) :: astype_str_fila c cols' fila'
  | _, _ => fila
  end.

(** [self.datos[columna] = self.datos[columna].astype(str)]. *)
Definition astype_str (c : etiqueta) (d : DataFrame) : DataFrame :=
  {| columns := columns d;
     filas := map (astype_str_fila c (columns d)) (filas d) |}.

(** One entry of [self.datos[columna].str.contains(q, na=False, regex=False)]. *)
Definition coincide (q : string) (c : etiqueta) (cols : list etiqueta) (fila : list valor) : bool :=
  match valor_en cols c fila with
  | Some (VTexto s) => contiene q s
  | _ => false
  end.

(** The second loop of [buscar_por_cedula]: the frame is passed along
    because every column visited is overwritten with its text. *)
Fixpoint explorar (q : string) (candidatas : list etiqueta) (d : DataFrame)
  : option registro * DataFrame :=
  match candidatas with
  | [] => (None, d)
  | columna :: resto =>
      let d' := astype_str columna d in
      match filter (coincide q columna (columns d')) (filas d') with
      | [] => explorar q resto d'
      | primera :: _ => (Some (to_dict (columns d') primera), d')
      end
  end.

(** [cedula.replace("-", "").replace(" ", "")]. *)
Definition limpiar_cedula (cedula : string) : string :=
  quitar " "%char (quitar "-"%char cedula).

(** [columnas_cedula], or every column when it is empty. *)
Definition candidatas (cols cc : list etiqueta) : list etiqueta :=
  match cc with
  | [] => cols
  | _ => cc
  end.

(** The body of the [try] of [buscar_por_cedula]: what it returns or
    raises, and [self.datos] afterwards. *)
Definition buscar_cuerpo (cedula : string) (d : DataFrame)
  : resultado (option registro) * DataFrame :=
  let cedula_limpia := limpiar_cedula cedula in
  match columnas_cedula (columns d) with
  | Lanza e => (Lanza e, d)
  | Ok cc =>
      let (r, d') := explorar cedula_limpia (candidatas (columns d) cc) d in
      (Ok r, d')
  end.

(** [GestorNotas.buscar_por_cedula]: [except Exception: return None]. *)
Definition buscar_por_cedula (cedula : string) (d : DataFrame)
  : option registro * DataFrame :=
  match buscar_cuerpo cedula d with
  | (Ok r, d') => (r, d')
  | (Lanza _, d') => (None, d')
  end.

(** *** Vocabulary for stating what the lookup does *)

Definition es_texto (col : etiqueta) : Prop :=
  match col with
  | ETexto _ => True
  | EOtra _ => False
  end.

(** The name of the column, in lower case, contains one of the key words. *)
Definition nombre_de_cedula (col : etiqueta) : bool :=
  match col with
  | ETexto s => existsb (fun palabra => contiene palabra (lower s)) palabras_cedula
  | EOtra _ => false
  end.

(** The cell of [fila] under [c], as text, contains [q]. *)
Definition casa (q : string) (c : etiqueta) (cols : list etiqueta) (fila : list valor) : bool :=
  match valor_en cols c fila with
  | Some v => contiene q (str v)
  | None => false
  end.

(** The columns [cs] overwritten with their text, one after the other. *)
Definition coercionar_fila (cs cols : list etiqueta) (fila : list valor) : list valor :=
  fold_left (fun f c => astype_str_fila c cols f) cs fila.

Definition coercionar (cs : list etiqueta) (d : DataFrame) : DataFrame :=
  fold_left (fun d' c => astype_str c d') cs d.

(** A cell after a lookup: as it was, or its text. *)
Definition igual_o_texto (v' v : valor) : Prop := v' = v \/ v' = VTexto (str v).

Definition es_celda_texto (v : valor) : Prop := exists s, v = VTexto s.

(** ** Projection onto the display columns *)

Definition columnas_especificas : list string :=
  ["Cédula"; "Nombre"; "Módulos"; "Temario"; "Tabla de Especificaciones"; "Prueba Escrita"].

Fixpoint enumerate_desde {A : Type} (k : nat) (l : list A) : list (nat * A) :=
  match l with
  | [] => []
  | x :: l' => (k, x) :: enumerate_desde (S k) l'
  end.

Definition enumerate {A : Type} (l : list A) : list (nat * A) := enumerate_desde 0 l.

(** The rows of [df] with one more cell each, taken from [serie] at the
    same position, missing when the series is shorter. *)
Fixpoint alinear (fs : list (list valor)) (serie : list valor) : list (list valor) :=
  match fs with
  | [] => []
  | f :: fs' =>
      match serie with
      | [] => (f ++ [VNaN]) :: alinear fs' []
      | v :: serie' => (f ++ [v]) :: alinear fs' serie'
      end
  end.

(** [df[col] = serie] for a label [col] that [df] does not have yet: a
    frame without rows takes the index of the series, a frame with rows
    keeps its own. *)
Definition asignar_serie (df : DataFrame) (col : etiqueta) (serie : list valor) : DataFrame :=
  {| columns := columns df ++ [col];
     filas := match filas df with
              | [] => map (fun v => repeat VNaN (List.length (columns df)) ++ [v]) serie
              | fs => alinear fs serie
              end |}.

(** [df[col] = v] for a scalar [v] and a new label [col]. *)
Definition asignar_escalar (df : DataFrame) (col : etiqueta) (v : valor) : DataFrame :=
  {| columns := columns df ++ [col];
     filas := map (fun f => f ++ [v]) (filas df) |}.

(** One turn of the loop that fills [df_html]. *)
Definition paso_html (datos df : DataFrame) (p : nat * string) : DataFrame :=
  let (i, col_especifica) := p in
  if (i <? List.length (columns datos))%nat
  then asignar_serie df (ETexto col_especifica) (iloc_col datos i)
  else asignar_escalar df (ETexto col_especifica) (VTexto "").

(** The loop that fills [df_html] in [generar_html5_interactivo], the same
    in both classes. *)
Definition df_html (datos : DataFrame) : DataFrame :=
  fold_left (paso_html datos) (enumerate columnas_especificas) vacio.

(** The display field [i] of a row of a frame with [n] columns, as the
    specification words it: the cell at position [i] when there is one,
    the empty text otherwise. *)
Definition campo_display (n : nat) (fila : list valor) (i : nat) : valor :=
  if (i <? n)%nat then nth i fila VNaN else VTexto "".

Definition fila_display (n : nat) (fila : list valor) : list valor :=
  map (campo_display n fila) (seq 0 6).

(** ** Merging the workbooks *)

Definition tiene (c : etiqueta) (l : list etiqueta) : bool := existsb (etiqueta_eqb c) l.

(** The labels seen so far and, after them, those of [df] that are new. *)
Definition unir_columnas (acc : list etiqueta) (df : DataFrame) : list etiqueta :=
  acc ++ filter (fun c => negb (tiene c acc)) (columns df).

(** The labels of the frames in the order in which they first occur. *)
Definition union_columnas (dfs : list DataFrame) : list etiqueta :=
  fold_left unir_columnas dfs [].

(** The rows of [df] laid out under the labels [cols]; a label that [df]
    does not have gives a missing cell. *)
Definition reindexar (cols : list etiqueta) (df : DataFrame) : list (list valor) :=
  map (fun fila =>
         map (fun c => match valor_en (columns df) c fila with
                       | Some v => v
                       | None => VNaN
                       end) cols)
      (filas df).

(** [pd.concat(dataframes, ignore_index=True)] on frames with distinct labels. *)
Definition concat (dataframes : list DataFrame) : DataFrame :=
  let cols := union_columnas dataframes in
  {| columns := cols;
     filas := flat_map (reindexar cols) dataframes |}.

(** ** The page *)

(** What [GestorNotasCombinado.generar_html5_interactivo] substitutes into
    its template: the number of source files and the records of [df_html]. *)
Record documento : Type := {
  num_archivos : nat;
  datos_json : list registro
}.

Record GestorNotasCombinado : Type := {
  datos : DataFrame;
  archivos_origen : list string
}.

(** [generar_html5_interactivo()] without a name: [ahora] is the time stamp
    and [escritura_ok] tells whether the file can be opened for writing.
    The exception of a failed write is raised again. *)
Definition generar_html5_interactivo (g : GestorNotasCombinado) (ahora : string)
    (escritura_ok : bool) : resultado (string * documento) :=
  let nombre_archivo := ("tabla_estudiantes_combinada_" ++ ahora ++ ".html")%string in
  let html_content :=
    {| num_archivos := List.length (archivos_origen g);
       datos_json := registros (df_html (datos g)) |} in
  if escritura_ok then Ok (nombre_archivo, html_content) else Lanza ErrorDeEscritura.

(** ** The run *)

(** An entry of the working directory. *)
Record entrada : Type := {
  nombre : string;
  es_archivo : bool;
  contenido : archivo
}.

Fixpoint invertir (s : string) : string :=
  match s with
  | EmptyString => EmptyString
  | String a s' => (invertir s' ++ String a EmptyString)%string
  end.

Definition endswith (suf s : string) : bool := String.prefix (invertir suf) (invertir s).

(** [f.endswith(".xlsx") and not f.startswith("~$") and os.path.isfile(f)]. *)
Definition es_excel (e : entrada) : bool :=
  endswith ".xlsx" (nombre e) && negb (startswith "~$" (nombre e)) && es_archivo e.

(** The lines that [main] prints, without their colours. *)
Inductive mensaje : Type :=
| MTitulo
| MRaya
| MSinArchivos
| MAsegureseExtension
| MEncontrados
| MArchivo (i : nat) (archivo : string)
| MCombinandoArchivos (n : nat)
| MLeyendo (archivo : string)
| MSaltandoPrimeraFila
| MLeyendoNormalmente
| MRegistrosColumnas (num_registros num_columnas : nat)
| MErrorAlLeer (archivo : string)
| MSinArchivosValidos
| MCombinandoDataFrames (n : nat)
| MErrorColumnas
| MColumnasDe (i : nat) (archivo : string) (num_cols : nat)
| MMismoNumero
| MCombinadosExito
| MTotalRegistros (n : nat)
| MHtmlGenerado (archivo : string).

(** The body of the [try] in the loop of [main]: the frame read and
    whether the first row was skipped. *)
Definition leer_en_main (a : archivo) : resultado (DataFrame * bool) :=
  primera_fila <- leer 0 (Some 1) a ;;
  if contiene_palabras_encabezado primera_fila
  then df <- leer 1 None a ;; Ok (df, true)
  else df <- leer 0 None a ;; Ok (df, false).

(** The loop [for archivo in archivos_excel]: the frames appended to
    [dataframes] and the lines printed. *)
Fixpoint leer_archivos (archivos_excel : list entrada) : list DataFrame * list mensaje :=
  match archivos_excel with
  | [] => ([], [])
  | e :: resto =>
      let (dataframes, impreso) := leer_archivos resto in
      match leer_en_main (contenido e) with
      | Ok (df, salto) =>
          (df :: dataframes,
           MLeyendo (nombre e)
             :: (if salto then MSaltandoPrimeraFila else MLeyendoNormalmente)
             :: MRegistrosColumnas (List.length (filas df)) (List.length (columns df))
             :: impreso)
      | Lanza _ =>
          (dataframes, MLeyendo (nombre e) :: MErrorAlLeer (nombre e) :: impreso)
      end
  end.

(** [len(set(l))]. *)
Definition len_set (l : list nat) : nat := List.length (nodup Nat.eq_dec l).

(** How the interpreter leaves [main]. *)
Inductive terminacion : Type :=
| Retorna
| Propaga (e : excepcion).

(** The exit status of the process: [main()] is the last statement of the
    script, so 0 when it returns and 1 when an exception leaves it. *)
Definition codigo_salida (t : terminacion) : Z :=
  match t with
  | Retorna => 0
  | Propaga _ => 1
  end.

Record ejecucion : Type := {
  salida : list mensaje;
  datos_combinados : option DataFrame;
  escrito : option (string * documento);
  fin : terminacion
}.

(** The lines of the diagnostic of differing column counts:
    [enumerate(zip(archivos_excel, columnas_por_archivo), 1)]. *)
Definition lineas_columnas (archivos_excel : list string) (columnas_por_archivo : list nat)
  : list mensaje :=
  map (fun '((i, (archivo, num_cols)) : nat * (string * nat)) => MColumnasDe i archivo num_cols)
      (enumerate_desde 1 (combine archivos_excel columnas_por_archivo)).

(** [main], on the listing of the working directory. *)
Definition main (directorio : list entrada) (ahora : string) (escritura_ok : bool) : ejecucion :=
  let inicio := [MTitulo; MRaya] in
  let archivos_excel := filter es_excel directorio in
  match archivos_excel with
  | [] =>
      {| salida := inicio ++ [MSinArchivos; MAsegureseExtension];
         datos_combinados := None; escrito := None; fin := Retorna |}
  | _ =>
      let listado :=
        MEncontrados
          :: map (fun '((i, e) : nat * entrada) => MArchivo i (nombre e))
                 (enumerate_desde 1 archivos_excel)
          ++ [MCombinandoArchivos (List.length archivos_excel)] in
      let (dataframes, lectura) := leer_archivos archivos_excel in
      match dataframes with
      | [] =>
          {| salida := inicio ++ listado ++ lectura ++ [MSinArchivosValidos];
             datos_combinados := None; escrito := None; fin := Retorna |}
      | _ =>
          let antes :=
            inicio ++ listado ++ lectura
              ++ [MCombinandoDataFrames (List.length dataframes)] in
          let columnas_por_archivo := map (fun df => List.length (columns df)) dataframes in
          if (1 <? len_set columnas_por_archivo)%nat then
            {| salida := antes ++ [MErrorColumnas]
                           ++ lineas_columnas (map nombre archivos_excel) columnas_por_archivo
                           ++ [MMismoNumero];
               datos_combinados := None; escrito := None; fin := Retorna |}
          else
            let combinados := concat dataframes in
            let antes := antes ++ [MCombinadosExito;
                                   MTotalRegistros (List.length (filas combinados))] in
            let gestor := {| datos := combinados;
                             archivos_origen := map nombre archivos_excel |} in
            match generar_html5_interactivo gestor ahora escritura_ok with
            | Ok (archivo_generado, html) =>
                {| salida := antes ++ [MHtmlGenerado archivo_generado];
                   datos_combinados := Some combinados;
                   escrito := Some (archivo_generado, html);
                   fin := Retorna |}
            | Lanza e =>
                {| salida := antes;
                   datos_combinados := Some combinados;
                   escrito := None;
                   fin := Propaga e |}
            end
      end
  end.

(** The lines of the diagnostic of differing column counts in what was printed. *)
Definition es_linea_columnas (m : mensaje) : bool :=
  match m with
  | MColumnasDe _ _ _ => true
  | _ => false
  end.

(** The files found and the frames read from them. *)
Definition archivos_de (directorio : list entrada) : list entrada :=
  filter es_excel directorio.

Definition dataframes_de (directorio : list entrada) : list DataFrame :=
  fst (leer_archivos (archivos_de directorio)).

Definition num_columnas (df : DataFrame) : nat := List.length (columns df).

(** The runs that the specification calls failed: no workbook found, none
    read, or workbooks with differing numbers of columns. *)
Definition sin_resultado (directorio : list entrada) : Prop :=
  archivos_de directorio = [] \/
  dataframes_de directorio = [] \/
  1 < len_set (map num_columnas (dataframes_de directorio)).

(** ** The script of the page *)

Module Pagina.

(** The values that [JSON.parse] gives for the cells of [tableData]
    (numbers: the integers), and [undefined] for a property that an object
    does not have. *)
Inductive js : Type :=
| JNull
| JUndefined
| JNum (z : Z)
| JStr (s : string)
| JBool (b : bool).

Definition objeto : Type := list (string * js).

(** [row[k]]. *)
Fixpoint prop (row : objeto) (k : string) : js :=
  match row with
  | [] => JUndefined
  | (k', v) :: row' => if String.eqb k' k then v else prop row' k
  end.

(** The values that count as false in a condition. *)
Definition falsy (v : js) : bool :=
  match v with
  | JNull | JUndefined => true
  | JNum z => Z.eqb z 0
  | JStr s => String.eqb s ""
  | JBool b => negb b
  end.

(** [v || '']. *)
Definition o_vacio (v : js) : js := if falsy v then JStr "" else v.

(** [String(v)]. *)
Definition String_ (v : js) : string :=
  match v with
  | JNull => "null"
  | JUndefined => "undefined"
  | JNum z => de_entero z
  | JStr s => s
  | JBool true => "true"
  | JBool false => "false"
  end.

(** Which of the four blocks under the search box is shown. *)
Inductive vista : Type :=
| InitialMessage
| NoResults
| DataTable (cuerpo : list (list string)).

Definition columns_js : list string :=
  ["Cédula"; "Nombre"; "Módulos"; "Temario"; "Tabla de Especificaciones"; "Prueba Escrita"].

(** [renderTable(data)], with the text of the search box at that moment. *)
Definition renderTable (value : string) (data : list objeto) : vista :=
  match data with
  | [] => if String.eqb (trim value) "" then InitialMessage else NoResults
  | _ => DataTable (map (fun row => map (fun col => String_ (o_vacio (prop row col))) columns_js) data)
  end.

(** The test of the [filter] in [searchTable]. *)
Definition fila_coincide (searchTerm : string) (row : objeto) : bool :=
  let cedula := lower (String_ (o_vacio (prop row "Cédula"))) in
  String.eqb cedula searchTerm.

(** The value that [searchTable] gives to [filteredData]. *)
Definition filtrar_tabla (tableData : list objeto) (value : string) : list objeto :=
  let searchTerm := trim (lower value) in
  if String.eqb searchTerm "" then []
  else filter (fun row => fila_coincide searchTerm row) tableData.

(** The page: the text of the search box, [filteredData] and what is shown. *)
Record estado : Type := {
  value : string;
  filteredData : list objeto;
  visible : vista
}.

Definition searchTable (tableData : list objeto) (p : estado) : estado :=
  let fd := filtrar_tabla tableData (value p) in
  {| value := value p; filteredData := fd; visible := renderTable (value p) fd |}.

Definition clearSearch (p : estado) : estado :=
  {| value := ""; filteredData := []; visible := renderTable "" [] |}.

(** The listener of [input]: the box now holds [texto]; what is not a
    digit is taken out of it. *)
Definition al_escribir (texto : string) (p : estado) : estado :=
  let cleanValue := filtrar es_digito texto in
  {| value := if String.eqb texto cleanValue then texto else cleanValue;
     filteredData := filteredData p;
     visible := visible p |}.

(** After [DOMContentLoaded]: [filteredData] is a copy of [tableData] and
    [renderTable([])] has run on the empty box. *)
Definition inicial (tableData : list objeto) : estado :=
  {| value := ""; filteredData := tableData; visible := renderTable "" [] |}.

(** What the user does: edit the box, release a key in it, press Enter in
    it, press "Buscar", press "Limpiar". *)
Inductive evento : Type :=
| Editar (texto : string)
| SoltarTecla
| PulsarEnter
| PulsarBuscar
| PulsarLimpiar.

Definition paso (tableData : list objeto) (p : estado) (e : evento) : estado :=
  match e with
  | Editar texto => al_escribir texto p
  | SoltarTecla | PulsarEnter | PulsarBuscar => searchTable tableData p
  | PulsarLimpiar => clearSearch p
  end.

Definition correr (tableData : list objeto) (es : list evento) : estado :=
  fold_left (paso tableData) es (inicial tableData).

End Pagina.

(** ** Sample data *)

Module Ejemplos.

(** Names and identity numbers, one of them stored as a number. *)
Definition marco_cedulas : DataFrame :=
  {| columns := [ETexto "Nombre"; ETexto "Cédula"];
     filas := [[VTexto "Ana"; VTexto "01234567"];
               [VTexto "Luis"; VEntero 7654321]] |}.

(** A sheet whose header line holds the number 2023 in its first cell. *)
Definition marco_numerado : DataFrame :=
  {| columns := [EOtra "2023"; ETexto "Cédula"];
     filas := [[VEntero 1; VTexto "01234567"]] |}.

(** Identity numbers stored as numbers. *)
Definition marco_enteros : DataFrame :=
  {| columns := [ETexto "cedula"; ETexto "edad"];
     filas := [[VEntero 123; VEntero 20]; [VEntero 456; VEntero 31]] |}.

(** Three records under eight columns. *)
Definition marco_ocho : DataFrame :=
  {| columns := map ETexto ["a"; "b"; "c"; "d"; "e"; "f"; "g"; "h"];
     filas := [map VEntero [11; 12; 13; 14; 15; 16; 17; 18]%Z;
               map VEntero [21; 22; 23; 24; 25; 26; 27; 28]%Z;
               map VEntero [31; 32; 33; 34; 35; 36; 37; 38]%Z] |}.

(** Two records under four columns. *)
Definition marco_cuatro : DataFrame :=
  {| columns := map ETexto ["Prueba Escrita"; "Temario"; "Nombre"; "Cédula"];
     filas := [map VTexto ["p1"; "t1"; "n1"; "c1"];
               map VTexto ["p2"; "t2"; "n2"; "c2"]] |}.

(** A sheet with a title line above the line of column names. *)
Definition hoja_con_titulo : hoja :=
  [[VTexto "Reporte"; VNaN];
   [VTexto "Nombre"; VTexto "Módulos"];
   [VTexto "Ana"; VEntero 3];
   [VTexto "Luis"; VEntero 4]].

(** A sheet that starts with the line of column names. *)
Definition hoja_simple : hoja :=
  [[VTexto "Cedula"; VTexto "Nombre"];
   [VEntero 5; VTexto "Ana"];
   [VEntero 6; VTexto "Luis"]].

(** Two sources with two columns each and one label in common. *)
Definition fuentes_distintas : list DataFrame :=
  [read_excel 0 None hoja_simple; read_excel 1 None hoja_con_titulo].

(** Two sources under the same labels, with a row that occurs in both. *)
Definition fuentes_iguales : list DataFrame :=
  [{| columns := [ETexto "Cedula"; ETexto "Nombre"];
      filas := [[VEntero 9; VTexto "Zoe"]; [VEntero 5; VTexto "Ana"]] |};
   read_excel 0 None hoja_simple].

Definition hoja_tres_columnas : hoja :=
  [[VTexto "x"; VTexto "y"; VTexto "z"];
   [VEntero 1; VEntero 2; VEntero 3]].

Definition entrada_a : entrada :=
  {| nombre := "a.xlsx"; es_archivo := true; contenido := Ilegible |}.

Definition entrada_b : entrada :=
  {| nombre := "b.xlsx"; es_archivo := true; contenido := Libro hoja_simple |}.

Definition entrada_c : entrada :=
  {| nombre := "c.xlsx"; es_archivo := true; contenido := Libro hoja_tres_columnas |}.

(** The lock file that a spreadsheet program leaves next to an open workbook. *)
Definition entrada_bloqueo : entrada :=
  {| nombre := "~$c.xlsx"; es_archivo := true; contenido := Ilegible |}.

(** A workbook that cannot be read, then one with two columns, then one
    with three. *)
Definition directorio_con_ilegible : list entrada :=
  [entrada_a; entrada_b; entrada_c; entrada_bloqueo].

(** The same without the workbook that cannot be read. *)
Definition directorio_desigual : list entrada := [entrada_b; entrada_c].

Definition directorio_ilegible : list entrada := [entrada_a; entrada_bloqueo].

Definition directorio_bueno : list entrada := [entrada_b].

Definition una_hora : string := "20250101_120000".

(** Rows of the page: an identity number that is the number zero and one
    that is text with a leading zero. *)
Definition fila_cero : Pagina.objeto :=
  [("Cédula", Pagina.JNum 0); ("Nombre", Pagina.JStr "Eva")].

Definition fila_ana : Pagina.objeto :=
  [("Cédula", Pagina.JStr "0123"); ("Nombre", Pagina.JStr "Ana")].

Definition tabla_pagina : list Pagina.objeto := [fila_cero; fila_ana].

End Ejemplos.

(** ** Vocabulary for repeated lookups *)

(** A record with every value replaced by its text. *)
Definition textos_registro (r : registro) : list (etiqueta * string) :=
  map (fun p => (fst p, str (snd p))) r.

(** Two rows with the same text in every cell. *)
Definition mismo_texto_fila (f1 f2 : list valor) : Prop := map str f1 = map str f2.

(** Two frames with the same labels and the same text in every cell. *)
Definition mismo_texto (d1 d2 : DataFrame) : Prop :=
  columns d1 = columns d2 /\ Forall2 mismo_texto_fila (filas d1) (filas d2).

(** The queries that [limpiar_cedula] empties: hyphens and spaces only. *)
Definition solo_guiones_y_espacios (cedula : string) : bool :=
  todos (fun a => Ascii.eqb a "-" || Ascii.eqb a " ") cedula.

(** ** The header heuristic on a line of the file *)

(** The test of the header heuristic applied to a line of the sheet: the
    lower-cased text of its cells, joined by spaces, contains a key word. *)
Definition linea_con_palabra (linea : list valor) : bool :=
  existsb (fun palabra =>
             contiene palabra (unir " " (map (fun v => lower (str v)) linea)))
          palabras_encabezado.

(** ** Vocabulary for sheets *)

Definition sin_espacios (p : string) : bool :=
  todos (fun a => negb (Ascii.eqb a " ")) p.

(** Every line of the sheet has [n] cells. *)
Definition hoja_rectangular (n : nat) (h : hoja) : Prop :=
  Forall (fun linea => List.length linea = n) h.

(** Some key word of the header heuristic occurs in the text of the cell. *)
Definition celda_con_palabra (v : valor) : bool :=
  existsb (fun palabra => contiene palabra (lower (str v))) palabras_encabezado.

(** ** Vocabulary for the run *)

(** The frame that the loop of [main] appends for a file, if any. *)
Definition marco_leido (e : entrada) : list DataFrame :=
  match cargar_datos (contenido e) with
  | Ok df => [df]
  | Lanza _ => []
  end.

Definition falla_lectura (e : entrada) : bool :=
  match cargar_datos (contenido e) with
  | Ok _ => false
  | Lanza _ => true
  end.

Definition es_error_al_leer (m : mensaje) : bool :=
  match m with
  | MErrorAlLeer _ => true
  | _ => false
  end.

(** ** Instances of the two classes *)

(** The values that the constructors store in an instance. *)
Inductive atributo : Type :=
| AtTexto (s : string)
| AtMarco (d : DataFrame)
| AtNombres (l : list string).

(** An instance: the attributes that were assigned to it, by name. *)
Definition instancia : Type := list (string * atributo).

(** [self.n]. *)
Fixpoint getattr (self : instancia) (n : string) : resultado atributo :=
  match self with
  | [] => Lanza AttributeError
  | (n', a) :: resto => if String.eqb n' n then Ok a else getattr resto n
  end.

(** [a.columns], [a.iloc]: only a frame has them. *)
Definition como_marco (a : atributo) : resultado DataFrame :=
  match a with
  | AtMarco d => Ok d
  | _ => Lanza AttributeError
  end.

(** [len(a)]. *)
Definition len_atributo (a : atributo) : nat :=
  match a with
  | AtTexto s => String.length s
  | AtMarco d => List.length (filas d)
  | AtNombres l => List.length l
  end.

(** [GestorNotas(archivo_excel)]: the constructor stores the path, loads
    the workbook and stores the frame; it raises when the load raises. *)
Definition GestorNotas_init (archivo_excel : string) (a : archivo) : resultado instancia :=
  df <- cargar_datos a ;;
  Ok [("archivo_excel", AtTexto archivo_excel); ("datos", AtMarco df)].

(** [GestorNotasCombinado(datos_combinados, archivos_origen)]. *)
Definition GestorNotasCombinado_init (datos_combinados : DataFrame)
    (archivos_origen : list string) : instancia :=
  [("datos", AtMarco datos_combinados); ("archivos_origen", AtNombres archivos_origen)].

(** The body that the two methods [generar_html5_interactivo] share: the
    projection of [self.datos], then the template, which asks for
    [len(self.archivos_origen)], then the write. *)
Definition generar_html5_de (prefijo : string) (self : instancia) (ahora : string)
    (escritura_ok : bool) : resultado (string * documento) :=
  let nombre_archivo := (prefijo ++ ahora ++ ".html")%string in
  a_datos <- getattr self "datos" ;;
  d <- como_marco a_datos ;;
  let json := registros (df_html d) in
  a_origen <- getattr self "archivos_origen" ;;
  let html_content := {| num_archivos := len_atributo a_origen; datos_json := json |} in
  if escritura_ok then Ok (nombre_archivo, html_content) else Lanza ErrorDeEscritura.

(** [GestorNotas.generar_html5_interactivo()]. *)
Definition GestorNotas_generar_html5 : instancia -> string -> bool -> resultado (string * documento) :=
  generar_html5_de "tabla_estudiantes_".

(** [GestorNotasCombinado.generar_html5_interactivo()], on the instance. *)
Definition GestorNotasCombinado_generar_html5 : instancia -> string -> bool -> resultado (string * documento) :=
  generar_html5_de "tabla_estudiantes_combinada_".

(** ** Vocabulary for the page *)

(** The events that run [searchTable]. *)
Definition es_busqueda (e : Pagina.evento) : Prop :=
  match e with
  | Pagina.SoltarTecla | Pagina.PulsarEnter | Pagina.PulsarBuscar => True
  | _ => False
  end.

(** ** Showing a student *)

(** White space for [str.strip()] of Python, among the ASCII characters. *)
Definition es_espacio_py (a : ascii) : bool :=
  let n := nat_of_ascii a in
  ((n =? 32) || ((9 <=? n) && (n <=? 13)) || ((28 <=? n) && (n <=? 31)))%nat.

Fixpoint lstrip (s : string) : string :=
  match s with
  | EmptyString => EmptyString
  | String a s' => if es_espacio_py a then lstrip s' else s
  end.

Fixpoint rstrip (s : string) : string :=
  match s with
  | EmptyString => EmptyString
  | String a s' =>
      match rstrip s' with
      | EmptyString => if es_espacio_py a then EmptyString else String a EmptyString
      | r => String a r
      end
  end.

(** [s.strip()]. *)
Definition strip (s : string) : string := rstrip (lstrip s).

(** [pd.notna(v)]. *)
Definition notna (v : valor) : bool :=
  match v with
  | VNaN => false
  | _ => true
  end.

(** The lines that [mostrar_informacion_estudiante] prints; a field is
    printed as its label and the text of its value. *)
Inductive linea : Type :=
| LNoEncontrado (cedula : string)
| LRaya
| LTitulo
| LCampo (campo : etiqueta) (texto : string).

(** [pd.notna(valor) and str(valor).strip() != ""]. *)
Definition se_muestra (p : etiqueta * valor) : bool :=
  notna (snd p) && negb (String.eqb (strip (str (snd p))) "").

(** [GestorNotas.mostrar_informacion_estudiante]: what is printed, and
    [self.datos] afterwards. *)
Definition mostrar_informacion_estudiante (cedula : string) (d : DataFrame)
  : list linea * DataFrame :=
  let (estudiante, d') := buscar_por_cedula cedula d in
  match estudiante with
  | None => ([LNoEncontrado cedula], d')
  | Some r =>
      ([LRaya; LTitulo; LRaya]
         ++ map (fun p => LCampo (fst p) (str (snd p))) (filter se_muestra r)
         ++ [LRaya], d')
  end.

Definition es_visible (a : ascii) : bool := negb (es_espacio_py a).

Definition tiene_visible (s : string) : bool := negb (todos es_espacio_py s).

(** ** The workbook report *)

(** The exceptions of [generar_excel_con_timestamp]: a label that is not a
    [str] handed to [", ".join], and a workbook that cannot be written. *)
Inductive error_excel : Type :=
| TypeError
| ErrorAlEscribirLibro.

(** The labels as the [str] values that [join] expects; none when one of
    them is not a [str]. *)
Fixpoint nombres_de (cols : list etiqueta) : option (list string) :=
  match cols with
  | [] => Some []
  | ETexto s :: resto => option_map (cons s) (nombres_de resto)
  | EOtra _ :: _ => None
  end.

(** [", ".join(self.datos.columns)]. *)
Definition columnas_disponibles (cols : list etiqueta) : error_excel + string :=
  match nombres_de cols with
  | Some nombres => inr (unir ", " nombres)
  | None => inl TypeError
  end.

Definition valor_eq_dec (a b : valor) : {a = b} + {a <> b}.
Proof.
  decide equality; try apply string_dec; apply Z.eq_dec.
Defined.

(** One entry of [df.count()]: the cells of the column that are not missing. *)
Definition contar_no_nulos (columna : list valor) : nat :=
  List.length (filter notna columna).

(** [serie.nunique()]: the distinct values among the cells that are not
    missing; values of different kinds count as different. *)
Definition nunique (columna : list valor) : nat :=
  List.length (nodup valor_eq_dec (filter notna columna)).

(** [self.datos[col]]. *)
Definition columna_de (d : DataFrame) (col : etiqueta) : list valor :=
  flat_map (fun fila => match valor_en (columns d) col fila with
                        | Some v => [v]
                        | None => []
                        end) (filas d).

Record info_general : Type := {
  Fecha_Generacion : string;
  Archivo_Origen : string;
  Total_Registros : nat;
  Columnas_Disponibles : string
}.

Record resumen_columna : Type := {
  Columna : etiqueta;
  Tipo_Dato : string;
  Valores_No_Nulos : nat;
  Valores_Unicos : nat
}.

(** The three sheets of the report. *)
Record libro_excel : Type := {
  Informacion_General : info_general;
  Datos_Completos : DataFrame;
  Resumen_Columnas : list resumen_columna
}.

Section Exportar.

(** The name that pandas gives to the type of a column ([df.dtypes]). *)
Variable dtype : list valor -> string.

(** The frame [resumen_columnas], one line per column. *)
Definition resumen_columnas (d : DataFrame) : list resumen_columna :=
  map (fun '((i, col) : nat * etiqueta) =>
         {| Columna := col;
            Tipo_Dato := dtype (iloc_col d i);
            Valores_No_Nulos := contar_no_nulos (iloc_col d i);
            Valores_Unicos := nunique (columna_de d col) |})
      (enumerate (columns d)).

(** [GestorNotas.generar_excel_con_timestamp(nombre_base)]: [marca] and
    [fecha] are the two printings of the time, [escritura_ok] tells
    whether the workbook can be written.  The exceptions are raised again. *)
Definition generar_excel_con_timestamp (archivo_excel : string) (d : DataFrame)
    (nombre_base marca fecha : string) (escritura_ok : bool)
  : error_excel + (string * libro_excel) :=
  let nombre_archivo := (nombre_base ++ "_" ++ marca ++ ".xlsx")%string in
  match columnas_disponibles (columns d) with
  | inl e => inl e
  | inr disponibles =>
      let info :=
        {| Fecha_Generacion := fecha;
           Archivo_Origen := archivo_excel;
           Total_Registros := List.length (filas d);
           Columnas_Disponibles := disponibles |} in
      if escritura_ok
      then inr (nombre_archivo,
                {| Informacion_General := info;
                   Datos_Completos := d;
                   Resumen_Columnas := resumen_columnas d |})
      else inl ErrorAlEscribirLibro
  end.

End Exportar.

(** ** Vocabulary for what a lookup writes *)

(** The candidate columns that the scan goes through: those in which no
    row matches, up to the first in which some row matches, that one
    included. *)
Fixpoint visitadas (q : string) (cands cols : list etiqueta) (fs : list (list valor))
  : list etiqueta :=
  match cands with
  | [] => []
  | c :: resto =>
      if existsb (casa q c cols) fs then [c] else c :: visitadas q resto cols fs
  end.

(** The columns that [buscar_por_cedula] goes through for a query; none
    when the first loop raises. *)
Definition columnas_visitadas (cedula : string) (d : DataFrame) : list etiqueta :=
  match columnas_cedula (columns d) with
  | Ok cc =>
      visitadas (limpiar_cedula cedula) (candidatas (columns d) cc) (columns d) (filas d)
  | Lanza _ => []
  end.

(** The row with every cell under one of the labels [cs] replaced by its
    text, and the other cells as they are. *)
Fixpoint texto_en (cs cols : list etiqueta) (fila : list valor) : list valor :=
  match cols, fila with
  | col :: cols', v :: fila' =>
      (if tiene col cs then VTexto (str v) else v) :: texto_en cs cols' fila'
  | _, _ => fila
  end.

(** ** Tactics *)

(** A concrete frame has distinct labels and full rows. *)
Ltac marco_valido_concreto :=
  repeat constructor; simpl; intuition discriminate.

(** A line is among those printed. *)
Ltac en_salida :=
  unfold lineas_columnas; simpl;
  repeat (rewrite in_app_iff; simpl); tauto.

(** * Properties *)

(** ** Text *)

Section TextoProps.

Lemma prefix_app (p s : string) :
  String.prefix p s = true <-> exists t, s = (p ++ t)%string.
Proof.
  revert s; induction p as [|a p IH]; intros s.
  - split; [intros _; exists s; reflexivity | intros _; destruct s; reflexivity].
  - destruct s as [|b s]; simpl.
    + split; [discriminate | intros [t Ht]; discriminate].
    + destruct (Ascii.ascii_dec a b) as [->|Hab].
      * rewrite IH. split; intros [t Ht]; exists t; congruence.
      * split; [discriminate | intros [t Ht]; congruence].
Qed.

Lemma contiene_eq (sub s : string) :
  contiene sub s =
  if String.prefix sub s then true
  else match s with
       | EmptyString => false
       | String _ s' => contiene sub s'
       end.
Proof. destruct s; reflexivity. Qed.

(** [contiene] is containment of a contiguous run. *)
Lemma contiene_spec (sub s : string) :
  contiene sub s = true <-> exists pre post, s = (pre ++ sub ++ post)%string.
Proof.
  induction s as [|a s IH]; rewrite contiene_eq.
  - destruct (String.prefix sub "") eqn:Hp.
    + apply prefix_app in Hp as [t Ht].
      split; [intros _; exists "", t; exact Ht | reflexivity].
    + split; [discriminate|].
      intros (pre & post & H).
      destruct pre; [|discriminate].
      assert (String.prefix sub "" = true) by (apply prefix_app; exists post; exact H).
      congruence.
  - destruct (String.prefix sub (String a s)) eqn:Hp.
    + apply prefix_app in Hp as [t Ht].
      split; [intros _; exists "", t; exact Ht | reflexivity].
    + rewrite IH. split.
      * intros (pre & post & ->). exists (String a pre), post. reflexivity.
      * intros (pre & post & H).
        destruct pre as [|b pre].
        -- assert (String.prefix sub (String a s) = true)
             by (apply prefix_app; exists post; exact H).
           congruence.
        -- simpl in H. injection H as _ H. exists pre, post. exact H.
Qed.

Lemma contiene_vacia (s : string) : contiene "" s = true.
Proof. apply contiene_spec. exists "", s. reflexivity. Qed.

Lemma quitar_filtrar (c : ascii) (s : string) :
  quitar c s = filtrar (fun a => negb (Ascii.eqb a c)) s.
Proof.
  induction s as [|a s IH]; simpl; [reflexivity|].
  destruct (Ascii.eqb a c); simpl; rewrite IH; reflexivity.
Qed.

Lemma filtrar_filtrar (f g : ascii -> bool) (s : string) :
  filtrar f (filtrar g s) = filtrar (fun a => g a && f a) s.
Proof.
  induction s as [|a s IH]; simpl; [reflexivity|].
  destruct (g a); simpl; [destruct (f a)|]; rewrite IH; reflexivity.
Qed.

Lemma filtrar_todos (f : ascii -> bool) (s : string) : todos f (filtrar f s) = true.
Proof.
  induction s as [|a s IH]; simpl; [reflexivity|].
  destruct (f a) eqn:Hf; simpl; [rewrite Hf|]; exact IH.
Qed.

Lemma filtrar_id (f : ascii -> bool) (s : string) : todos f s = true -> filtrar f s = s.
Proof.
  induction s as [|a s IH]; simpl; [reflexivity|].
  intros H. apply andb_true_iff in H as [Ha Hs]. rewrite Ha, IH by exact Hs. reflexivity.
Qed.

Lemma digito_no_mayuscula (a : ascii) : es_digito a = true -> es_mayuscula_ascii a = false.
Proof.
  unfold es_digito, es_mayuscula_ascii. intros H.
  apply andb_true_iff in H as [H1 H2].
  apply Nat.leb_le in H1, H2.
  apply andb_false_iff. left. apply Nat.leb_gt. lia.
Qed.

Lemma digito_no_latin1 (a : ascii) : es_digito a = true -> es_mayuscula_latin1 a = false.
Proof.
  unfold es_digito, es_mayuscula_latin1. intros H.
  apply andb_true_iff in H as [H1 H2].
  apply Nat.leb_le in H1, H2.
  replace (128 <=? nat_of_ascii a)%nat with false by (symmetry; apply Nat.leb_gt; lia).
  reflexivity.
Qed.

Lemma digito_no_espacio (a : ascii) : es_digito a = true -> es_espacio a = false.
Proof.
  unfold es_digito, es_espacio. intros H.
  apply andb_true_iff in H as [H1 H2].
  apply Nat.leb_le in H1, H2.
  apply orb_false_iff. split.
  - apply Nat.eqb_neq. lia.
  - apply andb_false_iff. right. apply Nat.leb_gt. lia.
Qed.

Lemma lower_desde_digitos (b : bool) (s : string) :
  todos es_digito s = true -> lower_desde b s = s.
Proof.
  revert b; induction s as [|a s IH]; intros b H; simpl; [reflexivity|].
  simpl in H. apply andb_true_iff in H as [Ha Hs].
  rewrite (digito_no_mayuscula a Ha), (digito_no_latin1 a Ha), (IH _ Hs).
  destruct b; reflexivity.
Qed.

(** Lower-casing leaves a run of digits as it is. *)
Lemma lower_digitos (s : string) : todos es_digito s = true -> lower s = s.
Proof. apply lower_desde_digitos. Qed.

Lemma ltrim_digitos (s : string) : todos es_digito s = true -> ltrim s = s.
Proof.
  destruct s as [|a s]; simpl; [reflexivity|].
  intros H. apply andb_true_iff in H as [Ha _].
  rewrite (digito_no_espacio a Ha). reflexivity.
Qed.

Lemma rtrim_digitos (s : string) : todos es_digito s = true -> rtrim s = s.
Proof.
  induction s as [|a s IH]; simpl; [reflexivity|].
  intros H. apply andb_true_iff in H as [Ha Hs].
  rewrite (IH Hs). destruct s; [|reflexivity].
  rewrite (digito_no_espacio a Ha). reflexivity.
Qed.

(** [trim] leaves a run of digits as it is. *)
Lemma trim_digitos (s : string) : todos es_digito s = true -> trim s = s.
Proof.
  intros H. unfold trim. rewrite (ltrim_digitos s H). apply rtrim_digitos, H.
Qed.

End TextoProps.

(** ** Lists *)

Section Listas.

Context {A B : Type}.

Lemma filter_map_conm (P : B -> bool) (g : A -> B) (l : list A) :
  filter P (map g l) = map g (filter (fun x => P (g x)) l).
Proof.
  induction l as [|x l IH]; simpl; [reflexivity|].
  destruct (P (g x)); simpl; rewrite IH; reflexivity.
Qed.

(** The head of [filter P l] is the first element of [l] that satisfies [P]. *)
Lemma filter_primera (P : A -> bool) (l : list A) (x : A) (resto : list A) :
  filter P l = x :: resto ->
  exists antes despues,
    l = antes ++ x :: despues /\ (forall y, In y antes -> P y = false) /\ P x = true.
Proof.
  induction l as [|y l IH]; simpl; [discriminate|].
  destruct (P y) eqn:Hy.
  - intros H. injection H as -> _.
    exists [], l. repeat split; [intros ? []| exact Hy].
  - intros H. destruct (IH H) as (antes & despues & -> & Hantes & Hx).
    exists (y :: antes), despues. repeat split; [|exact Hx].
    intros z [<-|Hz]; [exact Hy | apply Hantes, Hz].
Qed.

Lemma filter_primera_inv (P : A -> bool) (antes despues : list A) (x : A) :
  (forall y, In y antes -> P y = false) -> P x = true ->
  filter P (antes ++ x :: despues) = x :: filter P despues.
Proof.
  intros Hantes Hx. induction antes as [|y antes IH]; simpl.
  - rewrite Hx. reflexivity.
  - rewrite (Hantes y (or_introl eq_refl)). apply IH.
    intros z Hz. apply Hantes. right. exact Hz.
Qed.

Lemma filter_nil_iff (P : A -> bool) (l : list A) :
  filter P l = [] <-> forall x, In x l -> P x = false.
Proof.
  induction l as [|y l IH]; simpl.
  - split; [intros _ ? [] | reflexivity].
  - destruct (P y) eqn:Hy.
    + split; [discriminate|]. intros H. specialize (H y (or_introl eq_refl)). congruence.
    + rewrite IH. split.
      * intros H x [<-|Hx]; [exact Hy | apply H, Hx].
      * intros H x Hx. apply H. right. exact Hx.
Qed.

End Listas.

(** ** Frames *)

Section Marcos.

Lemma etiqueta_eqb_eq (a b : etiqueta) : etiqueta_eqb a b = true <-> a = b.
Proof.
  destruct a as [s|s], b as [t|t]; simpl;
    try (split; [discriminate | intros H; discriminate]);
    rewrite String.eqb_eq; split; congruence.
Qed.

Lemma etiqueta_eqb_refl (a : etiqueta) : etiqueta_eqb a a = true.
Proof. apply etiqueta_eqb_eq. reflexivity. Qed.

Lemma str_texto (v : valor) : str (VTexto (str v)) = str v.
Proof. reflexivity. Qed.

Lemma astype_str_fila_length (c : etiqueta) (cols : list etiqueta) (fila : list valor) :
  List.length (astype_str_fila c cols fila) = List.length fila.
Proof.
  revert fila; induction cols as [|col cols IH]; intros [|v fila]; simpl; auto.
Qed.

(** The cell under [c] after the column [c'] was overwritten with its text. *)
Lemma valor_en_astype (c c' : etiqueta) (cols : list etiqueta) (fila : list valor) :
  valor_en cols c (astype_str_fila c' cols fila) =
  option_map (fun v => if etiqueta_eqb c c' then VTexto (str v) else v)
             (valor_en cols c fila).
Proof.
  revert fila; induction cols as [|col cols IH]; intros [|v fila]; simpl; try reflexivity.
  destruct (etiqueta_eqb col c) eqn:Hc; [|apply IH].
  apply etiqueta_eqb_eq in Hc as ->. reflexivity.
Qed.

Lemma coincide_astype (q : string) (c : etiqueta) (cols : list etiqueta) (fila : list valor) :
  coincide q c cols (astype_str_fila c cols fila) = casa q c cols fila.
Proof.
  unfold coincide, casa. rewrite valor_en_astype, etiqueta_eqb_refl.
  destruct (valor_en cols c fila); reflexivity.
Qed.

Lemma casa_astype (q : string) (c c' : etiqueta) (cols : list etiqueta) (fila : list valor) :
  casa q c cols (astype_str_fila c' cols fila) = casa q c cols fila.
Proof.
  unfold casa. rewrite valor_en_astype.
  destruct (valor_en cols c fila); simpl; [|reflexivity].
  destruct (etiqueta_eqb c c'); reflexivity.
Qed.

Lemma coercionar_fila_app (cs cs' cols : list etiqueta) (fila : list valor) :
  coercionar_fila (cs ++ cs') cols fila = coercionar_fila cs' cols (coercionar_fila cs cols fila).
Proof. apply fold_left_app. Qed.

Lemma casa_coercionar (q : string) (c : etiqueta) (cs cols : list etiqueta) (fila : list valor) :
  casa q c cols (coercionar_fila cs cols fila) = casa q c cols fila.
Proof.
  revert fila; induction cs as [|c' cs IH]; intros fila; [reflexivity|].
  change (coercionar_fila (c' :: cs) cols fila)
    with (coercionar_fila cs cols (astype_str_fila c' cols fila)).
  rewrite IH. apply casa_astype.
Qed.

Lemma columns_coercionar (cs : list etiqueta) (d : DataFrame) :
  columns (coercionar cs d) = columns d.
Proof.
  revert d; induction cs as [|c cs IH]; intros d; [reflexivity|].
  change (coercionar (c :: cs) d) with (coercionar cs (astype_str c d)).
  rewrite IH. reflexivity.
Qed.

Lemma filas_coercionar (cs : list etiqueta) (d : DataFrame) :
  filas (coercionar cs d) = map (coercionar_fila cs (columns d)) (filas d).
Proof.
  revert d; induction cs as [|c cs IH]; intros d.
  - symmetry. apply map_id.
  - change (coercionar (c :: cs) d) with (coercionar cs (astype_str c d)).
    rewrite IH. simpl. rewrite map_map. reflexivity.
Qed.

End Marcos.

(** ** Lookup by identity number *)

Section Busqueda.

Lemma explorar_cons (q : string) (c : etiqueta) (cs : list etiqueta) (d : DataFrame) :
  explorar q (c :: cs) d =
  match filter (casa q c (columns d)) (filas d) with
  | [] => explorar q cs (astype_str c d)
  | primera :: _ =>
      (Some (to_dict (columns d) (astype_str_fila c (columns d) primera)), astype_str c d)
  end.
Proof.
  simpl. rewrite filter_map_conm.
  rewrite (filter_ext _ (casa q c (columns d)))
    by (intros f; apply coincide_astype).
  destruct (filter (casa q c (columns d)) (filas d)); reflexivity.
Qed.

(** The frame that the scan leaves behind is the one it received with
    some of the candidate columns overwritten with their text. *)
Lemma explorar_estado (q : string) (cands : list etiqueta) (d : DataFrame) :
  exists cs, incl cs cands /\ snd (explorar q cands d) = coercionar cs d.
Proof.
  revert d; induction cands as [|c cands IH]; intros d.
  - exists []. split; [apply incl_refl | reflexivity].
  - rewrite explorar_cons.
    destruct (filter (casa q c (columns d)) (filas d)) as [|primera resto].
    + destruct (IH (astype_str c d)) as (cs & Hincl & Hcs).
      exists (c :: cs). split; [|exact Hcs].
      intros x [<-|Hx]; [left; reflexivity | right; apply Hincl, Hx].
    + exists [c]. split; [|reflexivity].
      intros x [<-|[]]. left. reflexivity.
Qed.

(** The scan finds nothing exactly when no row matches in any candidate column. *)
Lemma explorar_none (q : string) (cands : list etiqueta) (d : DataFrame) :
  fst (explorar q cands d) = None <->
  forall c f, In c cands -> In f (filas d) -> casa q c (columns d) f = false.
Proof.
  revert d; induction cands as [|c cands IH]; intros d.
  - split; [intros _ ? ? [] | reflexivity].
  - rewrite explorar_cons.
    destruct (filter (casa q c (columns d)) (filas d)) as [|primera resto] eqn:Hf.
    + rewrite IH. simpl columns. simpl filas.
      pose proof (proj1 (filter_nil_iff _ _) Hf) as Hc.
      split.
      * intros H c' f [<-|Hc'] Hin; [apply Hc, Hin|].
        rewrite <- (casa_astype q c' c).
        apply H; [exact Hc' | apply in_map, Hin].
      * intros H c' f' Hc' Hin.
        apply in_map_iff in Hin as (f & <- & Hin).
        rewrite casa_astype. apply H; [right; exact Hc' | exact Hin].
    + split; [discriminate|].
      intros H.
      assert (Hin : In primera (filter (casa q c (columns d)) (filas d)))
        by (rewrite Hf; left; reflexivity).
      apply filter_In in Hin as [Hin Hp].
      rewrite (H c primera (or_introl eq_refl) Hin) in Hp. discriminate.
Qed.

(** The scan returns the first row, in the order of the frame, that
    matches in the first candidate column in which some row matches. *)
Lemma explorar_some (q : string) (cands : list etiqueta) (d : DataFrame) (r : registro) :
  fst (explorar q cands d) = Some r <->
  exists pre c post antes fila despues,
    cands = pre ++ c :: post /\
    (forall c' f, In c' pre -> In f (filas d) -> casa q c' (columns d) f = false) /\
    filas d = antes ++ fila :: despues /\
    (forall f, In f antes -> casa q c (columns d) f = false) /\
    casa q c (columns d) fila = true /\
    r = to_dict (columns d) (coercionar_fila (pre ++ [c]) (columns d) fila).
Proof.
  revert d; induction cands as [|c0 cands IH]; intros d.
  - split; [discriminate|].
    intros (pre & c & post & _ & _ & _ & H & _). destruct pre; discriminate.
  - rewrite explorar_cons.
    destruct (filter (casa q c0 (columns d)) (filas d)) as [|primera resto] eqn:Hf.
    + pose proof (proj1 (filter_nil_iff _ _) Hf) as Hc0.
      rewrite IH. simpl columns. simpl filas. split.
      * intros (pre & c & post & antes' & fila' & despues' & -> & Hpre & Hfilas & Hantes & Hfila & ->).
        apply map_eq_app in Hfilas as (antes & resto' & Hd & <- & Hresto).
        apply map_eq_cons in Hresto as (fila & despues & -> & <- & <-).
        exists (c0 :: pre), c, post, antes, fila, despues.
        repeat split.
        -- intros c' f [<-|Hc'] Hin; [apply Hc0, Hin|].
           rewrite <- (casa_astype q c' c0).
           apply Hpre; [exact Hc' | apply in_map, Hin].
        -- exact Hd.
        -- intros f Hin. rewrite <- (casa_astype q c c0).
           apply Hantes, in_map, Hin.
        -- rewrite casa_astype in Hfila. exact Hfila.
      * intros (pre & c & post & antes & fila & despues & Hcands & Hpre & Hfilas & Hantes & Hfila & ->).
        destruct pre as [|c1 pre]; simpl in Hcands; injection Hcands as <- ->.
        -- rewrite Hc0 in Hfila; [discriminate|].
           rewrite Hfilas. apply in_elt.
        -- exists pre, c, post, (map (astype_str_fila c0 (columns d)) antes),
             (astype_str_fila c0 (columns d) fila),
             (map (astype_str_fila c0 (columns d)) despues).
           repeat split.
           ++ intros c' f' Hc' Hin.
              apply in_map_iff in Hin as (f & <- & Hin).
              rewrite casa_astype. apply Hpre; [right; exact Hc' | exact Hin].
           ++ rewrite Hfilas, map_app. reflexivity.
           ++ intros f' Hin. apply in_map_iff in Hin as (f & <- & Hin).
              rewrite casa_astype. apply Hantes, Hin.
           ++ rewrite casa_astype. exact Hfila.
    + destruct (filter_primera _ _ _ _ Hf) as (antes & despues & Hfilas & Hantes & Hp).
      simpl fst. split.
      * intros H. injection H as <-.
        exists [], c0, cands, antes, primera, despues.
        repeat split; try assumption. intros ? ? [].
      * intros (pre & c & post & antes' & fila & despues' & Hcands & Hpre & Hfilas' & Hantes' & Hfila & ->).
        destruct pre as [|c1 pre]; simpl in Hcands; injection Hcands as <- ->.
        -- f_equal. f_equal. simpl.
           pose proof (filter_primera_inv _ _ despues' _ Hantes' Hfila) as Hf'.
           rewrite <- Hfilas', Hf in Hf'. injection Hf' as -> _. reflexivity.
        -- rewrite (Hpre c0 primera (or_introl eq_refl)) in Hp; [discriminate|].
           rewrite Hfilas. apply in_elt.
Qed.

Lemma columnas_cedula_texto (cols : list etiqueta) :
  Forall es_texto cols -> columnas_cedula cols = Ok (filter nombre_de_cedula cols).
Proof.
  induction 1 as [|col cols Hcol _ IH]; [reflexivity|].
  destruct col as [s|t]; [|destruct Hcol].
  change (columnas_cedula (ETexto s :: cols))
    with (cc <- columnas_cedula cols ;;
          Ok (if nombre_de_cedula (ETexto s) then ETexto s :: cc else cc)).
  rewrite IH. simpl ligar. simpl filter.
  destruct (nombre_de_cedula (ETexto s)); reflexivity.
Qed.

(** A label that is not text makes the first loop raise. *)
Lemma columnas_cedula_lanza (cols : list etiqueta) :
  Exists (fun col => ~ es_texto col) cols -> columnas_cedula cols = Lanza AttributeError.
Proof.
  induction 1 as [col cols Hcol|col cols _ IH].
  - destruct col as [s|t]; [exfalso; apply Hcol; exact I | reflexivity].
  - destruct col as [s|t]; [|reflexivity].
    change (columnas_cedula (ETexto s :: cols))
      with (cc <- columnas_cedula cols ;;
            Ok (if nombre_de_cedula (ETexto s) then ETexto s :: cc else cc)).
    rewrite IH. reflexivity.
Qed.

End Busqueda.

(** ** What a lookup leaves in the frame *)

Section Coercion.

Lemma igual_o_texto_trans (v'' v' v : valor) :
  igual_o_texto v'' v' -> igual_o_texto v' v -> igual_o_texto v'' v.
Proof.
  intros [->| ->] [->| ->]; unfold igual_o_texto; auto.
Qed.

Lemma igual_o_texto_str (v' v : valor) : igual_o_texto v' v -> str v' = str v.
Proof. intros [->| ->]; reflexivity. Qed.

Lemma igual_o_texto_refl (fila : list valor) : Forall2 igual_o_texto fila fila.
Proof. induction fila; constructor; [left; reflexivity | assumption]. Qed.

Lemma astype_str_fila_celdas (c : etiqueta) (cols : list etiqueta) (fila : list valor) :
  Forall2 igual_o_texto (astype_str_fila c cols fila) fila.
Proof.
  revert fila; induction cols as [|col cols IH]; intros [|v fila]; simpl;
    try apply igual_o_texto_refl.
  constructor; [|apply IH].
  destruct (etiqueta_eqb col c); [right | left]; reflexivity.
Qed.

Lemma Forall2_trans_rel {A : Type} (R : A -> A -> Prop) :
  (forall x y z, R x y -> R y z -> R x z) ->
  forall l1 l2 l3, Forall2 R l1 l2 -> Forall2 R l2 l3 -> Forall2 R l1 l3.
Proof.
  intros HR l1 l2 l3 H12; revert l3.
  induction H12 as [|x y l1 l2 Hxy _ IH]; intros l3 H23; inversion H23; subst;
    constructor; eauto.
Qed.

Lemma coercionar_fila_celdas (cs cols : list etiqueta) (fila : list valor) :
  Forall2 igual_o_texto (coercionar_fila cs cols fila) fila.
Proof.
  revert fila; induction cs as [|c cs IH]; intros fila.
  - apply igual_o_texto_refl.
  - change (coercionar_fila (c :: cs) cols fila)
      with (coercionar_fila cs cols (astype_str_fila c cols fila)).
    eapply Forall2_trans_rel; [exact igual_o_texto_trans | apply IH |].
    apply astype_str_fila_celdas.
Qed.

Lemma celdas_mismo_texto (fila' fila : list valor) :
  Forall2 igual_o_texto fila' fila -> map str fila' = map str fila.
Proof.
  induction 1 as [|v' v fila' fila Hv _ IH]; simpl; [reflexivity|].
  rewrite (igual_o_texto_str _ _ Hv), IH. reflexivity.
Qed.

Lemma astype_str_fila_texto (c : etiqueta) (cols : list etiqueta) (fila : list valor) :
  Forall es_celda_texto fila -> astype_str_fila c cols fila = fila.
Proof.
  intros H; revert cols; induction H as [|v fila [s ->] _ IH]; intros [|col cols];
    simpl; try reflexivity.
  rewrite IH. destruct (etiqueta_eqb col c); reflexivity.
Qed.

Lemma coercionar_fila_texto (cs cols : list etiqueta) (fila : list valor) :
  Forall es_celda_texto fila -> coercionar_fila cs cols fila = fila.
Proof.
  intros H. induction cs as [|c cs IH]; [reflexivity|].
  change (coercionar_fila (c :: cs) cols fila)
    with (coercionar_fila cs cols (astype_str_fila c cols fila)).
  rewrite (astype_str_fila_texto c cols fila H). exact IH.
Qed.

(** A column that was not visited keeps its cells. *)
Lemma valor_en_coercionar_fuera (c : etiqueta) (cs cols : list etiqueta) (fila : list valor) :
  ~ In c cs ->
  valor_en cols c (coercionar_fila cs cols fila) = valor_en cols c fila.
Proof.
  revert fila; induction cs as [|c' cs IH]; intros fila Hc; [reflexivity|].
  change (coercionar_fila (c' :: cs) cols fila)
    with (coercionar_fila cs cols (astype_str_fila c' cols fila)).
  rewrite IH by (intros H; apply Hc; right; exact H).
  rewrite valor_en_astype.
  destruct (etiqueta_eqb c c') eqn:Heq.
  - apply etiqueta_eqb_eq in Heq as ->. exfalso. apply Hc. left. reflexivity.
  - destruct (valor_en cols c fila); reflexivity.
Qed.

Lemma coercionar_filas_celdas (cs cols : list etiqueta) (fs : list (list valor)) :
  Forall2 (Forall2 igual_o_texto) (map (coercionar_fila cs cols) fs) fs.
Proof.
  induction fs as [|f fs IH]; simpl; constructor;
    [apply coercionar_fila_celdas | exact IH].
Qed.

Lemma coercionar_filas_texto (cs cols : list etiqueta) (fs : list (list valor)) :
  Forall (Forall es_celda_texto) fs -> map (coercionar_fila cs cols) fs = fs.
Proof.
  induction 1 as [|f fs Hf _ IH]; simpl; [reflexivity|].
  rewrite (coercionar_fila_texto cs cols f Hf), IH. reflexivity.
Qed.

Lemma filas_mismo_texto (fs' fs : list (list valor)) :
  Forall2 (Forall2 igual_o_texto) fs' fs -> map (map str) fs' = map (map str) fs.
Proof.
  induction 1 as [|f' f fs' fs Hf _ IH]; simpl; [reflexivity|].
  rewrite (celdas_mismo_texto _ _ Hf), IH. reflexivity.
Qed.

(** The frame after [buscar_por_cedula] is the frame before it with some
    of its columns overwritten with their text. *)
Lemma buscar_estado (cedula : string) (d : DataFrame) :
  exists cs, incl cs (columns d) /\ snd (buscar_por_cedula cedula d) = coercionar cs d.
Proof.
  unfold buscar_por_cedula, buscar_cuerpo.
  destruct (columnas_cedula (columns d)) as [cc|e] eqn:Hcc.
  - destruct (explorar_estado (limpiar_cedula cedula) (candidatas (columns d) cc) d)
      as (cs & Hincl & Hcs).
    destruct (explorar _ _ d) as [r d']. simpl in *.
    exists cs. split; [|exact Hcs].
    intros x Hx. apply Hincl in Hx.
    destruct cc as [|c0 cc]; [exact Hx|].
    simpl in Hx.
    assert (Hsub : forall cols l, columnas_cedula cols = Ok l -> incl l cols).
    { clear. induction cols as [|col cols IH]; intros l H.
      - injection H as <-. apply incl_refl.
      - simpl in H. destruct (es_columna_cedula col) as [b|]; [|discriminate].
        simpl in H. destruct (columnas_cedula cols) as [l'|]; [|discriminate].
        simpl in H. injection H as <-.
        specialize (IH l' eq_refl).
        destruct b; intros y Hy.
        + destruct Hy as [<-|Hy]; [left; reflexivity | right; apply IH, Hy].
        + right. apply IH, Hy. }
    apply (Hsub _ _ Hcc). exact Hx.
  - exists []. split; [intros ? [] | reflexivity].
Qed.

(** Only candidate columns are overwritten. *)
Lemma buscar_estado_candidatas (cedula : string) (d : DataFrame) (cc : list etiqueta) :
  columnas_cedula (columns d) = Ok cc ->
  exists cs, incl cs (candidatas (columns d) cc) /\
             snd (buscar_por_cedula cedula d) = coercionar cs d.
Proof.
  intros Hcc. unfold buscar_por_cedula, buscar_cuerpo. rewrite Hcc.
  destruct (explorar_estado (limpiar_cedula cedula) (candidatas (columns d) cc) d)
    as (cs & Hincl & Hcs).
  destruct (explorar _ _ d) as [r d']. simpl in *.
  exists cs. split; assumption.
Qed.

End Coercion.

(** ** The lookup, as the specification words it *)

Section Claims_busqueda.

Import Ejemplos.

Lemma buscar_texto (cedula : string) (d : DataFrame) :
  Forall es_texto (columns d) ->
  buscar_por_cedula cedula d =
  explorar (limpiar_cedula cedula)
           (candidatas (columns d) (filter nombre_de_cedula (columns d))) d.
Proof.
  intros H. unfold buscar_por_cedula, buscar_cuerpo.
  rewrite (columnas_cedula_texto _ H).
  destruct (explorar _ _ d); reflexivity.
Qed.




(** C10.  When the body of [buscar_por_cedula] raises, the method returns
    [None] and leaves the frame as it was; a lookup that ran to its end
    without a match returns the same value. *)
Theorem C10_excepcion_es_none (cedula : string) (d d0 : DataFrame) (e : excepcion) :
  fst (buscar_cuerpo cedula d) = Lanza e ->
  fst (buscar_cuerpo cedula d0) = Ok None ->
  buscar_por_cedula cedula d = (None, d) /\
  fst (buscar_por_cedula cedula d0) = fst (buscar_por_cedula cedula d).
Proof.
  unfold buscar_por_cedula, buscar_cuerpo.
  destruct (columnas_cedula (columns d)) as [cc|e'].
  - destruct (explorar _ _ d). discriminate.
  - intros _.
    destruct (columnas_cedula (columns d0)) as [cc0|e0].
    + destruct (explorar _ _ d0) as [r d0']. simpl.
      intros H. injection H as ->. split; reflexivity.
    + discriminate.
Qed.

Lemma C10_excepcion_es_none_witness :
  buscar_por_cedula "01234567" marco_numerado = (None, marco_numerado) /\
  fst (buscar_por_cedula "01234567" marco_enteros)
  = fst (buscar_por_cedula "01234567" marco_numerado).
Proof.
  apply (C10_excepcion_es_none "01234567" marco_numerado marco_enteros AttributeError);
    reflexivity.
Defined.

(** What a lookup keeps: the labels, the number of rows and the text of
    every cell; the columns that are not candidates keep their cells, and
    a frame that holds only text is left as it was. *)
Lemma buscar_conserva (cedula : string) (d : DataFrame) :
  let d' := snd (buscar_por_cedula cedula d) in
  columns d' = columns d /\
  List.length (filas d') = List.length (filas d) /\
  Forall2 (Forall2 igual_o_texto) (filas d') (filas d) /\
  map (map str) (filas d') = map (map str) (filas d) /\
  (Forall (Forall es_celda_texto) (filas d) -> d' = d) /\
  (forall cc c,
      columnas_cedula (columns d) = Ok cc ->
      ~ In c (candidatas (columns d) cc) ->
      map (valor_en (columns d') c) (filas d') = map (valor_en (columns d) c) (filas d)).
Proof.
  intros d'.
  assert (Hfuera : forall cc c,
             columnas_cedula (columns d) = Ok cc ->
             ~ In c (candidatas (columns d) cc) ->
             map (valor_en (columns d') c) (filas d')
             = map (valor_en (columns d) c) (filas d)).
  { intros cc c Hcc Hc.
    destruct (buscar_estado_candidatas cedula d cc Hcc) as (cs & Hincl & Hd').
    fold d' in Hd'. rewrite Hd', columns_coercionar, filas_coercionar, map_map.
    apply map_ext. intros f. apply valor_en_coercionar_fuera.
    intros H. apply Hc, Hincl, H. }
  revert Hfuera.
  destruct (buscar_estado cedula d) as (cs & _ & Hd').
  fold d' in Hd'. rewrite Hd'. clear d' Hd'. intros Hfuera.
  rewrite columns_coercionar, filas_coercionar.
  pose proof (coercionar_filas_celdas cs (columns d) (filas d)) as Hceldas.
  repeat split.
  - apply length_map.
  - exact Hceldas.
  - apply filas_mismo_texto, Hceldas.
  - intros Htexto.
    assert (Hfilas : filas (coercionar cs d) = filas d)
      by (rewrite filas_coercionar; apply coercionar_filas_texto, Htexto).
    pose proof (columns_coercionar cs d) as Hcols.
    clear Hfuera.
    destruct (coercionar cs d) as [cols' filas'], d as [cols filas0].
    simpl in *. congruence.
  - intros cc c Hcc Hc.
    rewrite <- (columns_coercionar cs d) at 1.
    rewrite <- filas_coercionar. apply (Hfuera cc c Hcc Hc).
Qed.

(** C8, against the claim: after a lookup the projection for the page
    holds the texts "123" and "456" where the sheet had the numbers 123
    and 456; the column that is not a candidate still holds its numbers. *)
Lemma C8_proyeccion_tras_buscar :
  filas (df_html marco_enteros)
  = [[VEntero 123; VEntero 20; VTexto ""; VTexto ""; VTexto ""; VTexto ""];
     [VEntero 456; VEntero 31; VTexto ""; VTexto ""; VTexto ""; VTexto ""]] /\
  filas (df_html (snd (buscar_por_cedula "123" marco_enteros)))
  = [[VTexto "123"; VEntero 20; VTexto ""; VTexto ""; VTexto ""; VTexto ""];
     [VTexto "456"; VEntero 31; VTexto ""; VTexto ""; VTexto ""; VTexto ""]] /\
  df_html (snd (buscar_por_cedula "123" marco_enteros)) <> df_html marco_enteros /\
  snd (buscar_por_cedula "123" marco_enteros) <> marco_enteros.
Proof.
  repeat split; try reflexivity; vm_compute; discriminate.
Qed.

End Claims_busqueda.

(** ** Projection onto the display columns *)

Section Proyeccion.

Lemma alinear_map {A : Type} (F : A -> list valor) (g : A -> valor) (l : list A) :
  alinear (map F l) (map g l) = map (fun x => F x ++ [g x]) l.
Proof. induction l as [|x l IH]; simpl; [reflexivity | rewrite IH; reflexivity]. Qed.

Lemma asignar_serie_vacio (col : etiqueta) (d : DataFrame) (i : nat) :
  filas (asignar_serie vacio col (iloc_col d i))
  = map (fun f => [nth i f VNaN]) (filas d).
Proof. unfold asignar_serie, iloc_col. simpl. apply map_map. Qed.

Lemma asignar_serie_map (F : list valor -> list valor) (df d : DataFrame)
    (col : etiqueta) (i : nat) :
  filas df = map F (filas d) ->
  filas (asignar_serie df col (iloc_col d i))
  = map (fun f => F f ++ [nth i f VNaN]) (filas d).
Proof.
  intros H. unfold asignar_serie, iloc_col. simpl. rewrite H.
  destruct (filas d) as [|f fs]; [reflexivity|].
  simpl. f_equal. apply alinear_map.
Qed.

Lemma asignar_escalar_map (F : list valor -> list valor) (df d : DataFrame)
    (col : etiqueta) (v : valor) :
  filas df = map F (filas d) ->
  filas (asignar_escalar df col v) = map (fun f => F f ++ [v]) (filas d).
Proof. intros H. unfold asignar_escalar. simpl. rewrite H. apply map_map. Qed.

(** The turns of the loop after the first: each adds one field to every row. *)
Lemma pasos_filas (d : DataFrame) (pasos : list (nat * string)) :
  forall (df : DataFrame) (F : list valor -> list valor),
    filas df = map F (filas d) ->
    filas (fold_left (paso_html d) pasos df)
    = map (fun f => F f ++ map (fun p => campo_display (List.length (columns d)) f (fst p)) pasos)
          (filas d).
Proof.
  induction pasos as [|[i col] pasos IH]; intros df F H; simpl fold_left.
  - rewrite H. apply map_ext. intros f. simpl. symmetry. apply app_nil_r.
  - rewrite (IH _ (fun f => F f ++ [campo_display (List.length (columns d)) f i])).
    + apply map_ext. intros f. rewrite <- app_assoc. reflexivity.
    + unfold paso_html, campo_display.
      destruct (i <? List.length (columns d))%nat.
      * apply asignar_serie_map, H.
      * apply asignar_escalar_map, H.
Qed.

(** Without columns every turn assigns the empty text to a frame that has
    no rows, and it still has none at the end. *)
Lemma pasos_sin_columnas (d : DataFrame) (pasos : list (nat * string)) (df : DataFrame) :
  columns d = [] -> filas df = [] -> filas (fold_left (paso_html d) pasos df) = [].
Proof.
  intros Hd. revert df; induction pasos as [|[i col] pasos IH]; intros df H; simpl.
  - exact H.
  - apply IH. rewrite Hd. simpl. rewrite H. reflexivity.
Qed.

Lemma pasos_columns (d : DataFrame) (pasos : list (nat * string)) (df : DataFrame) :
  columns (fold_left (paso_html d) pasos df)
  = columns df ++ map (fun p => ETexto (snd p)) pasos.
Proof.
  revert df; induction pasos as [|[i col] pasos IH]; intros df; simpl fold_left.
  - symmetry. apply app_nil_r.
  - rewrite IH. unfold paso_html.
    destruct (i <? List.length (columns d))%nat; simpl; rewrite <- app_assoc; reflexivity.
Qed.

Lemma df_html_columns (d : DataFrame) :
  columns (df_html d) = map ETexto columnas_especificas.
Proof. unfold df_html. rewrite pasos_columns. reflexivity. Qed.

Lemma df_html_filas (d : DataFrame) :
  columns d <> [] ->
  filas (df_html d) = map (fila_display (List.length (columns d))) (filas d).
Proof.
  intros Hd. unfold df_html.
  change (enumerate columnas_especificas)
    with ((0, "Cédula") :: enumerate_desde 1 (tl columnas_especificas)).
  cbn [fold_left].
  assert (H0 : (0 <? List.length (columns d))%nat = true)
    by (destruct (columns d); [contradiction | reflexivity]).
  change (paso_html d vacio (0, "Cédula"))
    with (if (0 <? List.length (columns d))%nat
          then asignar_serie vacio (ETexto "Cédula") (iloc_col d 0)
          else asignar_escalar vacio (ETexto "Cédula") (VTexto "")).
  rewrite H0.
  rewrite (pasos_filas d _ _ (fun f => [nth 0 f VNaN]))
    by apply asignar_serie_vacio.
  apply map_ext. intros f.
  unfold fila_display.
  cbn [seq map tl columnas_especificas enumerate_desde fst app].
  f_equal. unfold campo_display. rewrite H0. reflexivity.
Qed.

Lemma df_html_sin_columnas (d : DataFrame) : columns d = [] -> filas (df_html d) = [].
Proof. intros Hd. apply pasos_sin_columnas; [exact Hd | reflexivity]. Qed.

Lemma fila_display_length (n : nat) (f : list valor) : List.length (fila_display n f) = 6.
Proof. reflexivity. Qed.

Lemma fila_display_firstn (n : nat) (f : list valor) :
  6 <= n -> List.length f = n -> fila_display n f = firstn 6 f.
Proof.
  intros Hn Hf. unfold fila_display, campo_display. simpl.
  assert (H : forall i, i < 6 -> (i <? n)%nat = true)
    by (intros i Hi; apply Nat.ltb_lt; lia).
  rewrite !H by lia.
  destruct f as [|v0 [|v1 [|v2 [|v3 [|v4 [|v5 f]]]]]]; simpl in Hf; try lia.
  reflexivity.
Qed.

End Proyeccion.

Section Claims_proyeccion.

Import Ejemplos.

(** C2.  [df_html] has the six display columns, in their order, and each
    of its rows has six fields: field [i] is the cell at position [i] of
    the source row when the source has more than [i] columns, and the
    empty text otherwise.  The labels of the source play no part: two
    frames with as many columns and the same rows give the same
    projection.  With eight columns the six fields are the first six
    cells; with four columns the fifth and the sixth field are empty.
    (A frame without columns gives a projection without rows.) *)
Theorem C2_proyeccion_posicional (d : DataFrame) :
  let n := List.length (columns d) in
  columns (df_html d) = map ETexto columnas_especificas /\
  Forall (fun f => List.length f = 6) (filas (df_html d)) /\
  (n <> 0 -> filas (df_html d) = map (fila_display n) (filas d)) /\
  (n = 0 -> filas (df_html d) = []) /\
  (forall d', List.length (columns d') = n -> filas d' = filas d ->
              df_html d' = df_html d) /\
  (n = 8 -> rectangular d -> filas (df_html d) = map (firstn 6) (filas d)) /\
  (n = 4 -> forall f, In f (filas (df_html d)) ->
            nth 4 f VNaN = VTexto "" /\ nth 5 f VNaN = VTexto "").
Proof.
  intros n.
  assert (Hn : n <> 0 -> filas (df_html d) = map (fila_display n) (filas d)).
  { intros H. apply df_html_filas. intros Hc. apply H. unfold n. rewrite Hc. reflexivity. }
  assert (H0 : n = 0 -> filas (df_html d) = []).
  { intros H. apply df_html_sin_columnas. apply length_zero_iff_nil. exact H. }
  split; [apply df_html_columns|].
  split.
  { destruct (Nat.eq_dec n 0) as [H|H].
    - rewrite (H0 H). constructor.
    - rewrite (Hn H). apply Forall_forall. intros f Hf.
      apply in_map_iff in Hf as (f0 & <- & _). apply fila_display_length. }
  split; [exact Hn|]. split; [exact H0|].
  split.
  { intros d' Hcols Hfilas. unfold df_html.
    assert (Hpaso : forall df p, paso_html d' df p = paso_html d df p).
    { intros df [i col]. unfold paso_html, iloc_col. fold n. rewrite Hcols, Hfilas.
      reflexivity. }
    generalize vacio. induction (enumerate columnas_especificas) as [|p l IH];
      intros df; simpl; [reflexivity|].
    rewrite Hpaso. apply IH. }
  split.
  { intros H8 Hrect. rewrite Hn by lia. apply map_ext_in. intros f Hf.
    apply fila_display_firstn; [lia|].
    unfold rectangular in Hrect. rewrite Forall_forall in Hrect. apply Hrect, Hf. }
  intros H4 f Hf. rewrite Hn in Hf by lia.
  apply in_map_iff in Hf as (f0 & <- & _). rewrite H4. split; reflexivity.
Qed.

(** The projection of three records under eight columns, and of two
    records under four columns whose labels are display labels in another
    order: the fields follow the positions. *)
Example proyeccion_ocho_y_cuatro :
  filas (df_html marco_ocho)
  = [map VEntero [11; 12; 13; 14; 15; 16]%Z;
     map VEntero [21; 22; 23; 24; 25; 26]%Z;
     map VEntero [31; 32; 33; 34; 35; 36]%Z] /\
  registros (df_html marco_cuatro)
  = [[(ETexto "Cédula", VTexto "p1"); (ETexto "Nombre", VTexto "t1");
      (ETexto "Módulos", VTexto "n1"); (ETexto "Temario", VTexto "c1");
      (ETexto "Tabla de Especificaciones", VTexto "");
      (ETexto "Prueba Escrita", VTexto "")];
     [(ETexto "Cédula", VTexto "p2"); (ETexto "Nombre", VTexto "t2");
      (ETexto "Módulos", VTexto "n2"); (ETexto "Temario", VTexto "c2");
      (ETexto "Tabla de Especificaciones", VTexto "");
      (ETexto "Prueba Escrita", VTexto "")]].
Proof. split; reflexivity. Qed.

End Claims_proyeccion.

(** ** Reading a workbook *)

Section Lectura.

Import Ejemplos.

Lemma read_excel_filas_normal (h : hoja) : filas (read_excel 0 None h) = skipn 1 h.
Proof. destruct h; reflexivity. Qed.

Lemma read_excel_columns_normal (h : hoja) :
  columns (read_excel 0 None h) = etiquetas_desde 0 (nth 0 h []).
Proof. destruct h; reflexivity. Qed.

Lemma read_excel_filas_salto (h : hoja) : filas (read_excel 1 None h) = skipn 2 h.
Proof. destruct h as [|l0 [|l1 h]]; reflexivity. Qed.

Lemma read_excel_columns_salto (h : hoja) :
  columns (read_excel 1 None h) = etiquetas_desde 0 (nth 1 h []).
Proof. destruct h as [|l0 [|l1 h]]; reflexivity. Qed.

Lemma read_excel_primera (h : hoja) :
  filas (read_excel 0 (Some 1) h) = firstn 1 (filas (read_excel 0 None h)).
Proof. destruct h; reflexivity. Qed.

Lemma values_flatten_primera (h : hoja) :
  values_flatten (read_excel 0 (Some 1) h) = nth 0 (filas (read_excel 0 None h)) [].
Proof.
  unfold values_flatten. rewrite read_excel_primera.
  destruct (filas (read_excel 0 None h)) as [|f fs]; simpl; [reflexivity|].
  apply app_nil_r.
Qed.

(** The loop of [main] reads a workbook as [cargar_datos] does. *)
Lemma leer_en_main_cargar (a : archivo) :
  cargar_datos a = (par <- leer_en_main a ;; Ok (fst par)).
Proof.
  unfold cargar_datos, leer_en_main.
  destruct a as [| |h]; simpl; try reflexivity.
  destruct (contiene_palabras_encabezado _); reflexivity.
Qed.

Lemma values_flatten_segunda_linea (h : hoja) :
  values_flatten (read_excel 0 (Some 1) h) = nth 1 h [].
Proof.
  rewrite values_flatten_primera, read_excel_filas_normal.
  destruct h as [|l0 [|l1 h]]; reflexivity.
Qed.

(** C5, as the code has it.  The heuristic does not read the first line
    of the file, which [read_excel] takes for the column names: it reads
    the second line (row 0 of an ordinary read) and answers true exactly
    when the lower-cased text of the cells of that line, joined by spaces,
    contains one of "columna", "atinencia", "nombre", "modulos",
    "módulos".  When it answers true the workbook is read again with
    [skiprows=1]: the first line is dropped, the second line gives the
    column names and row 0 of the frame is the third line of the file
    (row 1 of the ordinary read).  When it answers false the frame is
    the ordinary read: the first line gives the column names and row 0 is
    the second line. *)
Theorem C5_heuristica_encabezado (h : hoja) :
  let normal := read_excel 0 None h in
  let primera_fila := read_excel 0 (Some 1) h in
  let salto := read_excel 1 None h in
  filas primera_fila = firstn 1 (filas normal) /\
  values_flatten primera_fila = nth 1 h [] /\
  primera_fila_texto primera_fila
  = unir " " (map (fun v => lower (str v)) (nth 0 (filas normal) [])) /\
  primera_fila_texto primera_fila
  = unir " " (map (fun v => lower (str v)) (nth 1 h [])) /\
  contiene_palabras_encabezado primera_fila = linea_con_palabra (nth 1 h []) /\
  (contiene_palabras_encabezado primera_fila = true <->
   exists palabra pre post,
     In palabra palabras_encabezado /\
     primera_fila_texto primera_fila = (pre ++ palabra ++ post)%string) /\
  (contiene_palabras_encabezado primera_fila = true ->
   cargar_datos (Libro h) = Ok salto /\
   leer_en_main (Libro h) = Ok (salto, true) /\
   filas salto = skipn 1 (filas normal) /\
   nth_error (filas salto) 0 = nth_error (filas normal) 1 /\
   filas salto = skipn 2 h /\
   nth_error (filas salto) 0 = nth_error h 2 /\
   columns salto = etiquetas_desde 0 (nth 1 h [])) /\
  (contiene_palabras_encabezado primera_fila = false ->
   cargar_datos (Libro h) = Ok normal /\
   leer_en_main (Libro h) = Ok (normal, false) /\
   filas normal = skipn 1 h /\
   nth_error (filas normal) 0 = nth_error h 1 /\
   columns normal = etiquetas_desde 0 (nth 0 h [])).
Proof.
  intros normal primera_fila salto.
  assert (Htexto : primera_fila_texto primera_fila
                   = unir " " (map (fun v => lower (str v)) (nth 1 h [])))
    by (unfold primera_fila_texto, primera_fila;
        rewrite values_flatten_segunda_linea; reflexivity).
  split; [apply read_excel_primera|].
  split; [apply values_flatten_segunda_linea|].
  split; [unfold primera_fila_texto, primera_fila, normal;
          rewrite values_flatten_primera; reflexivity|].
  split; [exact Htexto|].
  split; [unfold contiene_palabras_encabezado, linea_con_palabra;
          rewrite Htexto; reflexivity|].
  split.
  { unfold contiene_palabras_encabezado. rewrite existsb_exists. split.
    - intros (palabra & Hin & Hc). apply contiene_spec in Hc as (pre & post & Hc).
      exists palabra, pre, post. split; assumption.
    - intros (palabra & pre & post & Hin & Hc). exists palabra. split; [exact Hin|].
      apply contiene_spec. exists pre, post. exact Hc. }
  split.
  - intros H. unfold cargar_datos, leer_en_main. simpl.
    fold primera_fila. rewrite H. simpl. fold salto.
    repeat split.
    + unfold salto, normal. rewrite read_excel_filas_salto, read_excel_filas_normal.
      destruct h as [|l0 [|l1 h]]; reflexivity.
    + unfold salto, normal. rewrite read_excel_filas_salto, read_excel_filas_normal.
      destruct h as [|l0 [|l1 [|l2 h]]]; reflexivity.
    + apply read_excel_filas_salto.
    + unfold salto. rewrite read_excel_filas_salto.
      destruct h as [|l0 [|l1 [|l2 h]]]; reflexivity.
    + apply read_excel_columns_salto.
  - intros H. unfold cargar_datos, leer_en_main. simpl.
    fold primera_fila. rewrite H. simpl. fold normal.
    repeat split.
    + apply read_excel_filas_normal.
    + unfold normal. rewrite read_excel_filas_normal.
      destruct h as [|l0 [|l1 h]]; reflexivity.
    + apply read_excel_columns_normal.
Qed.

(** C5, against the claim.  The first line of [hoja_simple] holds
    "Nombre" and the heuristic answers false, because the line it reads
    is the second one; the first line of [hoja_con_titulo] holds no key
    word and the heuristic answers true, and row 0 of the frame is then
    the third line of the file, not the second. *)
Lemma C5_primera_linea_no_decide :
  linea_con_palabra (nth 0 hoja_simple []) = true /\
  contiene_palabras_encabezado (read_excel 0 (Some 1) hoja_simple) = false /\
  linea_con_palabra (nth 0 hoja_con_titulo []) = false /\
  contiene_palabras_encabezado (read_excel 0 (Some 1) hoja_con_titulo) = true /\
  (exists df,
      cargar_datos (Libro hoja_con_titulo) = Ok df /\
      nth_error (filas df) 0 = nth_error hoja_con_titulo 2 /\
      nth_error (filas df) 0 <> nth_error hoja_con_titulo 1).
Proof.
  repeat split.
  eexists. split; [reflexivity|]. split; [reflexivity | discriminate].
Qed.

(** A sheet with a title line is read from its second line; a sheet that
    starts with its column names is read as it is. *)
Example cargar_datos_ejemplos :
  cargar_datos (Libro hoja_con_titulo)
  = Ok {| columns := [ETexto "Nombre"; ETexto "Módulos"];
          filas := [[VTexto "Ana"; VEntero 3]; [VTexto "Luis"; VEntero 4]] |} /\
  cargar_datos (Libro hoja_simple)
  = Ok {| columns := [ETexto "Cedula"; ETexto "Nombre"];
          filas := [[VEntero 5; VTexto "Ana"]; [VEntero 6; VTexto "Luis"]] |}.
Proof. split; reflexivity. Qed.

End Lectura.

(** ** Merging the workbooks *)

Section Combinacion.

Lemma tiene_In (c : etiqueta) (l : list etiqueta) : tiene c l = true <-> In c l.
Proof.
  unfold tiene. rewrite existsb_exists. split.
  - intros (x & Hx & Heq). apply etiqueta_eqb_eq in Heq as ->. exact Hx.
  - intros H. exists c. split; [exact H | apply etiqueta_eqb_refl].
Qed.

Lemma union_desde_In (dfs : list DataFrame) (acc : list etiqueta) (c : etiqueta) :
  In c (fold_left unir_columnas dfs acc) <->
  In c acc \/ exists df, In df dfs /\ In c (columns df).
Proof.
  revert acc; induction dfs as [|df dfs IH]; intros acc; simpl.
  - split; [auto | intros [H|(df & [] & _)]; exact H].
  - rewrite IH. unfold unir_columnas. rewrite in_app_iff, filter_In. split.
    + intros [[H|[H _]]|(df' & Hdf' & H)]; eauto.
    + intros [H|(df' & [<-|Hdf'] & H)]; eauto.
      destruct (tiene c acc) eqn:Ht.
      * left. left. apply tiene_In, Ht.
      * left. right. split; [exact H | reflexivity].
Qed.

Lemma union_desde_NoDup (dfs : list DataFrame) (acc : list etiqueta) :
  NoDup acc -> Forall (fun df => NoDup (columns df)) dfs ->
  NoDup (fold_left unir_columnas dfs acc).
Proof.
  revert acc; induction dfs as [|df dfs IH]; intros acc Hacc Hdfs; simpl; [exact Hacc|].
  inversion Hdfs as [|? ? Hdf Hresto]; subst.
  apply IH; [|exact Hresto].
  unfold unir_columnas.
  assert (Hf : NoDup (filter (fun c => negb (tiene c acc)) (columns df)))
    by (apply NoDup_filter, Hdf).
  revert Hf.
  assert (Hdis : forall c, In c (filter (fun c => negb (tiene c acc)) (columns df)) ->
                           ~ In c acc).
  { intros c Hc Hin. apply filter_In in Hc as [_ Hc].
    apply tiene_In in Hin. rewrite Hin in Hc. discriminate. }
  revert Hdis. generalize (filter (fun c => negb (tiene c acc)) (columns df)).
  intros l Hdis Hl. induction Hacc as [|a acc Ha Hacc IHacc]; simpl; [exact Hl|].
  constructor.
  - rewrite in_app_iff. intros [H|H]; [exact (Ha H)|].
    apply (Hdis a H). left. reflexivity.
  - apply IHacc. intros c Hc Hin. apply (Hdis c Hc). right. exact Hin.
Qed.


Lemma union_columnas_fold (dfs : list DataFrame) :
  union_columnas dfs = fold_left unir_columnas dfs [].
Proof. reflexivity. Qed.

(** Laying a row out under its own labels gives the row back. *)
Lemma reindexar_fila_id (cols : list etiqueta) (fila : list valor) :
  NoDup cols -> List.length fila = List.length cols ->
  map (fun c => match valor_en cols c fila with
                | Some v => v
                | None => VNaN
                end) cols = fila.
Proof.
  intros Hnd; revert fila; induction Hnd as [|c cols Hc _ IH]; intros [|v fila] Hlen;
    simpl in Hlen; try discriminate; [reflexivity|].
  simpl. rewrite etiqueta_eqb_refl. f_equal.
  etransitivity; [|apply (IH fila); lia].
  apply map_ext_in. intros c' Hc'.
  destruct (etiqueta_eqb c c') eqn:Heq; [|reflexivity].
  apply etiqueta_eqb_eq in Heq as ->. contradiction.
Qed.

(** The cell under a label of a row that was laid out under [cols]. *)
Lemma valor_en_map (g : etiqueta -> valor) (cols : list etiqueta) (c : etiqueta) :
  In c cols -> valor_en cols c (map g cols) = Some (g c).
Proof.
  induction cols as [|u cols IH]; intros Hin; [destruct Hin|].
  simpl. destruct (etiqueta_eqb u c) eqn:Heq.
  - apply etiqueta_eqb_eq in Heq as ->. reflexivity.
  - destruct Hin as [->|Hin]; [rewrite etiqueta_eqb_refl in Heq; discriminate|].
    apply IH, Hin.
Qed.


Lemma reindexar_id (df : DataFrame) :
  marco_valido df -> reindexar (columns df) df = filas df.
Proof.
  intros [Hnd Hrect]. unfold reindexar.
  etransitivity; [|apply map_id].
  apply map_ext_in. intros fila Hfila. apply reindexar_fila_id; [exact Hnd|].
  unfold rectangular in Hrect. rewrite Forall_forall in Hrect. apply Hrect, Hfila.
Qed.

Lemma concat_length (dfs : list DataFrame) :
  List.length (filas (concat dfs))
  = list_sum (map (fun df => List.length (filas df)) dfs).
Proof.
  unfold concat. simpl. generalize (union_columnas dfs). intros cols.
  induction dfs as [|df dfs IH]; simpl; [reflexivity|].
  rewrite length_app, IH. unfold reindexar. rewrite length_map. reflexivity.
Qed.

End Combinacion.

Section Claims_combinacion.

Import Ejemplos.

Lemma union_columnas_primera (df : DataFrame) : unir_columnas [] df = columns df.
Proof.
  unfold unir_columnas. simpl.
  induction (columns df) as [|c cols IH]; simpl; [reflexivity | rewrite IH; reflexivity].
Qed.



Lemma fuentes_iguales_validas : Forall marco_valido fuentes_iguales.
Proof. marco_valido_concreto. Qed.


(** Sources under the same labels: the rows one source after the other,
    the row that occurs twice kept twice and nothing sorted.  Sources with
    different labels: one column per label, every row under its own. *)
Example concat_ejemplos :
  concat fuentes_iguales
  = {| columns := [ETexto "Cedula"; ETexto "Nombre"];
       filas := [[VEntero 9; VTexto "Zoe"]; [VEntero 5; VTexto "Ana"];
                 [VEntero 5; VTexto "Ana"]; [VEntero 6; VTexto "Luis"]] |} /\
  concat fuentes_distintas
  = {| columns := [ETexto "Cedula"; ETexto "Nombre"; ETexto "Módulos"];
       filas := [[VEntero 5; VTexto "Ana"; VNaN]; [VEntero 6; VTexto "Luis"; VNaN];
                 [VNaN; VTexto "Ana"; VEntero 3]; [VNaN; VTexto "Luis"; VEntero 4]] |}.
Proof. split; reflexivity. Qed.

End Claims_combinacion.

(** ** The run *)

Section Ejecucion.

(** More than one value in [set(l)]: two entries of [l] differ. *)
Lemma len_set_distintos (l : list nat) :
  1 < len_set l <-> exists a b, In a l /\ In b l /\ a <> b.
Proof.
  unfold len_set. split.
  - intros H.
    pose proof (NoDup_nodup Nat.eq_dec l) as Hnd.
    destruct (nodup Nat.eq_dec l) as [|a [|b resto]] eqn:Hl; simpl in H; try lia.
    exists a, b.
    assert (Ha : In a (nodup Nat.eq_dec l)) by (rewrite Hl; left; reflexivity).
    assert (Hb : In b (nodup Nat.eq_dec l)) by (rewrite Hl; right; left; reflexivity).
    apply nodup_In in Ha, Hb. repeat split; try assumption.
    intros ->. inversion Hnd as [|? ? Hnot _]; subst. apply Hnot. left. reflexivity.
  - intros (a & b & Ha & Hb & Hab).
    assert (Hincl : incl [a; b] (nodup Nat.eq_dec l)).
    { intros x [<-|[<-|[]]]; apply nodup_In; assumption. }
    apply NoDup_incl_length in Hincl; [exact Hincl|].
    constructor; [intros [H|[]]; congruence|].
    constructor; [intros []|constructor].
Qed.

(** The four ways in which [main] ends. *)
Lemma main_sin_archivos (directorio : list entrada) (ahora : string) (ok : bool) :
  archivos_de directorio = [] ->
  main directorio ahora ok
  = {| salida := [MTitulo; MRaya; MSinArchivos; MAsegureseExtension];
       datos_combinados := None; escrito := None; fin := Retorna |}.
Proof. unfold main, archivos_de. intros ->. reflexivity. Qed.

Lemma main_sin_validos (directorio : list entrada) (ahora : string) (ok : bool) :
  archivos_de directorio <> [] -> dataframes_de directorio = [] ->
  let r := main directorio ahora ok in
  datos_combinados r = None /\ escrito r = None /\ fin r = Retorna /\
  In MSinArchivosValidos (salida r).
Proof.
  unfold main, dataframes_de, archivos_de. intros Hne Hdfs.
  destruct (filter es_excel directorio) as [|e archivos]; [contradiction|].
  destruct (leer_archivos (e :: archivos)) as [dfs lectura]. simpl in Hdfs. subst dfs.
  repeat split. en_salida.
Qed.

Lemma leer_archivos_sin_lineas (l : list entrada) :
  filter es_linea_columnas (snd (leer_archivos l)) = [].
Proof.
  induction l as [|x l IH]; simpl; [reflexivity|].
  destruct (leer_archivos l) as [dfs lectura]. simpl in IH.
  destruct (leer_en_main (contenido x)) as [[df salto]|]; simpl;
    [destruct salto|]; exact IH.
Qed.

Lemma listado_sin_lineas (k : nat) (l : list entrada) :
  filter es_linea_columnas
    (map (fun '((i, e) : nat * entrada) => MArchivo i (nombre e)) (enumerate_desde k l))
  = [].
Proof. revert k; induction l as [|x l IH]; intros k; simpl; auto. Qed.

Lemma lineas_columnas_filter (archivos : list string) (cols : list nat) :
  filter es_linea_columnas (lineas_columnas archivos cols) = lineas_columnas archivos cols.
Proof.
  unfold lineas_columnas. generalize (enumerate_desde 1 (combine archivos cols)).
  induction l as [|[i [a n]] l IH]; simpl; [reflexivity | rewrite IH; reflexivity].
Qed.

Lemma main_columnas_distintas (directorio : list entrada) (ahora : string) (ok : bool) :
  (1 <? len_set (map num_columnas (dataframes_de directorio)))%nat = true ->
  let r := main directorio ahora ok in
  datos_combinados r = None /\ escrito r = None /\ fin r = Retorna /\
  In MErrorColumnas (salida r) /\
  filter es_linea_columnas (salida r)
  = lineas_columnas (map nombre (archivos_de directorio))
                    (map num_columnas (dataframes_de directorio)).
Proof.
  unfold main, dataframes_de, archivos_de. intros H.
  destruct (filter es_excel directorio) as [|e archivos] eqn:Harch; [discriminate H|].
  pose proof (leer_archivos_sin_lineas (e :: archivos)) as Hlect.
  destruct (leer_archivos (e :: archivos)) as [dfs lectura] eqn:Hleer.
  simpl fst in H. simpl snd in Hlect.
  destruct dfs as [|df dfs]; [discriminate H|].
  change (map (fun df0 => List.length (columns df0)) (df :: dfs))
    with (map num_columnas (df :: dfs)).
  rewrite H. cbn [datos_combinados escrito fin salida fst].
  repeat split.
  - en_salida.
  - rewrite !filter_app, Hlect, lineas_columnas_filter.
    cbn [filter es_linea_columnas app].
    rewrite filter_app, listado_sin_lineas. cbn [filter es_linea_columnas app].
    apply app_nil_r.
Qed.

(** With a file that can be written, sources that were read and a single
    column count, [main] merges, writes the page and returns. *)
Lemma main_exito (directorio : list entrada) (ahora : string) :
  dataframes_de directorio <> [] ->
  (1 <? len_set (map num_columnas (dataframes_de directorio)))%nat = false ->
  let r := main directorio ahora true in
  datos_combinados r = Some (concat (dataframes_de directorio)) /\
  (exists archivo,
      escrito r
      = Some (archivo,
              {| num_archivos := List.length (archivos_de directorio);
                 datos_json := registros (df_html (concat (dataframes_de directorio))) |})) /\
  fin r = Retorna.
Proof.
  unfold main, dataframes_de, archivos_de. intros Hne H.
  destruct (filter es_excel directorio) as [|e archivos] eqn:Harch;
    [exfalso; apply Hne; reflexivity|].
  destruct (leer_archivos (e :: archivos)) as [dfs lectura] eqn:Hleer.
  simpl fst in *.
  destruct dfs as [|df dfs]; [contradiction|].
  change (map (fun df0 => List.length (columns df0)) (df :: dfs))
    with (map num_columnas (df :: dfs)).
  rewrite H. unfold generar_html5_interactivo.
  cbn [datos_combinados escrito fin salida fst datos archivos_origen].
  repeat split. eexists. rewrite length_map. reflexivity.
Qed.

(** When every file found was read, the frames are those of the files, one
    for one, and each line of the diagnostic names a file with its own count. *)
Lemma leer_archivos_todos (archivos : list entrada) :
  Forall (fun e => exists par, leer_en_main (contenido e) = Ok par) archivos ->
  Forall2 (fun e df => exists salto, leer_en_main (contenido e) = Ok (df, salto))
          archivos (fst (leer_archivos archivos)).
Proof.
  induction 1 as [|e archivos [[df salto] He] _ IH]; simpl; [constructor|].
  destruct (leer_archivos archivos) as [dfs lectura]. rewrite He. simpl in *.
  constructor; [exists salto; exact He | exact IH].
Qed.

End Ejecucion.

Section Claims_ejecucion.

Import Ejemplos.

Lemma main_escrito_retorna (directorio : list entrada) (ahora : string) (ok : bool) :
  escrito (main directorio ahora ok) <> None -> fin (main directorio ahora ok) = Retorna.
Proof.
  unfold main.
  destruct (filter es_excel directorio) as [|e archivos]; [reflexivity|].
  destruct (leer_archivos (e :: archivos)) as [[|df dfs] lectura]; [reflexivity|].
  destruct (1 <? len_set _)%nat; [reflexivity|].
  unfold generar_html5_interactivo. destruct ok; [reflexivity|].
  simpl. intros H. contradiction.
Qed.

(** When every file found was read, the diagnostic of differing column
    counts has one line per source, with the name of its file and its own
    number of columns. *)
Lemma diagnostico_completo_sin_fallos (directorio : list entrada) (ahora : string) (ok : bool) :
  Forall (fun e => exists par, leer_en_main (contenido e) = Ok par) (archivos_de directorio) ->
  1 < len_set (map num_columnas (dataframes_de directorio)) ->
  filter es_linea_columnas (salida (main directorio ahora ok))
  = lineas_columnas (map nombre (archivos_de directorio))
                    (map num_columnas (dataframes_de directorio)) /\
  Forall2 (fun e df => exists salto, leer_en_main (contenido e) = Ok (df, salto))
          (archivos_de directorio) (dataframes_de directorio).
Proof.
  intros Hleidos Hdist. split.
  - apply main_columnas_distintas. apply Nat.ltb_lt, Hdist.
  - apply leer_archivos_todos, Hleidos.
Qed.

(** C4, where the code departs from the claim.  The directory holds
    a.xlsx, which cannot be read, b.xlsx with two columns and c.xlsx with
    three.  The sources accepted are b.xlsx and c.xlsx; nothing is merged
    and nothing is written, but the diagnostic pairs the counts of the
    sources with the first names of the listing: it gives a.xlsx two
    columns, b.xlsx three, and does not name c.xlsx. *)
Theorem C4_diagnostico_desalineado :
  let r := main directorio_con_ilegible una_hora true in
  map nombre (archivos_de directorio_con_ilegible) = ["a.xlsx"; "b.xlsx"; "c.xlsx"] /\
  dataframes_de directorio_con_ilegible
  = [read_excel 0 None hoja_simple; read_excel 0 None hoja_tres_columnas] /\
  map num_columnas (dataframes_de directorio_con_ilegible) = [2; 3] /\
  In (MErrorAlLeer "a.xlsx") (salida r) /\
  datos_combinados r = None /\
  escrito r = None /\
  filter es_linea_columnas (salida r)
  = [MColumnasDe 1 "a.xlsx" 2; MColumnasDe 2 "b.xlsx" 3].
Proof. vm_compute. repeat split. tauto. Qed.

(** Without the file that cannot be read the lines are those of the sources. *)
Example diagnostico_sin_ilegible :
  filter es_linea_columnas (salida (main directorio_desigual una_hora true))
  = [MColumnasDe 1 "b.xlsx" 2; MColumnasDe 2 "c.xlsx" 3].
Proof. reflexivity. Qed.

(** C9, as the code has it.  When no workbook is found, none is read or
    the numbers of columns differ, [main] writes no file, builds no merged
    frame, prints its diagnostic and returns; the exit status is then 0,
    which is also the exit status of every run that writes its page. *)
Theorem C9_sin_resultado_retorna (directorio : list entrada) (ahora : string) (ok : bool) :
  sin_resultado directorio ->
  let r := main directorio ahora ok in
  escrito r = None /\
  datos_combinados r = None /\
  (In MSinArchivos (salida r) \/ In MSinArchivosValidos (salida r)
   \/ In MErrorColumnas (salida r)) /\
  fin r = Retorna /\
  codigo_salida (fin r) = 0%Z /\
  (forall directorio' ahora' ok',
      escrito (main directorio' ahora' ok') <> None ->
      codigo_salida (fin (main directorio' ahora' ok')) = codigo_salida (fin r)).
Proof.
  intros Hsin r.
  assert (H : escrito r = None /\ datos_combinados r = None /\
              (In MSinArchivos (salida r) \/ In MSinArchivosValidos (salida r)
               \/ In MErrorColumnas (salida r)) /\ fin r = Retorna).
  { unfold r. destruct Hsin as [H|[H|H]].
    - rewrite (main_sin_archivos _ _ _ H). simpl. tauto.
    - destruct (archivos_de directorio) as [|e l] eqn:Harch.
      + rewrite (main_sin_archivos _ _ _ Harch). simpl. tauto.
      + destruct (main_sin_validos directorio ahora ok) as (H1 & H2 & H3 & H4);
          [rewrite Harch; discriminate | exact H | tauto].
    - apply Nat.ltb_lt in H.
      destruct (main_columnas_distintas directorio ahora ok H) as (H1 & H2 & H3 & H4 & _).
      tauto. }
  destruct H as (H1 & H2 & H3 & H4).
  repeat split; try assumption.
  - rewrite H4. reflexivity.
  - intros directorio' ahora' ok' Hesc.
    rewrite (main_escrito_retorna _ _ _ Hesc), H4. reflexivity.
Qed.

Lemma C9_sin_resultado_retorna_witness :
  escrito (main directorio_desigual una_hora true) = None /\
  codigo_salida (fin (main directorio_desigual una_hora true)) = 0%Z.
Proof.
  assert (H : sin_resultado directorio_desigual)
    by (right; right; vm_compute; lia).
  destruct (C9_sin_resultado_retorna directorio_desigual una_hora true H)
    as (H1 & _ & _ & _ & H5 & _).
  split; [exact H1 | exact H5].
Defined.

(** C9, against the claim: the run without workbooks, the run whose only
    workbook cannot be read and the run with differing column counts write
    nothing, the run on one good workbook writes its page, and the four
    end with the same exit status. *)
Lemma C9_mismo_codigo_de_salida :
  sin_resultado [] /\
  sin_resultado directorio_ilegible /\
  sin_resultado directorio_desigual /\
  escrito (main [] una_hora true) = None /\
  escrito (main directorio_ilegible una_hora true) = None /\
  escrito (main directorio_desigual una_hora true) = None /\
  escrito (main directorio_bueno una_hora true) <> None /\
  codigo_salida (fin (main [] una_hora true))
  = codigo_salida (fin (main directorio_bueno una_hora true)) /\
  codigo_salida (fin (main directorio_ilegible una_hora true))
  = codigo_salida (fin (main directorio_bueno una_hora true)) /\
  codigo_salida (fin (main directorio_desigual una_hora true))
  = codigo_salida (fin (main directorio_bueno una_hora true)).
Proof.
  split; [left; reflexivity|].
  split; [right; left; reflexivity|].
  split; [right; right; vm_compute; lia|].
  repeat split; vm_compute; discriminate.
Qed.

End Claims_ejecucion.

(** ** The script of the page *)

Section Claims_pagina.

Import Pagina Ejemplos.

(** The listener of [input] leaves the digits of what was typed. *)
Lemma al_escribir_value (texto : string) (p : estado) :
  value (al_escribir texto p) = filtrar es_digito texto.
Proof.
  unfold al_escribir. simpl.
  destruct (String.eqb texto (filtrar es_digito texto)) eqn:H; [|reflexivity].
  apply String.eqb_eq, H.
Qed.

(** Whatever the user does, the search box holds digits only. *)
Lemma value_solo_digitos (tableData : list objeto) (es : list evento) :
  todos es_digito (value (correr tableData es)) = true.
Proof.
  unfold correr.
  assert (H : todos es_digito (value (inicial tableData)) = true) by reflexivity.
  revert H. generalize (inicial tableData).
  induction es as [|e es IH]; intros p Hp; simpl; [exact Hp|].
  apply IH. destruct e; cbn [paso].
  - rewrite al_escribir_value. apply filtrar_todos.
  - exact Hp.
  - exact Hp.
  - exact Hp.
  - reflexivity.
Qed.

(** On the empty box the search shows no row and the invitation to type. *)
Lemma busqueda_vacia (tableData : list objeto) (p : estado) :
  value p = "" ->
  filteredData (searchTable tableData p) = [] /\
  visible (searchTable tableData p) = InitialMessage.
Proof. unfold searchTable, filtrar_tabla. intros ->. split; reflexivity. Qed.

(** On a box that is not empty a search without rows shows the other message. *)
Lemma busqueda_sin_filas (tableData : list objeto) (p : estado) :
  value p <> "" -> todos es_digito (value p) = true ->
  filteredData (searchTable tableData p) = [] ->
  visible (searchTable tableData p) = NoResults.
Proof.
  unfold searchTable. simpl. intros Hne Hdig ->. simpl.
  rewrite (trim_digitos _ Hdig).
  destruct (value p); [contradiction | reflexivity].
Qed.

(** The rows that a search keeps, for a box with digits in it: those whose
    identity number does not count as false and has the text of the box. *)
Lemma busqueda_exacta (tableData : list objeto) (v : string) (row : objeto) :
  v <> "" -> todos es_digito v = true ->
  (In row (filtrar_tabla tableData v) <->
   In row tableData /\
   falsy (prop row "Cédula") = false /\
   lower (String_ (prop row "Cédula")) = v).
Proof.
  intros Hne Hdig. unfold filtrar_tabla.
  rewrite (lower_digitos v Hdig), (trim_digitos v Hdig).
  assert (Hv : String.eqb v "" = false) by (destruct v; [contradiction | reflexivity]).
  rewrite Hv, filter_In. unfold fila_coincide, o_vacio.
  destruct (falsy (prop row "Cédula")) eqn:Hf; simpl.
  - split.
    + intros [_ H]. destruct v; [contradiction | discriminate].
    + intros (_ & H & _). discriminate.
  - rewrite String.eqb_eq. tauto.
Qed.

(** C7, where the code departs from the claim.  The page holds a row
    whose identity number is the number 0.  The user types "0" and
    releases the key: the box holds "0", the text of the identity number
    of that row is "0", and yet the search keeps no row and the page says
    that there are no results, because [row['Cédula'] || ''] reads the
    number 0 as the empty text. *)
Theorem C7_cedula_cero_sin_resultados :
  let p := correr tabla_pagina [Editar "0"; SoltarTecla] in
  In fila_cero tabla_pagina /\
  value p = "0" /\
  lower (String_ (prop fila_cero "Cédula")) = lower (value p) /\
  filteredData p = [] /\
  visible p = NoResults.
Proof. vm_compute. repeat split. left. reflexivity. Qed.

(** What the claim says and the script does on the other rows: characters
    that are not digits are dropped as they are typed, the row with the
    identity number "0123" is found by "0123" and not by "123", and the
    empty box shows the invitation to type, not the absence of results. *)
Example pagina_ejemplos :
  value (correr tabla_pagina [Editar "01-23 a"]) = "0123" /\
  filteredData (correr tabla_pagina [Editar "01-23"; SoltarTecla]) = [fila_ana] /\
  visible (correr tabla_pagina [Editar "01-23"; SoltarTecla])
  = DataTable [["0123"; "Ana"; ""; ""; ""; ""]] /\
  visible (correr tabla_pagina [Editar "123"; PulsarBuscar]) = NoResults /\
  visible (correr tabla_pagina [Editar "0123"; SoltarTecla; Editar ""; SoltarTecla])
  = InitialMessage /\
  visible (correr tabla_pagina [Editar "0123"; PulsarEnter; PulsarLimpiar])
  = InitialMessage.
Proof. repeat split. Qed.

End Claims_pagina.

(** * Further properties *)

(** ** Repeated lookups *)

Section Busqueda_repetida.

Import Ejemplos.

Lemma astype_str_fila_idem (c : etiqueta) (cols : list etiqueta) (fila : list valor) :
  astype_str_fila c cols (astype_str_fila c cols fila) = astype_str_fila c cols fila.
Proof.
  revert fila; induction cols as [|col cols IH]; intros [|v fila]; simpl; try reflexivity.
  rewrite IH. destruct (etiqueta_eqb col c); reflexivity.
Qed.

Lemma astype_str_fila_conm (c c' : etiqueta) (cols : list etiqueta) (fila : list valor) :
  astype_str_fila c cols (astype_str_fila c' cols fila)
  = astype_str_fila c' cols (astype_str_fila c cols fila).
Proof.
  revert fila; induction cols as [|col cols IH]; intros [|v fila]; simpl; try reflexivity.
  rewrite IH. destruct (etiqueta_eqb col c), (etiqueta_eqb col c'); reflexivity.
Qed.

Lemma astype_str_idem (c : etiqueta) (d : DataFrame) :
  astype_str c (astype_str c d) = astype_str c d.
Proof.
  unfold astype_str. simpl. f_equal. rewrite map_map.
  apply map_ext. intros f. apply astype_str_fila_idem.
Qed.

Lemma astype_str_conm (c c' : etiqueta) (d : DataFrame) :
  astype_str c (astype_str c' d) = astype_str c' (astype_str c d).
Proof.
  unfold astype_str. simpl. f_equal. rewrite !map_map.
  apply map_ext. intros f. apply astype_str_fila_conm.
Qed.

Lemma astype_coercionar_conm (c : etiqueta) (cs : list etiqueta) (d : DataFrame) :
  astype_str c (coercionar cs d) = coercionar cs (astype_str c d).
Proof.
  revert d; induction cs as [|c' cs IH]; intros d; [reflexivity|].
  change (coercionar (c' :: cs) d) with (coercionar cs (astype_str c' d)).
  change (coercionar (c' :: cs) (astype_str c d))
    with (coercionar cs (astype_str c' (astype_str c d))).
  rewrite IH, astype_str_conm. reflexivity.
Qed.

(** Scanning again the frame that a scan left gives the same answer and
    leaves the frame as it is. *)
Lemma explorar_repetible (q : string) (cands : list etiqueta) (d : DataFrame) :
  explorar q cands (snd (explorar q cands d)) = explorar q cands d.
Proof.
  revert d; induction cands as [|c0 cands IH]; intros d; [reflexivity|].
  rewrite (explorar_cons q c0 cands d).
  destruct (filter (casa q c0 (columns d)) (filas d)) as [|primera resto] eqn:Hf.
  - destruct (explorar_estado q cands (astype_str c0 d)) as (cs & _ & Hcs).
    rewrite explorar_cons.
    assert (Hcols : columns (snd (explorar q cands (astype_str c0 d))) = columns d)
      by (rewrite Hcs, columns_coercionar; reflexivity).
    rewrite Hcols.
    assert (Hvacio : filter (casa q c0 (columns d))
                       (filas (snd (explorar q cands (astype_str c0 d)))) = []).
    { apply filter_nil_iff. intros f' Hf'.
      rewrite Hcs, filas_coercionar in Hf'. simpl in Hf'.
      apply in_map_iff in Hf' as (f1 & <- & Hf1).
      apply in_map_iff in Hf1 as (f & <- & Hin).
      rewrite casa_coercionar, casa_astype.
      apply (proj1 (filter_nil_iff _ _) Hf), Hin. }
    rewrite Hvacio.
    assert (Hmismo : astype_str c0 (snd (explorar q cands (astype_str c0 d)))
                     = snd (explorar q cands (astype_str c0 d)))
      by (rewrite Hcs, astype_coercionar_conm, astype_str_idem; reflexivity).
    rewrite Hmismo. apply IH.
  - cbn [snd]. rewrite explorar_cons. cbn [columns filas astype_str].
    rewrite filter_map_conm.
    rewrite (filter_ext _ (casa q c0 (columns d)))
      by (intros f; apply casa_astype).
    rewrite Hf. cbn [map].
    rewrite astype_str_fila_idem.
    change {| columns := columns d;
              filas := map (astype_str_fila c0 (columns d)) (filas d) |}
      with (astype_str c0 d).
    rewrite astype_str_idem. reflexivity.
Qed.

(** X1.  A lookup can be repeated: asked again on the frame it left, the
    same query gives the same answer and changes nothing more. *)
Theorem buscar_por_cedula_repetible (cedula : string) (d : DataFrame) :
  buscar_por_cedula cedula (snd (buscar_por_cedula cedula d))
  = buscar_por_cedula cedula d.
Proof.
  unfold buscar_por_cedula, buscar_cuerpo.
  destruct (columnas_cedula (columns d)) as [cc|e] eqn:Hcc.
  - pose proof (explorar_repetible (limpiar_cedula cedula) (candidatas (columns d) cc) d) as Hrep.
    destruct (explorar_estado (limpiar_cedula cedula) (candidatas (columns d) cc) d)
      as (cs & _ & Hcs).
    destruct (explorar (limpiar_cedula cedula) (candidatas (columns d) cc) d) as [r d'] eqn:He.
    cbn [snd] in *.
    assert (Hcols : columns d' = columns d) by (rewrite Hcs; apply columns_coercionar).
    rewrite Hcols, Hcc, Hrep. reflexivity.
  - cbn [snd]. rewrite Hcc. reflexivity.
Qed.

End Busqueda_repetida.

Section Busqueda_tras_busqueda.

Import Ejemplos.

Lemma mismo_texto_fila_length (f1 f2 : list valor) :
  mismo_texto_fila f1 f2 -> List.length f1 = List.length f2.
Proof.
  unfold mismo_texto_fila. intros H.
  rewrite <- (length_map str f1), H. apply length_map.
Qed.

Lemma casa_mismo_texto (q : string) (c : etiqueta) (cols : list etiqueta)
    (f1 f2 : list valor) :
  mismo_texto_fila f1 f2 -> casa q c cols f1 = casa q c cols f2.
Proof.
  unfold mismo_texto_fila, casa.
  revert f1 f2; induction cols as [|col cols IH]; intros [|v1 f1] [|v2 f2] H;
    simpl in *; try reflexivity; try discriminate.
  injection H as Hv Hf.
  destruct (etiqueta_eqb col c); [rewrite Hv; reflexivity | apply IH, Hf].
Qed.

Lemma astype_str_fila_mismo_texto (c : etiqueta) (cols : list etiqueta) (f : list valor) :
  mismo_texto_fila (astype_str_fila c cols f) f.
Proof. apply celdas_mismo_texto, astype_str_fila_celdas. Qed.

Lemma textos_to_dict (cols : list etiqueta) (f : list valor) :
  textos_registro (to_dict cols f) = combine cols (map str f).
Proof.
  unfold textos_registro, to_dict.
  revert f; induction cols as [|c cols IH]; intros [|v f]; simpl; try reflexivity.
  rewrite IH. reflexivity.
Qed.

Lemma filter_Forall2 {A : Type} (R : A -> A -> Prop) (P : A -> bool) (l1 l2 : list A) :
  (forall x y, R x y -> P x = P y) ->
  Forall2 R l1 l2 -> Forall2 R (filter P l1) (filter P l2).
Proof.
  intros HP. induction 1 as [|x y l1 l2 Hxy _ IH]; simpl; [constructor|].
  rewrite (HP x y Hxy). destruct (P y); [constructor|]; assumption.
Qed.

Lemma astype_str_mismo_texto (c : etiqueta) (d1 d2 : DataFrame) :
  mismo_texto d1 d2 -> mismo_texto (astype_str c d1) (astype_str c d2).
Proof.
  intros [Hcols Hfilas]. split; [exact Hcols|]. simpl.
  rewrite <- Hcols. clear Hcols.
  induction Hfilas as [|f1 f2 l1 l2 Hf _ IH]; simpl; constructor; [|exact IH].
  unfold mismo_texto_fila in *.
  rewrite (astype_str_fila_mismo_texto c (columns d1) f1),
          (astype_str_fila_mismo_texto c (columns d1) f2).
  exact Hf.
Qed.

(** The scan reads the cells through their text only. *)
Lemma explorar_mismo_texto (q : string) (cands : list etiqueta) (d1 d2 : DataFrame) :
  mismo_texto d1 d2 ->
  option_map textos_registro (fst (explorar q cands d1))
  = option_map textos_registro (fst (explorar q cands d2)).
Proof.
  revert d1 d2; induction cands as [|c cands IH]; intros d1 d2 H; [reflexivity|].
  rewrite !explorar_cons.
  pose proof H as [Hcols Hfilas]. rewrite <- Hcols.
  pose proof (filter_Forall2 mismo_texto_fila (casa q c (columns d1)) _ _
                (casa_mismo_texto q c (columns d1)) Hfilas) as Hfilt.
  destruct Hfilt as [|f1 f2 l1 l2 Hf _].
  - apply IH, astype_str_mismo_texto, H.
  - cbn [fst option_map]. rewrite !textos_to_dict. do 2 f_equal.
    rewrite (astype_str_fila_mismo_texto c (columns d1) f1),
            (astype_str_fila_mismo_texto c (columns d1) f2).
    exact Hf.
Qed.

Lemma coercionar_mismo_texto (cs : list etiqueta) (d : DataFrame) :
  mismo_texto (coercionar cs d) d.
Proof.
  split; [apply columns_coercionar|].
  rewrite filas_coercionar.
  induction (filas d) as [|f fs IH]; simpl; constructor; [|exact IH].
  apply celdas_mismo_texto, coercionar_fila_celdas.
Qed.

(** X2.  An earlier lookup does not change what a later one finds: after
    any query, another query finds a record exactly when it would have
    found one on the frame as it was loaded, and the record has the same
    fields with the same text. *)
Theorem buscar_tras_buscar (antes cedula : string) (d : DataFrame) :
  option_map textos_registro
             (fst (buscar_por_cedula cedula (snd (buscar_por_cedula antes d))))
  = option_map textos_registro (fst (buscar_por_cedula cedula d)).
Proof.
  destruct (buscar_estado antes d) as (cs & _ & Hcs). rewrite Hcs.
  pose proof (coercionar_mismo_texto cs d) as Hm.
  unfold buscar_por_cedula, buscar_cuerpo.
  rewrite columns_coercionar.
  destruct (columnas_cedula (columns d)) as [cc|e]; [|reflexivity].
  pose proof (explorar_mismo_texto (limpiar_cedula cedula)
                (candidatas (columns d) cc) _ _ Hm) as He.
  destruct (explorar _ _ (coercionar cs d)) as [r1 d1].
  destruct (explorar _ _ d) as [r2 d2].
  exact He.
Qed.

End Busqueda_tras_busqueda.

Section Busqueda_bordes.

Import Ejemplos.

Lemma limpiar_cedula_vacia (cedula : string) :
  solo_guiones_y_espacios cedula = true <-> limpiar_cedula cedula = "".
Proof.
  unfold solo_guiones_y_espacios, limpiar_cedula.
  rewrite !quitar_filtrar, filtrar_filtrar.
  induction cedula as [|a s IH]; simpl; [tauto|].
  destruct (Ascii.eqb a "-"); simpl; [exact IH|].
  destruct (Ascii.eqb a " "); simpl; [exact IH|].
  split; discriminate.
Qed.

Lemma valor_en_presente (cols : list etiqueta) (c : etiqueta) (fila : list valor) :
  In c cols -> List.length fila = List.length cols ->
  exists v, valor_en cols c fila = Some v.
Proof.
  revert fila; induction cols as [|col cols IH]; intros [|v fila] Hin Hlen;
    simpl in *; try contradiction; try discriminate.
  destruct (etiqueta_eqb col c) eqn:Heq; [exists v; reflexivity|].
  destruct Hin as [->|Hin]; [rewrite etiqueta_eqb_refl in Heq; discriminate|].
  apply IH; [exact Hin | lia].
Qed.

Lemma candidatas_incl (cols : list etiqueta) :
  incl (candidatas cols (filter nombre_de_cedula cols)) cols.
Proof.
  unfold candidatas.
  destruct (filter nombre_de_cedula cols) as [|c cc] eqn:Hf; [apply incl_refl|].
  rewrite <- Hf. intros x Hx. apply filter_In in Hx. tauto.
Qed.

Lemma candidatas_no_vacias (cols : list etiqueta) :
  cols <> [] -> candidatas cols (filter nombre_de_cedula cols) <> [].
Proof.
  unfold candidatas. intros H.
  destruct (filter nombre_de_cedula cols); [exact H | discriminate].
Qed.

(** X3.  A query made of hyphens and spaces only (the empty query among
    them) is emptied by the normalisation and is contained in every text:
    on a frame with text labels and at least one full row, the lookup
    answers with the first row of the frame. *)
Theorem buscar_consulta_en_blanco (cedula : string) (d : DataFrame)
    (f : list valor) (fs : list (list valor)) :
  solo_guiones_y_espacios cedula = true ->
  Forall es_texto (columns d) ->
  columns d <> [] ->
  filas d = f :: fs ->
  List.length f = List.length (columns d) ->
  textos_registro (to_dict (columns d) f) = combine (columns d) (map str f) /\
  option_map textos_registro (fst (buscar_por_cedula cedula d))
  = Some (combine (columns d) (map str f)).
Proof.
  intros Hblanco Htexto Hcols Hfilas Hlen.
  split; [apply textos_to_dict|].
  rewrite (buscar_texto cedula d Htexto).
  apply limpiar_cedula_vacia in Hblanco. rewrite Hblanco.
  pose proof (candidatas_incl (columns d)) as Hincl.
  pose proof (candidatas_no_vacias (columns d) Hcols) as Hne.
  destruct (candidatas (columns d) (filter nombre_de_cedula (columns d)))
    as [|c0 cands]; [contradiction|].
  rewrite explorar_cons, Hfilas.
  destruct (valor_en_presente (columns d) c0 f (Hincl c0 (or_introl eq_refl)) Hlen)
    as [v Hv].
  assert (Hcasa : casa "" c0 (columns d) f = true)
    by (unfold casa; rewrite Hv; apply contiene_vacia).
  cbn [filter]. rewrite Hcasa. cbn [fst option_map].
  rewrite textos_to_dict. do 2 f_equal.
  apply astype_str_fila_mismo_texto.
Qed.

Lemma buscar_consulta_en_blanco_witness :
  option_map textos_registro (fst (buscar_por_cedula " - - " marco_cedulas))
  = Some [(ETexto "Nombre", "Ana"); (ETexto "Cédula", "01234567")].
Proof.
  refine (proj2 (buscar_consulta_en_blanco " - - " marco_cedulas
                   [VTexto "Ana"; VTexto "01234567"]
                   [[VTexto "Luis"; VEntero 7654321]] _ _ _ _ _));
    try reflexivity.
  - repeat constructor.
  - discriminate.
Defined.

Lemma columnas_cedula_ok_texto (cols cc : list etiqueta) :
  columnas_cedula cols = Ok cc -> Forall es_texto cols.
Proof.
  revert cc; induction cols as [|col cols IH]; intros cc H; [constructor|].
  destruct col as [s|t]; [|discriminate].
  change (columnas_cedula (ETexto s :: cols))
    with (cc' <- columnas_cedula cols ;;
          Ok (if nombre_de_cedula (ETexto s) then ETexto s :: cc' else cc')) in H.
  destruct (columnas_cedula cols) as [cc'|e]; [|discriminate].
  constructor; [exact I | apply (IH cc'); reflexivity].
Qed.

(** X4.  The lookup raises inside exactly when some column label is not
    text, and then it answers [None] for every query, also for one that
    occurs in the frame, and leaves the frame untouched. *)
Theorem buscar_etiqueta_no_texto (cedula : string) (d : DataFrame) :
  ((exists e, fst (buscar_cuerpo cedula d) = Lanza e) <->
   Exists (fun col => ~ es_texto col) (columns d)) /\
  (Exists (fun col => ~ es_texto col) (columns d) ->
   fst (buscar_cuerpo cedula d) = Lanza AttributeError /\
   buscar_por_cedula cedula d = (None, d)).
Proof.
  assert (H : Exists (fun col => ~ es_texto col) (columns d) ->
              fst (buscar_cuerpo cedula d) = Lanza AttributeError /\
              buscar_por_cedula cedula d = (None, d)).
  { intros Hex. unfold buscar_por_cedula, buscar_cuerpo.
    rewrite (columnas_cedula_lanza _ Hex). split; reflexivity. }
  split; [|exact H].
  split.
  - intros [e He]. unfold buscar_cuerpo in He.
    destruct (columnas_cedula (columns d)) as [cc|e'] eqn:Hcc.
    + destruct (explorar _ _ d). discriminate.
    + apply Exists_exists.
      destruct (Forall_Exists_dec es_texto
                  (fun col => match col with
                              | ETexto _ => left I
                              | EOtra _ => right (fun H => H)
                              end) (columns d)) as [Hall|Hex].
      * rewrite (columnas_cedula_texto _ Hall) in Hcc. discriminate.
      * apply Exists_exists in Hex. exact Hex.
  - intros Hex. exists AttributeError. apply H, Hex.
Qed.

(** The frame with the number 2023 as a label holds "01234567", and the
    lookup of that number answers [None]. *)
Example buscar_etiqueta_no_texto_ejemplo :
  buscar_por_cedula "01234567" marco_numerado = (None, marco_numerado) /\
  casa "01234567" (ETexto "Cédula") (columns marco_numerado)
       [VEntero 1; VTexto "01234567"] = true.
Proof. split; reflexivity. Qed.

End Busqueda_bordes.

(** ** The header heuristic, cell by cell *)

Section Encabezado_celdas.

Import Ejemplos.

Lemma prefix_nil_r (p : string) : String.prefix p "" = true -> p = "".
Proof. destruct p; [reflexivity | discriminate]. Qed.

Lemma prefix_ante_espacio (p x r : string) :
  sin_espacios p = true ->
  String.prefix p (x ++ String " " r) = String.prefix p x.
Proof.
  unfold sin_espacios.
  revert x; induction p as [|a p IH]; intros x Hp.
  - destruct x; reflexivity.
  - simpl in Hp. apply andb_true_iff in Hp as [Ha Hp].
    destruct x as [|b x]; simpl.
    + destruct (Ascii.ascii_dec a " ") as [->|_]; [discriminate Ha | reflexivity].
    + destruct (Ascii.ascii_dec a b); [apply IH, Hp | reflexivity].
Qed.

(** A word without spaces occurs in [x ++ " " ++ r] when it occurs in [x]
    or in [r]: it cannot straddle the space. *)
Lemma contiene_ante_espacio (p x r : string) :
  p <> "" -> sin_espacios p = true ->
  contiene p (x ++ String " " r) = contiene p x || contiene p r.
Proof.
  intros Hne Hp. induction x as [|b x IH].
  - change ("" ++ String " " r)%string with (String " " r).
    rewrite (contiene_eq p (String " " r)), (contiene_eq p "").
    change (String " " r) with ("" ++ String " " r)%string at 1.
    rewrite (prefix_ante_espacio p "" r Hp).
    destruct (String.prefix p "") eqn:Hpre; [|reflexivity].
    apply prefix_nil_r in Hpre. contradiction.
  - change (String b x ++ String " " r)%string with (String b (x ++ String " " r)).
    rewrite (contiene_eq p (String b (x ++ String " " r))), (contiene_eq p (String b x)).
    change (String b (x ++ String " " r)) with (String b x ++ String " " r)%string.
    rewrite (prefix_ante_espacio p (String b x) r Hp).
    destruct (String.prefix p (String b x)); [reflexivity | exact IH].
Qed.

Lemma contiene_unir (p : string) (l : list string) :
  p <> "" -> sin_espacios p = true ->
  contiene p (unir " " l) = existsb (contiene p) l.
Proof.
  intros Hne Hp. induction l as [|x l IH].
  - change (unir " " []) with "". rewrite contiene_eq.
    destruct (String.prefix p "") eqn:Hpre; [|reflexivity].
    apply prefix_nil_r in Hpre. contradiction.
  - destruct l as [|y l].
    + simpl. rewrite orb_false_r. reflexivity.
    + change (unir " " (x :: y :: l)) with (x ++ String " " (unir " " (y :: l)))%string.
      rewrite (contiene_ante_espacio p x _ Hne Hp), IH. reflexivity.
Qed.

Lemma existsb_conm {A B : Type} (P : A -> B -> bool) (la : list A) (lb : list B) :
  existsb (fun a => existsb (P a) lb) la = existsb (fun b => existsb (fun a => P a b) la) lb.
Proof.
  induction la as [|a la IH]; simpl.
  - induction lb; simpl; auto.
  - rewrite IH. clear IH. induction lb as [|b lb IH]; simpl; [reflexivity|].
    rewrite <- IH.
    destruct (P a b), (existsb (P a) lb), (existsb (fun a0 => P a0 b) la); reflexivity.
Qed.

Lemma existsb_ext_in {A : Type} (f g : A -> bool) (l : list A) :
  (forall x, In x l -> f x = g x) -> existsb f l = existsb g l.
Proof.
  induction l as [|x l IH]; intros H; simpl; [reflexivity|].
  rewrite (H x (or_introl eq_refl)), IH; [reflexivity|].
  intros y Hy. apply H. right. exact Hy.
Qed.

Lemma existsb_de_map {A B : Type} (f : A -> B) (P : B -> bool) (l : list A) :
  existsb P (map f l) = existsb (fun x => P (f x)) l.
Proof. induction l as [|x l IH]; simpl; [reflexivity | rewrite IH; reflexivity]. Qed.

Lemma palabras_encabezado_sin_espacios (palabra : string) :
  In palabra palabras_encabezado -> palabra <> "" /\ sin_espacios palabra = true.
Proof.
  intros Hin. simpl in Hin.
  repeat (destruct Hin as [<-|Hin]; [split; [discriminate | reflexivity]|]).
  destruct Hin.
Qed.

(** X5.  The key words of the header heuristic have no space in them, so
    joining the cells with spaces creates no occurrence: the heuristic
    answers true exactly when a single cell of the row it reads contains a
    key word in its lower-cased text. *)
Theorem encabezado_por_celda (primera_fila : DataFrame) :
  contiene_palabras_encabezado primera_fila
  = existsb celda_con_palabra (values_flatten primera_fila).
Proof.
  unfold contiene_palabras_encabezado, primera_fila_texto, celda_con_palabra.
  rewrite (existsb_conm (fun v palabra => contiene palabra (lower (str v)))).
  apply existsb_ext_in. intros palabra Hin.
  destruct (palabras_encabezado_sin_espacios palabra Hin) as [Hne Hp].
  rewrite (contiene_unir palabra _ Hne Hp), existsb_de_map. reflexivity.
Qed.

(** A title line above the header line: the word "nombre" sits in one
    cell.  Two cells that only spell a key word together do not count. *)
Example encabezado_por_celda_ejemplos :
  contiene_palabras_encabezado (read_excel 0 (Some 1) hoja_con_titulo) = true /\
  contiene_palabras_encabezado
    {| columns := [ETexto "a"; ETexto "b"];
       filas := [[VTexto "nom"; VTexto "bre"]] |} = false.
Proof. split; reflexivity. Qed.

End Encabezado_celdas.

(** ** Reading: short sheets and full rows *)

Section Lectura_bordes.

Import Ejemplos.

(** X6.  A sheet with fewer than two lines has no row for the heuristic
    to read, so the heuristic answers false whatever the header line
    says: the sheet is read in the ordinary way and the frame has no rows. *)
Theorem cargar_hoja_corta (h : hoja) :
  List.length h < 2 ->
  contiene_palabras_encabezado (read_excel 0 (Some 1) h) = false /\
  cargar_datos (Libro h) = Ok (read_excel 0 None h) /\
  leer_en_main (Libro h) = Ok (read_excel 0 None h, false) /\
  filas (read_excel 0 None h) = [].
Proof.
  intros H. destruct h as [|l0 [|l1 h]]; simpl in H; try lia; repeat split.
Qed.

Lemma cargar_hoja_corta_witness :
  cargar_datos (Libro [[VTexto "Nombre"; VTexto "Módulos"]])
  = Ok {| columns := [ETexto "Nombre"; ETexto "Módulos"]; filas := [] |}.
Proof.
  refine (proj1 (proj2 (cargar_hoja_corta [[VTexto "Nombre"; VTexto "Módulos"]] _))).
  simpl. lia.
Defined.

Lemma etiquetas_desde_length (k : nat) (encabezado : list valor) :
  List.length (etiquetas_desde k encabezado) = List.length encabezado.
Proof.
  revert k; induction encabezado as [|v l IH]; intros k; simpl; [reflexivity|].
  rewrite IH. reflexivity.
Qed.

Lemma hoja_rectangular_skipn (n k : nat) (h : hoja) :
  hoja_rectangular n h -> hoja_rectangular n (skipn k h).
Proof.
  unfold hoja_rectangular. rewrite !Forall_forall. intros H l Hl.
  apply H. rewrite <- (firstn_skipn k h). apply in_or_app. right. exact Hl.
Qed.

Lemma read_excel_rectangular (n skiprows : nat) (nrows : option nat) (h : hoja) :
  hoja_rectangular n h ->
  rectangular (read_excel skiprows nrows h) /\
  (filas (read_excel skiprows nrows h) <> [] ->
   List.length (columns (read_excel skiprows nrows h)) = n).
Proof.
  intros Hh. apply (hoja_rectangular_skipn n skiprows) in Hh.
  unfold read_excel, rectangular.
  destruct (skipn skiprows h) as [|encabezado datos]; simpl.
  - split; [constructor | intros H; contradiction].
  - inversion Hh as [|? ? Henc Hdatos]; subst.
    rewrite etiquetas_desde_length. split; [|reflexivity].
    destruct nrows as [k|]; [|exact Hdatos].
    rewrite Forall_forall in *. intros l Hl. apply Hdatos.
    rewrite <- (firstn_skipn k datos). apply in_or_app. left. exact Hl.
Qed.

(** X7.  A sheet whose lines all have [n] cells is loaded, with or without
    the skip, as a frame in which every row has one cell per label; when
    the frame has rows it has [n] columns. *)
Theorem cargar_datos_rectangular (n : nat) (h : hoja) (df : DataFrame) :
  hoja_rectangular n h ->
  cargar_datos (Libro h) = Ok df ->
  rectangular df /\ (filas df <> [] -> num_columnas df = n).
Proof.
  intros Hh. unfold cargar_datos. simpl.
  destruct (contiene_palabras_encabezado _); simpl; intros H; injection H as <-;
    apply read_excel_rectangular, Hh.
Qed.

Lemma cargar_datos_rectangular_witness :
  rectangular (read_excel 1 None hoja_con_titulo).
Proof.
  refine (proj1 (cargar_datos_rectangular 2 hoja_con_titulo _ _ _)).
  - repeat constructor.
  - reflexivity.
Defined.

End Lectura_bordes.

(** ** The merged frame *)

Section Combinacion_extra.

Import Ejemplos.

(** X8.  Merging a single frame with distinct labels and full rows gives
    that frame back. *)
Theorem concat_una_fuente (df : DataFrame) :
  marco_valido df -> concat [df] = df.
Proof.
  intros Hval. unfold concat, union_columnas. simpl.
  rewrite union_columnas_primera, app_nil_r, (reindexar_id df Hval).
  destruct df; reflexivity.
Qed.

Lemma concat_una_fuente_witness :
  concat [read_excel 0 None hoja_simple] = read_excel 0 None hoja_simple.
Proof.
  apply (concat_una_fuente (read_excel 0 None hoja_simple)).
  marco_valido_concreto.
Defined.

Lemma concat_rectangular (dfs : list DataFrame) : rectangular (concat dfs).
Proof.
  unfold rectangular, concat. simpl. generalize (union_columnas dfs). intros cols.
  apply Forall_forall. intros f Hf.
  apply in_flat_map in Hf as (df & _ & Hf).
  unfold reindexar in Hf. apply in_map_iff in Hf as (f0 & <- & _).
  apply length_map.
Qed.

(** X9.  The merge of frames with distinct labels is again a frame with
    distinct labels in which every row has one cell per label. *)
Theorem concat_valido (dfs : list DataFrame) :
  Forall marco_valido dfs -> marco_valido (concat dfs).
Proof.
  intros Hval. split; [|apply concat_rectangular].
  unfold concat. simpl. rewrite union_columnas_fold.
  apply union_desde_NoDup; [constructor|].
  eapply Forall_impl; [|exact Hval]. intros df [H _]. exact H.
Qed.

Lemma concat_valido_witness : marco_valido (concat fuentes_distintas).
Proof. apply concat_valido. marco_valido_concreto. Defined.

Lemma valor_en_ausente (cols : list etiqueta) (c : etiqueta) (fila : list valor) :
  ~ In c cols -> valor_en cols c fila = None.
Proof.
  revert fila; induction cols as [|col cols IH]; intros [|v fila] Hc; simpl; try reflexivity.
  destruct (etiqueta_eqb col c) eqn:Heq.
  - apply etiqueta_eqb_eq in Heq as ->. exfalso. apply Hc. left. reflexivity.
  - apply IH. intros H. apply Hc. right. exact H.
Qed.

(** X10.  The check of [main] compares the numbers of columns, the merge
    aligns the labels: the merged frame has at least as many columns as
    each source, and strictly more than a source that lacks a label of
    another source, whose rows then hold a missing cell under that label. *)
Theorem concat_mas_ancho (dfs : list DataFrame) (df df' : DataFrame) (c : etiqueta) :
  Forall marco_valido dfs ->
  In df dfs -> In df' dfs ->
  In c (columns df') -> ~ In c (columns df) ->
  num_columnas df < num_columnas (concat dfs) /\
  num_columnas df' <= num_columnas (concat dfs) /\
  (forall fila, In fila (reindexar (columns (concat dfs)) df) ->
                valor_en (columns (concat dfs)) c fila = Some VNaN).
Proof.
  intros Hval Hdf Hdf' Hc Hnc.
  assert (Hin : forall d0 x, In d0 dfs -> In x (columns d0) -> In x (columns (concat dfs))).
  { intros d0 x Hd0 Hx. unfold concat. simpl. rewrite union_columnas_fold.
    apply union_desde_In. right. exists d0. split; assumption. }
  rewrite Forall_forall in Hval.
  split; [|split].
  - unfold num_columnas.
    assert (Hnd : NoDup (c :: columns df))
      by (constructor; [exact Hnc | apply (Hval df Hdf)]).
    apply (NoDup_incl_length Hnd).
    intros x [<-|Hx]; [apply (Hin df' _ Hdf' Hc) | apply (Hin df _ Hdf Hx)].
  - unfold num_columnas. apply NoDup_incl_length; [apply (Hval df' Hdf')|].
    intros x Hx. apply (Hin df' _ Hdf' Hx).
  - intros fila Hfila. unfold reindexar in Hfila.
    apply in_map_iff in Hfila as (f0 & <- & _).
    rewrite (valor_en_map _ _ c (Hin df' _ Hdf' Hc)).
    rewrite (valor_en_ausente _ _ _ Hnc). reflexivity.
Qed.

Lemma concat_mas_ancho_witness :
  num_columnas (read_excel 0 None hoja_simple) < num_columnas (concat fuentes_distintas).
Proof.
  refine (proj1 (concat_mas_ancho fuentes_distintas
                   (read_excel 0 None hoja_simple)
                   (read_excel 1 None hoja_con_titulo)
                   (ETexto "Módulos") _ _ _ _ _)).
  - marco_valido_concreto.
  - left. reflexivity.
  - right. left. reflexivity.
  - right. left. reflexivity.
  - simpl. intuition discriminate.
Defined.

End Combinacion_extra.

(** ** The run, file by file *)

Section Ejecucion_extra.

Import Ejemplos.

Lemma leer_en_main_marco (a : archivo) :
  match leer_en_main a with
  | Ok (df, _) => cargar_datos a = Ok df
  | Lanza e => cargar_datos a = Lanza e
  end.
Proof.
  rewrite leer_en_main_cargar.
  destruct (leer_en_main a) as [[df salto]|e]; reflexivity.
Qed.

Lemma leer_archivos_marcos (archivos_excel : list entrada) :
  fst (leer_archivos archivos_excel) = flat_map marco_leido archivos_excel.
Proof.
  induction archivos_excel as [|e l IH]; [reflexivity|].
  simpl. destruct (leer_archivos l) as [dfs impreso]. simpl in IH.
  unfold marco_leido.
  pose proof (leer_en_main_marco (contenido e)) as He.
  destruct (leer_en_main (contenido e)) as [[df salto]|ex]; rewrite He; simpl;
    rewrite IH; reflexivity.
Qed.

(** X11.  A workbook that cannot be read does not stop the run: the
    frames that [main] merges are those of the workbooks that could be
    read, in the order of the listing, and one line "Error al leer" is
    printed for each of the others, in that order too. *)
Theorem leer_archivos_en_orden (archivos_excel : list entrada) :
  fst (leer_archivos archivos_excel) = flat_map marco_leido archivos_excel /\
  filter es_error_al_leer (snd (leer_archivos archivos_excel))
  = map (fun e => MErrorAlLeer (nombre e)) (filter falla_lectura archivos_excel).
Proof.
  induction archivos_excel as [|e l [IH1 IH2]]; [split; reflexivity|].
  simpl. destruct (leer_archivos l) as [dfs impreso]. simpl in IH1, IH2.
  unfold marco_leido, falla_lectura.
  pose proof (leer_en_main_marco (contenido e)) as He.
  destruct (leer_en_main (contenido e)) as [[df salto]|ex]; rewrite He; simpl.
  - rewrite IH1. split; [reflexivity|]. destruct salto; exact IH2.
  - rewrite IH2. split; [exact IH1 | reflexivity].
Qed.

(** What is not a workbook of the listing for [main]: a name that does not
    end in ".xlsx", a lock file, something that is not a file. *)
Lemma es_excel_false (e : entrada) :
  endswith ".xlsx" (nombre e) = false \/ startswith "~$" (nombre e) = true
  \/ es_archivo e = false ->
  es_excel e = false.
Proof.
  unfold es_excel. intros [H|[H|H]]; rewrite H;
    destruct (endswith ".xlsx" (nombre e)); try reflexivity;
    destruct (startswith "~$" (nombre e)); reflexivity.
Qed.

Lemma filter_idem {A : Type} (f : A -> bool) (l : list A) :
  filter f (filter f l) = filter f l.
Proof.
  induction l as [|x l IH]; simpl; [reflexivity|].
  destruct (f x) eqn:Hx; simpl; [rewrite Hx, IH; reflexivity | exact IH].
Qed.

Lemma main_filter (directorio : list entrada) (ahora : string) (ok : bool) :
  main (filter es_excel directorio) ahora ok = main directorio ahora ok.
Proof. unfold main. rewrite filter_idem. reflexivity. Qed.

(** X12.  An entry of the directory whose name does not end in ".xlsx",
    or starts with "~$", or that is not a file, is never read: the run is
    the same with it and without it. *)
Theorem main_ignora_entrada (antes despues : list entrada) (e : entrada)
    (ahora : string) (ok : bool) :
  endswith ".xlsx" (nombre e) = false \/ startswith "~$" (nombre e) = true
  \/ es_archivo e = false ->
  main (antes ++ e :: despues) ahora ok = main (antes ++ despues) ahora ok.
Proof.
  intros H. apply es_excel_false in H.
  rewrite <- (main_filter (antes ++ e :: despues)), <- (main_filter (antes ++ despues)).
  rewrite !filter_app. simpl. rewrite H. reflexivity.
Qed.

Lemma main_ignora_entrada_witness :
  main [entrada_b; entrada_bloqueo] una_hora true = main [entrada_b] una_hora true.
Proof.
  apply (main_ignora_entrada [entrada_b] [] entrada_bloqueo una_hora true).
  right. left. reflexivity.
Defined.

Lemma marco_leido_length (l : list entrada) :
  List.length (flat_map marco_leido l) + List.length (filter falla_lectura l)
  = List.length l.
Proof.
  induction l as [|e l IH]; simpl; [reflexivity|].
  rewrite length_app. unfold marco_leido at 1, falla_lectura at 1.
  destruct (cargar_datos (contenido e)); simpl; lia.
Qed.

(** What a run that wrote its page went through. *)
Lemma main_escrito_inv (directorio : list entrada) (ahora : string) (ok : bool)
    (archivo : string) (doc : documento) :
  escrito (main directorio ahora ok) = Some (archivo, doc) ->
  dataframes_de directorio <> [] /\
  (1 <? len_set (map num_columnas (dataframes_de directorio)))%nat = false /\
  ok = true.
Proof.
  unfold main, dataframes_de, archivos_de.
  destruct (filter es_excel directorio) as [|e archivos]; [discriminate|].
  destruct (leer_archivos (e :: archivos)) as [[|df dfs] lectura]; [discriminate|].
  change (map (fun df0 => List.length (columns df0)) (df :: dfs))
    with (map num_columnas (df :: dfs)).
  cbn [fst].
  destruct (1 <? len_set (map num_columnas (df :: dfs)))%nat; [discriminate|].
  unfold generar_html5_interactivo. destruct ok; [|discriminate].
  intros _. repeat split. discriminate.
Qed.

(** The page that a run wrote holds the projection of the merged frame. *)
Lemma main_escrito_documento (directorio : list entrada) (ahora : string) (ok : bool)
    (archivo : string) (doc : documento) :
  escrito (main directorio ahora ok) = Some (archivo, doc) ->
  datos_json doc = registros (df_html (concat (dataframes_de directorio))) /\
  num_archivos doc = List.length (archivos_de directorio).
Proof.
  intros H. destruct (main_escrito_inv _ _ _ _ _ H) as (Hne & Hcols & ->).
  destruct (main_exito directorio ahora Hne Hcols) as (_ & (archivo' & Hesc) & _).
  rewrite H in Hesc. injection Hesc as _ ->. split; reflexivity.
Qed.

(** X13.  The page says "Datos combinados de N archivos Excel" with N the
    number of workbooks found in the directory: the workbooks that could
    not be read are counted too, so N is larger than the number of frames
    merged as soon as one read failed.  The page is named after the time
    stamp and holds the records of the projection of the merged frame. *)
Theorem main_cuenta_archivos (directorio : list entrada) (ahora : string) (ok : bool)
    (archivo : string) (doc : documento) :
  escrito (main directorio ahora ok) = Some (archivo, doc) ->
  archivo = ("tabla_estudiantes_combinada_" ++ ahora ++ ".html")%string /\
  datos_json doc = registros (df_html (concat (dataframes_de directorio))) /\
  num_archivos doc = List.length (archivos_de directorio) /\
  List.length (dataframes_de directorio)
  + List.length (filter falla_lectura (archivos_de directorio))
  = num_archivos doc.
Proof.
  intros H. destruct (main_escrito_inv _ _ _ _ _ H) as (Hne & Hcols & ->).
  destruct (main_exito directorio ahora Hne Hcols) as (_ & (archivo' & Hesc) & _).
  rewrite H in Hesc. injection Hesc as Harch ->. cbn [datos_json num_archivos].
  split.
  { unfold main in H.
    destruct (filter es_excel directorio) as [|e l]; [discriminate|].
    destruct (leer_archivos (e :: l)) as [[|df dfs] lectura]; [discriminate|].
    destruct (1 <? len_set _)%nat; [discriminate|].
    unfold generar_html5_interactivo in H. cbn in H. injection H as <- _. reflexivity. }
  repeat split.
  unfold dataframes_de. rewrite leer_archivos_marcos.
  apply marco_leido_length.
Qed.

Lemma main_cuenta_archivos_witness :
  exists archivo doc,
    escrito (main [entrada_a; entrada_b] una_hora true) = Some (archivo, doc) /\
    num_archivos doc = 2 /\
    List.length (dataframes_de [entrada_a; entrada_b]) = 1.
Proof.
  eexists. eexists. split; [reflexivity|].
  assert (H : escrito (main [entrada_a; entrada_b] una_hora true)
              = Some (("tabla_estudiantes_combinada_" ++ una_hora ++ ".html")%string,
                      {| num_archivos := 2;
                         datos_json := registros
                                         (df_html (concat (dataframes_de
                                                             [entrada_a; entrada_b]))) |}))
    by reflexivity.
  destruct (main_cuenta_archivos _ _ _ _ _ H) as (_ & _ & H3 & _).
  split; [exact H3 | reflexivity].
Defined.

Lemma registros_length (d : DataFrame) : List.length (registros d) = List.length (filas d).
Proof. unfold registros. apply length_map. Qed.

Lemma to_dict_etiquetas (cols : list etiqueta) (fila : list valor) :
  List.length fila = List.length cols -> map fst (to_dict cols fila) = cols.
Proof.
  unfold to_dict. revert fila; induction cols as [|c cols IH]; intros [|v fila] H;
    simpl in *; try discriminate; [reflexivity|].
  rewrite IH by lia. reflexivity.
Qed.

Lemma main_total_registros (directorio : list entrada) (ahora : string) (ok : bool) :
  dataframes_de directorio <> [] ->
  (1 <? len_set (map num_columnas (dataframes_de directorio)))%nat = false ->
  In (MTotalRegistros (List.length (filas (concat (dataframes_de directorio)))))
     (salida (main directorio ahora ok)) /\
  In MCombinadosExito (salida (main directorio ahora ok)).
Proof.
  unfold main, dataframes_de, archivos_de. intros Hne H.
  destruct (filter es_excel directorio) as [|e archivos];
    [exfalso; apply Hne; reflexivity|].
  destruct (leer_archivos (e :: archivos)) as [dfs lectura].
  cbn [fst] in *.
  destruct dfs as [|df dfs]; [contradiction|].
  change (map (fun df0 => List.length (columns df0)) (df :: dfs))
    with (map num_columnas (df :: dfs)).
  rewrite H. unfold generar_html5_interactivo.
  destruct ok; cbn [salida]; split; en_salida.
Qed.

(** X14.  When the merged frame has a column, the page holds one record
    per row of the workbooks that were read, each with the six display
    labels in their order, and their number is the total that [main]
    prints. *)
Theorem main_un_registro_por_fila (directorio : list entrada) (ahora : string) (ok : bool)
    (archivo : string) (doc : documento) :
  escrito (main directorio ahora ok) = Some (archivo, doc) ->
  columns (concat (dataframes_de directorio)) <> [] ->
  let total := list_sum (map (fun df => List.length (filas df)) (dataframes_de directorio)) in
  List.length (datos_json doc) = total /\
  Forall (fun r => map fst r = map ETexto columnas_especificas) (datos_json doc) /\
  In (MTotalRegistros total) (salida (main directorio ahora ok)).
Proof.
  intros H Hcols total.
  destruct (main_escrito_inv _ _ _ _ _ H) as (Hne & Hdist & ->).
  destruct (main_escrito_documento _ _ _ _ _ H) as (Hjson & _).
  unfold total. rewrite <- concat_length.
  split; [|split].
  - rewrite Hjson, registros_length, (df_html_filas _ Hcols). apply length_map.
  - rewrite Hjson. unfold registros. apply Forall_forall. intros r Hr.
    apply in_map_iff in Hr as (f & <- & Hf).
    rewrite df_html_columns. apply to_dict_etiquetas.
    rewrite (df_html_filas _ Hcols) in Hf.
    apply in_map_iff in Hf as (f0 & <- & _). reflexivity.
  - apply (proj1 (main_total_registros directorio ahora true Hne Hdist)).
Qed.

Lemma main_un_registro_por_fila_witness :
  exists doc,
    escrito (main directorio_bueno una_hora true)
    = Some (("tabla_estudiantes_combinada_" ++ una_hora ++ ".html")%string, doc) /\
    List.length (datos_json doc) = 2.
Proof.
  eexists. split; [reflexivity|].
  refine (proj1 (main_un_registro_por_fila directorio_bueno una_hora true _ _ eq_refl _)).
  discriminate.
Defined.

(** X15.  The run ends with a status other than 0 in one case only:
    workbooks were read, their numbers of columns agree, the merge was
    announced as done, and the page could not be written.  Nothing is
    written then. *)
Theorem main_codigo_salida (directorio : list entrada) (ahora : string) (ok : bool) :
  let r := main directorio ahora ok in
  (codigo_salida (fin r) <> 0%Z <->
   dataframes_de directorio <> [] /\
   (1 <? len_set (map num_columnas (dataframes_de directorio)))%nat = false /\
   ok = false) /\
  (codigo_salida (fin r) <> 0%Z ->
   fin r = Propaga ErrorDeEscritura /\ escrito r = None /\
   In MCombinadosExito (salida r)).
Proof.
  intros r.
  assert (Hcasos :
            (dataframes_de directorio <> [] /\
             (1 <? len_set (map num_columnas (dataframes_de directorio)))%nat = false /\
             ok = false /\ fin r = Propaga ErrorDeEscritura /\ escrito r = None) \/
            ((dataframes_de directorio = [] \/
              (1 <? len_set (map num_columnas (dataframes_de directorio)))%nat = true \/
              ok = true) /\ fin r = Retorna)).
  { unfold r, main, dataframes_de, archivos_de.
    destruct (filter es_excel directorio) as [|e archivos];
      [right; split; [left|]; reflexivity|].
    destruct (leer_archivos (e :: archivos)) as [[|df dfs] lectura];
      [right; split; [left|]; reflexivity|].
    change (map (fun df0 => List.length (columns df0)) (df :: dfs))
      with (map num_columnas (df :: dfs)).
    cbn [fst].
    destruct (1 <? len_set (map num_columnas (df :: dfs)))%nat;
      [right; split; [right; left|]; reflexivity|].
    unfold generar_html5_interactivo. destruct ok.
    - right. split; [right; right|]; reflexivity.
    - left. repeat split. discriminate. }
  split; [split|].
  - intros Hcod. destruct Hcasos as [(H1 & H2 & H3 & _)|[_ Hfin]]; [tauto|].
    rewrite Hfin in Hcod. contradiction Hcod. reflexivity.
  - intros (H1 & H2 & H3).
    destruct Hcasos as [(_ & _ & _ & Hfin & _)|[[H|[H|H]] _]];
      [rewrite Hfin; discriminate | contradiction | congruence | congruence].
  - intros Hcod. destruct Hcasos as [(H1 & H2 & H3 & H4 & H5)|[_ Hfin]].
    + repeat split; try assumption.
      apply (proj2 (main_total_registros directorio ahora ok H1 H2)).
    + rewrite Hfin in Hcod. contradiction Hcod. reflexivity.
Qed.

(** One good workbook and a page that cannot be written. *)
Example main_codigo_salida_ejemplo :
  codigo_salida (fin (main directorio_bueno una_hora false)) = 1%Z /\
  escrito (main directorio_bueno una_hora false) = None.
Proof. split; reflexivity. Qed.

End Ejecucion_extra.

(** ** The page of a single workbook *)

Section Pagina_de_un_libro.

Import Ejemplos.

(** The method of [GestorNotasCombinado] on an instance built by its
    constructor is the function that [main] was modelled with. *)
Lemma GestorNotasCombinado_generar_html5_ok (datos_combinados : DataFrame)
    (origen : list string) (ahora : string) (escritura_ok : bool) :
  GestorNotasCombinado_generar_html5
    (GestorNotasCombinado_init datos_combinados origen) ahora escritura_ok
  = generar_html5_interactivo
      {| datos := datos_combinados; archivos_origen := origen |} ahora escritura_ok.
Proof. reflexivity. Qed.

(** X16.  [GestorNotas.generar_html5_interactivo] asks for
    [self.archivos_origen], which the constructor of [GestorNotas] never
    sets: on every instance that the constructor builds, whatever the
    workbook, the method raises [AttributeError] before it opens the file,
    also when the file could be written. *)
Theorem GestorNotas_generar_html5_lanza (archivo_excel : string) (a : archivo)
    (self : instancia) (ahora : string) (escritura_ok : bool) :
  GestorNotas_init archivo_excel a = Ok self ->
  getattr self "archivos_origen" = Lanza AttributeError /\
  (exists d, getattr self "datos" = Ok (AtMarco d) /\ cargar_datos a = Ok d) /\
  GestorNotas_generar_html5 self ahora escritura_ok = Lanza AttributeError.
Proof.
  unfold GestorNotas_init. destruct (cargar_datos a) as [df|e]; [|discriminate].
  simpl. intros H. injection H as <-.
  split; [reflexivity|]. split; [exists df; split; reflexivity | reflexivity].
Qed.

Lemma GestorNotas_generar_html5_lanza_witness :
  exists self,
    GestorNotas_init "notas.xlsx" (Libro hoja_simple) = Ok self /\
    GestorNotas_generar_html5 self una_hora true = Lanza AttributeError.
Proof.
  eexists. split; [reflexivity|].
  refine (proj2 (proj2 (GestorNotas_generar_html5_lanza
                          "notas.xlsx" (Libro hoja_simple) _ una_hora true eq_refl))).
Defined.

End Pagina_de_un_libro.

(** ** The page, event by event *)

Section Pagina_extra.

Import Pagina Ejemplos.

Lemma bajar_no_digito (a : ascii) :
  nat_of_ascii a + 32 < 256 -> 58 <= nat_of_ascii a + 32 -> es_digito (bajar a) = false.
Proof.
  intros H1 H2. unfold es_digito, bajar.
  rewrite nat_ascii_embedding by exact H1.
  apply andb_false_iff. right. apply Nat.leb_gt. lia.
Qed.

Lemma mayuscula_ascii_baja (a : ascii) :
  es_mayuscula_ascii a = true -> es_digito (bajar a) = false.
Proof.
  unfold es_mayuscula_ascii. intros H. apply andb_true_iff in H as [H1 H2].
  apply Nat.leb_le in H1, H2. apply bajar_no_digito; lia.
Qed.

Lemma mayuscula_latin1_baja (a : ascii) :
  es_mayuscula_latin1 a = true -> es_digito (bajar a) = false.
Proof.
  unfold es_mayuscula_latin1. intros H.
  apply andb_true_iff in H as [H _]. apply andb_true_iff in H as [H1 H2].
  apply Nat.leb_le in H1, H2. apply bajar_no_digito; lia.
Qed.

(** Only a run of digits is lower-cased to a run of digits, and it is
    left as it is. *)
Lemma lower_desde_digitos_inv (b : bool) (s v : string) :
  lower_desde b s = v -> todos es_digito v = true -> s = v.
Proof.
  revert b v; induction s as [|a s IH]; intros b v H Hv; simpl in H; [exact H|].
  subst v. simpl in Hv. apply andb_true_iff in Hv as [Ha Hs].
  f_equal; [|apply (IH _ _ eq_refl Hs)].
  destruct b.
  - destruct (es_mayuscula_latin1 a) eqn:Hm; [|reflexivity].
    rewrite (mayuscula_latin1_baja a Hm) in Ha. discriminate.
  - destruct (es_mayuscula_ascii a) eqn:Hm; [|reflexivity].
    rewrite (mayuscula_ascii_baja a Hm) in Ha. discriminate.
Qed.

Lemma correr_app (tableData : list objeto) (es : list evento) (e : evento) :
  correr tableData (es ++ [e]) = paso tableData (correr tableData es) e.
Proof. unfold correr. rewrite fold_left_app. reflexivity. Qed.

(** X17.  Through any sequence of events the search box holds digits
    only, and the rows in [filteredData] are rows of [tableData]. *)
Theorem pagina_invariantes (tableData : list objeto) (es : list evento) :
  let p := correr tableData es in
  todos es_digito (value p) = true /\
  (forall row, In row (filteredData p) -> In row tableData).
Proof.
  unfold correr.
  assert (H : todos es_digito (value (inicial tableData)) = true /\
              (forall row, In row (filteredData (inicial tableData)) -> In row tableData))
    by (split; [reflexivity | intros row Hrow; exact Hrow]).
  revert H. generalize (inicial tableData).
  induction es as [|e es IH]; intros p Hp; [exact Hp|].
  apply IH. destruct Hp as [Hv Hf]. destruct e; cbn [paso].
  - split; [rewrite al_escribir_value; apply filtrar_todos | exact Hf].
  - split; [exact Hv|]. cbn [searchTable filteredData]. unfold filtrar_tabla.
    intros row Hrow. destruct (String.eqb _ ""); [destruct Hrow|].
    apply filter_In in Hrow. tauto.
  - split; [exact Hv|]. cbn [searchTable filteredData]. unfold filtrar_tabla.
    intros row Hrow. destruct (String.eqb _ ""); [destruct Hrow|].
    apply filter_In in Hrow. tauto.
  - split; [exact Hv|]. cbn [searchTable filteredData]. unfold filtrar_tabla.
    intros row Hrow. destruct (String.eqb _ ""); [destruct Hrow|].
    apply filter_In in Hrow. tauto.
  - split; [reflexivity | intros row []].
Qed.

Lemma paso_busqueda (tableData : list objeto) (p : estado) (e : evento) :
  es_busqueda e -> paso tableData p e = searchTable tableData p.
Proof. destruct e; simpl; intros H; try reflexivity; destruct H. Qed.

(** X18.  After any event that runs the search: on the empty box no row
    is selected and the invitation to type is shown; otherwise the rows
    selected are the rows of the table whose identity number does not
    count as false and has, character for character, the text of the box;
    the page shows "no results" when there is none, and a table with one
    line of six cells per selected row when there are some. *)
Theorem pagina_tras_buscar (tableData : list objeto) (es : list evento) (e : evento) :
  es_busqueda e ->
  let p := correr tableData (es ++ [e]) in
  (value p = "" -> filteredData p = [] /\ visible p = InitialMessage) /\
  (value p <> "" ->
   (forall row,
       In row (filteredData p) <->
       In row tableData /\ falsy (prop row "Cédula") = false /\
       String_ (prop row "Cédula") = value p) /\
   (filteredData p = [] -> visible p = NoResults) /\
   (filteredData p <> [] ->
    exists cuerpo,
      visible p = DataTable cuerpo /\
      List.length cuerpo = List.length (filteredData p) /\
      Forall (fun linea => List.length linea = 6) cuerpo)).
Proof.
  intros He p.
  pose proof (value_solo_digitos tableData es) as Hdig.
  unfold p. rewrite correr_app, (paso_busqueda _ _ _ He).
  set (p0 := correr tableData es) in *.
  change (value (searchTable tableData p0)) with (value p0).
  split.
  - apply busqueda_vacia.
  - intros Hne. split; [|split].
    + intros row. cbn [searchTable filteredData].
      rewrite (busqueda_exacta tableData (value p0) row Hne Hdig).
      split; intros (H1 & H2 & H3); repeat split; try assumption.
      * apply (lower_desde_digitos_inv false); [exact H3 | exact Hdig].
      * rewrite H3. apply lower_digitos, Hdig.
    + apply busqueda_sin_filas; assumption.
    + cbn [searchTable filteredData visible]. intros Hfd. unfold renderTable.
      destruct (filtrar_tabla tableData (value p0)) as [|row rows]; [contradiction|].
      eexists. split; [reflexivity|]. split; [apply length_map|].
      apply Forall_forall. intros linea Hl.
      apply in_map_iff in Hl as (r & <- & _). reflexivity.
Qed.

Lemma pagina_tras_buscar_witness :
  visible (correr tabla_pagina ([Editar "9"] ++ [SoltarTecla])) = NoResults.
Proof.
  refine (proj1 (proj2 (proj2 (pagina_tras_buscar tabla_pagina [Editar "9"]
                                 SoltarTecla I) _)) _);
    [discriminate | reflexivity].
Defined.

(** The rows that a search selects have the text of the box as their
    identity number. *)
Lemma fila_seleccionada (tableData : list objeto) (p : estado) (row : objeto) :
  todos es_digito (value p) = true ->
  In row (filteredData (searchTable tableData p)) ->
  value p <> "" /\ String_ (prop row "Cédula") = value p.
Proof.
  intros Hdig Hrow. cbn [searchTable filteredData] in Hrow.
  destruct (string_dec (value p) "") as [Hv|Hv].
  - unfold filtrar_tabla in Hrow. rewrite Hv in Hrow. destruct Hrow.
  - split; [exact Hv|].
    apply (busqueda_exacta tableData (value p) row Hv Hdig) in Hrow as (_ & _ & H).
    apply (lower_desde_digitos_inv false); [exact H | exact Hdig].
Qed.

(** X19.  The page can only ever show rows whose identity number is a
    run of digits that is not empty: a row whose identity number holds a
    hyphen, a space or a letter is in the table and cannot be found. *)
Theorem pagina_solo_digitos (tableData : list objeto) (es : list evento) (e : evento)
    (row : objeto) :
  es_busqueda e ->
  In row (filteredData (correr tableData (es ++ [e]))) ->
  todos es_digito (String_ (prop row "Cédula")) = true /\
  String_ (prop row "Cédula") <> "".
Proof.
  intros He Hrow.
  pose proof (value_solo_digitos tableData es) as Hdig.
  rewrite correr_app, (paso_busqueda _ _ _ He) in Hrow.
  destruct (fila_seleccionada tableData _ row Hdig Hrow) as [Hv Heq].
  rewrite Heq. split; assumption.
Qed.

Lemma pagina_solo_digitos_witness :
  todos es_digito (String_ (prop fila_ana "Cédula")) = true /\
  String_ (prop fila_ana "Cédula") <> "".
Proof.
  apply (pagina_solo_digitos tabla_pagina [Editar "0123"] SoltarTecla fila_ana I).
  left. reflexivity.
Defined.

End Pagina_extra.

(** ** Showing a student *)

Section Mostrar.

Import Ejemplos.

Lemma rstrip_vacia (s : string) : rstrip s = "" -> todos es_espacio_py s = true.
Proof.
  induction s as [|a s IH]; simpl; [reflexivity|].
  destruct (rstrip s) as [|b r]; [|discriminate].
  destruct (es_espacio_py a); [intros _; apply IH; reflexivity | discriminate].
Qed.

Lemma lstrip_espacios (s : string) :
  todos es_espacio_py (lstrip s) = true -> todos es_espacio_py s = true.
Proof.
  induction s as [|a s IH]; simpl; [reflexivity|].
  destruct (es_espacio_py a) eqn:Ha; simpl; [exact IH|].
  rewrite Ha. discriminate.
Qed.

(** Only white space is stripped to nothing. *)
Lemma strip_vacia (s : string) : strip s = "" -> todos es_espacio_py s = true.
Proof. intros H. apply lstrip_espacios, rstrip_vacia, H. Qed.

Lemma todos_app (f : ascii -> bool) (s t : string) :
  todos f (s ++ t) = todos f s && todos f t.
Proof.
  induction s as [|a s IH]; simpl; [reflexivity|].
  rewrite IH. apply andb_assoc.
Qed.

(** A text that contains something visible is not blank. *)
Lemma strip_contiene (q s : string) :
  tiene_visible q = true -> contiene q s = true -> strip s <> "".
Proof.
  unfold tiene_visible. intros Hq Hc Hs.
  apply strip_vacia in Hs.
  apply contiene_spec in Hc as (pre & post & ->).
  rewrite !todos_app in Hs.
  apply andb_true_iff in Hs as [_ Hs]. apply andb_true_iff in Hs as [Hs _].
  rewrite Hs in Hq. discriminate.
Qed.

Lemma valor_en_In (cols : list etiqueta) (c : etiqueta) (fila : list valor) (v : valor) :
  valor_en cols c fila = Some v -> In (c, v) (combine cols fila).
Proof.
  revert fila; induction cols as [|col cols IH]; intros [|v0 fila] H; simpl in *;
    try discriminate.
  destruct (etiqueta_eqb col c) eqn:Heq.
  - apply etiqueta_eqb_eq in Heq as ->. injection H as ->. left. reflexivity.
  - right. apply IH, H.
Qed.

Lemma valor_en_coercionar_str (c : etiqueta) (cs cols : list etiqueta) (fila : list valor) :
  option_map str (valor_en cols c (coercionar_fila cs cols fila))
  = option_map str (valor_en cols c fila).
Proof.
  revert fila; induction cs as [|c' cs IH]; intros fila; [reflexivity|].
  change (coercionar_fila (c' :: cs) cols fila)
    with (coercionar_fila cs cols (astype_str_fila c' cols fila)).
  rewrite IH, valor_en_astype.
  destruct (valor_en cols c fila); simpl; [|reflexivity].
  destruct (etiqueta_eqb c c'); reflexivity.
Qed.

(** The cell under the column in which the scan stopped is the text of
    the cell it had. *)
Lemma valor_en_columna_hallada (c : etiqueta) (pre cols : list etiqueta)
    (fila : list valor) (v : valor) :
  valor_en cols c fila = Some v ->
  valor_en cols c (coercionar_fila (pre ++ [c]) cols fila) = Some (VTexto (str v)).
Proof.
  intros Hv. rewrite coercionar_fila_app.
  change (coercionar_fila [c] cols (coercionar_fila pre cols fila))
    with (astype_str_fila c cols (coercionar_fila pre cols fila)).
  rewrite valor_en_astype, etiqueta_eqb_refl.
  pose proof (valor_en_coercionar_str c pre cols fila) as H. rewrite Hv in H.
  destruct (valor_en cols c (coercionar_fila pre cols fila)) as [w|]; [|discriminate].
  simpl in *. injection H as ->. reflexivity.
Qed.

(** What a lookup that finds a record went through. *)
Lemma buscar_some_inv (cedula : string) (d : DataFrame) (r : registro) :
  fst (buscar_por_cedula cedula d) = Some r ->
  exists c fila v pre,
    In fila (filas d) /\
    valor_en (columns d) c fila = Some v /\
    contiene (limpiar_cedula cedula) (str v) = true /\
    r = to_dict (columns d) (coercionar_fila (pre ++ [c]) (columns d) fila).
Proof.
  unfold buscar_por_cedula, buscar_cuerpo.
  destruct (columnas_cedula (columns d)) as [cc|e]; [|discriminate].
  pose proof (explorar_some (limpiar_cedula cedula) (candidatas (columns d) cc) d r) as Hs.
  destruct (explorar _ _ d) as [r' d']. cbn [fst]. intros H.
  apply Hs in H as (pre & c & post & antes & fila & despues & _ & _ & Hf & _ & Hcasa & Hr).
  unfold casa in Hcasa.
  destruct (valor_en (columns d) c fila) as [v|] eqn:Hv; [|discriminate].
  exists c, fila, v, pre. repeat split; try assumption.
  rewrite Hf. apply in_elt.
Qed.

(** X20.  [mostrar_informacion_estudiante] prints the single line "not
    found" exactly when the lookup answers [None].  When the lookup finds
    a record and the normalised query has a character that is not white
    space, the field in which the query was found is among the lines
    printed, with a text that contains the query; and no field is printed
    with a blank text. *)
Theorem mostrar_campo_hallado (cedula : string) (d : DataFrame) :
  let impreso := fst (mostrar_informacion_estudiante cedula d) in
  (fst (buscar_por_cedula cedula d) = None <-> impreso = [LNoEncontrado cedula]) /\
  snd (mostrar_informacion_estudiante cedula d) = snd (buscar_por_cedula cedula d) /\
  (forall campo texto, In (LCampo campo texto) impreso -> strip texto <> "") /\
  (fst (buscar_por_cedula cedula d) <> None ->
   tiene_visible (limpiar_cedula cedula) = true ->
   exists campo texto,
     In (LCampo campo texto) impreso /\
     In campo (columns d) /\
     contiene (limpiar_cedula cedula) texto = true).
Proof.
  intros impreso. unfold impreso, mostrar_informacion_estudiante.
  pose proof (buscar_some_inv cedula d) as Hinv.
  destruct (buscar_por_cedula cedula d) as [[r|] d'] eqn:Hb; cbn [fst snd] in *.
  - split; [split; discriminate|]. split; [reflexivity|]. split.
    + intros campo texto Hin. simpl in Hin.
      destruct Hin as [H|[H|[H|Hin]]]; try discriminate.
      apply in_app_iff in Hin as [Hin|[H|[]]]; [|discriminate].
      apply in_map_iff in Hin as (p & Hp & Hin). injection Hp as _ <-.
      apply filter_In in Hin as [_ Hm]. unfold se_muestra in Hm.
      apply andb_true_iff in Hm as [_ Hm]. apply negb_true_iff in Hm.
      intros Hs. rewrite Hs in Hm. discriminate.
    + intros _ Hvis.
      destruct (Hinv r eq_refl) as (c & fila & v & pre & Hfila & Hv & Hc & ->).
      exists c, (str v). split; [|split; [|exact Hc]].
      * apply in_or_app. right. apply in_or_app. left.
        apply in_map_iff. exists (c, VTexto (str v)). split; [reflexivity|].
        apply filter_In. split.
        -- apply valor_en_In, valor_en_columna_hallada, Hv.
        -- unfold se_muestra. cbn [snd notna str andb].
           apply negb_true_iff.
           destruct (String.eqb (strip (str v)) "") eqn:He; [|reflexivity].
           apply String.eqb_eq in He.
           exfalso. apply (strip_contiene _ _ Hvis Hc He).
      * clear -Hv. revert fila Hv.
        induction (columns d) as [|col cols IH]; intros [|v0 fila] H; simpl in H;
          try discriminate.
        destruct (etiqueta_eqb col c) eqn:Heq.
        -- apply etiqueta_eqb_eq in Heq. left. exact Heq.
        -- right. apply (IH fila H).
  - split; [split; reflexivity|]. split; [reflexivity|]. split.
    + intros campo texto [H|[]]. discriminate.
    + intros H. contradiction H. reflexivity.
Qed.

(** The student found by "1-234 567": the two fields are printed. *)
Example mostrar_ejemplo :
  fst (mostrar_informacion_estudiante "1-234 567" marco_cedulas)
  = [LRaya; LTitulo; LRaya;
     LCampo (ETexto "Nombre") "Ana"; LCampo (ETexto "Cédula") "01234567";
     LRaya] /\
  fst (mostrar_informacion_estudiante "999" marco_cedulas) = [LNoEncontrado "999"].
Proof. split; reflexivity. Qed.

End Mostrar.

(** ** The workbook report *)

Section Exportar_props.

Variable dtype : list valor -> string.

Lemma nombres_de_texto (cols : list etiqueta) :
  Forall es_texto cols -> exists nombres, nombres_de cols = Some nombres /\
                                          map ETexto nombres = cols.
Proof.
  induction 1 as [|col cols Hcol _ (nombres & Hn & Hm)]; [exists []; split; reflexivity|].
  destruct col as [s|t]; [|destruct Hcol].
  exists (s :: nombres). simpl. rewrite Hn, Hm. split; reflexivity.
Qed.

Lemma nombres_de_none (cols : list etiqueta) :
  nombres_de cols = None <-> Exists (fun col => ~ es_texto col) cols.
Proof.
  induction cols as [|col cols IH]; simpl.
  - split; [discriminate | intros H; inversion H].
  - destruct col as [s|t].
    + destruct (nombres_de cols) as [l|]; simpl.
      * split; [discriminate|]. intros H. inversion H as [? ? Hc|? ? Hc]; subst.
        -- exfalso. apply Hc. exact I.
        -- apply IH in Hc. discriminate.
      * split; [intros _; apply Exists_cons_tl, IH; reflexivity | reflexivity].
    + split; [intros _; apply Exists_cons_hd; intros H; exact H | reflexivity].
Qed.

Lemma enumerate_desde_snd {A : Type} (k : nat) (l : list A) :
  map snd (enumerate_desde k l) = l.
Proof.
  revert k; induction l as [|x l IH]; intros k; simpl; [reflexivity|].
  rewrite IH. reflexivity.
Qed.

Lemma resumen_columnas_columna (d : DataFrame) :
  map Columna (resumen_columnas dtype d) = columns d.
Proof.
  unfold resumen_columnas, enumerate. rewrite map_map.
  rewrite <- (enumerate_desde_snd 0 (columns d)) at 2.
  apply map_ext. intros [i col]. reflexivity.
Qed.

(** X21.  The report cannot be made for a frame with a label that is not
    text: [", ".join] raises [TypeError] before the workbook is opened,
    whether or not it could be written, and these are the only frames for
    which it does.  With text labels and a workbook that can be written,
    the report is named after the base name and the time stamp; its first
    sheet gives the number of rows and the labels joined by ", ", its
    second sheet is the frame as it stands, its third has one line per
    column, in the order of the columns. *)
Theorem generar_excel_etiquetas (archivo_excel : string) (d : DataFrame)
    (nombre_base marca fecha : string) (escritura_ok : bool) :
  let r := generar_excel_con_timestamp dtype archivo_excel d nombre_base marca fecha
                                       escritura_ok in
  (r = inl TypeError <-> Exists (fun col => ~ es_texto col) (columns d)) /\
  (Forall es_texto (columns d) -> escritura_ok = true ->
   exists libro nombres,
     r = inr ((nombre_base ++ "_" ++ marca ++ ".xlsx")%string, libro) /\
     map ETexto nombres = columns d /\
     Columnas_Disponibles (Informacion_General libro) = unir ", " nombres /\
     Total_Registros (Informacion_General libro) = List.length (filas d) /\
     Archivo_Origen (Informacion_General libro) = archivo_excel /\
     Datos_Completos libro = d /\
     map Columna (Resumen_Columnas libro) = columns d).
Proof.
  intros r. unfold r, generar_excel_con_timestamp, columnas_disponibles. split.
  - rewrite <- nombres_de_none.
    destruct (nombres_de (columns d)) as [l|].
    + destruct escritura_ok; split; discriminate.
    + split; reflexivity.
  - intros Htexto ->.
    destruct (nombres_de_texto _ Htexto) as (nombres & Hn & Hm). rewrite Hn.
    eexists. exists nombres. split; [reflexivity|].
    cbn. repeat split; try assumption. apply resumen_columnas_columna.
Qed.

Lemma nodup_length_le {A : Type} (dec : forall a b : A, {a = b} + {a <> b}) (l : list A) :
  List.length (nodup dec l) <= List.length l.
Proof.
  apply NoDup_incl_length; [apply NoDup_nodup|].
  intros x Hx. apply nodup_In in Hx. exact Hx.
Qed.

Lemma filter_length {A : Type} (f : A -> bool) (l : list A) :
  List.length (filter f l) <= List.length l.
Proof.
  induction l as [|x l IH]; simpl; [lia|]. destruct (f x); simpl; lia.
Qed.

Lemma enumerate_desde_nth {A : Type} (k : nat) (l : list A) (i : nat) (x : A) :
  In (i, x) (enumerate_desde k l) -> k <= i /\ nth_error l (i - k) = Some x.
Proof.
  revert k; induction l as [|y l IH]; intros k H; [destruct H|].
  simpl in H. destruct H as [H|H].
  - injection H as <- <-. split; [lia|]. rewrite Nat.sub_diag. reflexivity.
  - apply IH in H as [Hk Hn]. split; [lia|].
    replace (i - k) with (S (i - S k)) by lia. exact Hn.
Qed.

(** In a frame with distinct labels and full rows, the cell under the
    label at position [i] is the cell at position [i]. *)
Lemma valor_en_posicion (cols : list etiqueta) (i : nat) (c : etiqueta) (fila : list valor) :
  NoDup cols -> nth_error cols i = Some c -> List.length fila = List.length cols ->
  valor_en cols c fila = Some (nth i fila VNaN).
Proof.
  intros Hnd; revert i fila; induction Hnd as [|col cols Hcol _ IH];
    intros i [|v fila] Hi Hlen; simpl in Hlen; try discriminate.
  - destruct i; discriminate Hi.
  - destruct i as [|i]; simpl in *.
    + injection Hi as ->. rewrite etiqueta_eqb_refl. reflexivity.
    + destruct (etiqueta_eqb col c) eqn:Heq.
      * apply etiqueta_eqb_eq in Heq as ->. exfalso. apply Hcol.
        apply (nth_error_In _ _ Hi).
      * apply IH; [exact Hi | lia].
Qed.

Lemma columna_de_posicion (d : DataFrame) (i : nat) (c : etiqueta) :
  marco_valido d -> nth_error (columns d) i = Some c ->
  columna_de d c = iloc_col d i.
Proof.
  intros [Hnd Hrect] Hi. unfold columna_de, iloc_col.
  unfold rectangular in Hrect. induction Hrect as [|f fs Hf _ IH]; simpl; [reflexivity|].
  rewrite (valor_en_posicion _ _ _ _ Hnd Hi Hf), IH. reflexivity.
Qed.

(** X22.  In the summary sheet of a frame with distinct labels and full
    rows, every line counts the distinct values and the values that are
    not missing of the same column, and the first number is at most the
    second, which is at most the number of rows. *)
Theorem resumen_columnas_acotado (d : DataFrame) :
  marco_valido d ->
  Forall (fun linea =>
            Valores_Unicos linea <= Valores_No_Nulos linea /\
            Valores_No_Nulos linea <= List.length (filas d) /\
            Valores_No_Nulos linea = contar_no_nulos (columna_de d (Columna linea)) /\
            Valores_Unicos linea = nunique (columna_de d (Columna linea)))
         (resumen_columnas dtype d).
Proof.
  intros Hval. apply Forall_forall. intros linea Hl.
  unfold resumen_columnas in Hl. apply in_map_iff in Hl as ([i c] & <- & Hin).
  apply enumerate_desde_nth in Hin as [_ Hn]. rewrite Nat.sub_0_r in Hn.
  cbn [Valores_Unicos Valores_No_Nulos Columna].
  rewrite (columna_de_posicion d i c Hval Hn).
  unfold nunique, contar_no_nulos. repeat split.
  - apply nodup_length_le.
  - etransitivity; [apply filter_length|]. unfold iloc_col. rewrite length_map. lia.
Qed.

End Exportar_props.

Section Exportar_ejemplos.

Import Ejemplos.

Lemma generar_excel_etiquetas_witness :
  exists libro,
    generar_excel_con_timestamp (fun _ => "object") "notas.xlsx" marco_cedulas
                                "reporte_estudiantes" una_hora "2025-01-01 12:00:00" true
    = inr ("reporte_estudiantes_20250101_120000.xlsx", libro) /\
    Columnas_Disponibles (Informacion_General libro) = "Nombre, Cédula" /\
    Total_Registros (Informacion_General libro) = 2.
Proof.
  assert (H : Forall es_texto (columns marco_cedulas)) by (repeat constructor).
  destruct (proj2 (generar_excel_etiquetas (fun _ => "object") "notas.xlsx" marco_cedulas
                     "reporte_estudiantes" una_hora "2025-01-01 12:00:00" true)
                  H eq_refl)
    as (libro & nombres & Hr & Hn & Hc & Ht & _).
  exists libro. split; [exact Hr|]. split; [|exact Ht].
  rewrite Hc. destruct nombres as [|n1 [|n2 [|n3 l]]]; try discriminate Hn.
  injection Hn as -> ->. reflexivity.
Defined.

Lemma resumen_columnas_acotado_witness :
  Forall (fun linea => Valores_Unicos linea <= Valores_No_Nulos linea)
         (resumen_columnas (fun _ => "object") (concat fuentes_iguales)).
Proof.
  eapply Forall_impl;
    [|apply (resumen_columnas_acotado (fun _ => "object") (concat fuentes_iguales));
      marco_valido_concreto].
  intros linea H. exact (proj1 H).
Defined.

(** The summary of two sources with a repeated row: four identity
    numbers of which three are distinct. *)
Example resumen_columnas_ejemplo :
  map (fun linea => (Columna linea, Valores_No_Nulos linea, Valores_Unicos linea))
      (resumen_columnas (fun _ => "object") (concat fuentes_iguales))
  = [(ETexto "Cedula", 4, 3); (ETexto "Nombre", 4, 3)] /\
  generar_excel_con_timestamp (fun _ => "object") "notas.xlsx" marco_numerado
                              "reporte_estudiantes" una_hora "2025-01-01 12:00:00" true
  = inl TypeError.
Proof. split; reflexivity. Qed.

End Exportar_ejemplos.

(** ** The record found and the queries that find *)

Section Busqueda_registro.

Import Ejemplos.

Lemma coercionar_fila_length (cs cols : list etiqueta) (fila : list valor) :
  List.length (coercionar_fila cs cols fila) = List.length fila.
Proof.
  revert fila; induction cs as [|c cs IH]; intros fila; [reflexivity|].
  change (coercionar_fila (c :: cs) cols fila)
    with (coercionar_fila cs cols (astype_str_fila c cols fila)).
  rewrite IH. apply astype_str_fila_length.
Qed.

Lemma to_dict_textos (cols : list etiqueta) (f : list valor) :
  List.length f = List.length cols ->
  map (fun p => str (snd p)) (to_dict cols f) = map str f.
Proof.
  unfold to_dict. revert f; induction cols as [|col cols IH]; intros [|w f] Hl;
    simpl in *; try discriminate; [reflexivity|].
  rewrite IH by lia. reflexivity.
Qed.

(** X23.  The record that a lookup returns is a row of the frame: in a
    frame with full rows it has one field per column, under the labels of
    the frame in their order, and the text of each field is the text of
    the cell of that row. *)
Theorem buscar_devuelve_fila (cedula : string) (d : DataFrame) (r : registro) :
  rectangular d ->
  fst (buscar_por_cedula cedula d) = Some r ->
  map fst r = columns d /\
  exists fila, In fila (filas d) /\ map (fun p => str (snd p)) r = map str fila.
Proof.
  intros Hrect Hr.
  destruct (buscar_some_inv cedula d r Hr) as (c & fila & v & pre & Hfila & _ & _ & ->).
  assert (Hlen : List.length fila = List.length (columns d))
    by (unfold rectangular in Hrect; rewrite Forall_forall in Hrect; apply Hrect, Hfila).
  split.
  - apply to_dict_etiquetas. rewrite coercionar_fila_length. exact Hlen.
  - exists fila. split; [exact Hfila|].
    rewrite <- (celdas_mismo_texto _ _ (coercionar_fila_celdas (pre ++ [c]) (columns d) fila)).
    apply to_dict_textos. rewrite coercionar_fila_length. exact Hlen.
Qed.

Lemma buscar_devuelve_fila_witness :
  exists r, fst (buscar_por_cedula "1-234 567" marco_cedulas) = Some r /\
            map fst r = columns marco_cedulas.
Proof.
  eexists. split; [reflexivity|].
  refine (proj1 (buscar_devuelve_fila "1-234 567" marco_cedulas _ _ eq_refl)).
  repeat constructor.
Defined.

Lemma append_asoc (a b c : string) : ((a ++ b) ++ c = a ++ (b ++ c))%string.
Proof. induction a as [|x a IH]; simpl; [reflexivity | rewrite IH; reflexivity]. Qed.

Lemma contiene_trans (a b c : string) :
  contiene a b = true -> contiene b c = true -> contiene a c = true.
Proof.
  rewrite !contiene_spec.
  intros (p1 & q1 & ->) (p2 & q2 & ->).
  exists (p2 ++ p1)%string, (q1 ++ q2)%string.
  rewrite !append_asoc. reflexivity.
Qed.

(** X24.  A fragment of a query that finds a record finds a record too
    (possibly another one): when the normalised form of [corta] occurs in
    the normalised form of [cedula] and the lookup of [cedula] finds
    something, so does the lookup of [corta]. *)
Theorem buscar_fragmento (cedula corta : string) (d : DataFrame) :
  contiene (limpiar_cedula corta) (limpiar_cedula cedula) = true ->
  fst (buscar_por_cedula cedula d) <> None ->
  fst (buscar_por_cedula corta d) <> None.
Proof.
  intros Hfrag. unfold buscar_por_cedula, buscar_cuerpo.
  destruct (columnas_cedula (columns d)) as [cc|e]; [|intros H; exact H].
  pose proof (explorar_none (limpiar_cedula cedula) (candidatas (columns d) cc) d) as Hl.
  pose proof (explorar_none (limpiar_cedula corta) (candidatas (columns d) cc) d) as Hc.
  destruct (explorar (limpiar_cedula cedula) _ d) as [r1 d1].
  destruct (explorar (limpiar_cedula corta) _ d) as [r2 d2].
  cbn [fst] in *. intros Hr1 Hr2. apply Hr1. apply Hl.
  intros c f Hin Hf.
  pose proof (proj1 Hc Hr2 c f Hin Hf) as Hcasa. unfold casa in *.
  destruct (valor_en (columns d) c f) as [v|]; [|reflexivity].
  destruct (contiene (limpiar_cedula cedula) (str v)) eqn:Hv; [|reflexivity].
  rewrite (contiene_trans _ _ _ Hfrag Hv) in Hcasa. discriminate.
Qed.

Lemma buscar_fragmento_witness :
  fst (buscar_por_cedula "345" marco_cedulas) <> None.
Proof.
  apply (buscar_fragmento "1-234 567" "345" marco_cedulas); [reflexivity|].
  discriminate.
Defined.

End Busqueda_registro.

(** ** The page after a lookup *)

Section Proyeccion_tras_buscar.

Import Ejemplos.

Lemma fila_display_mismo_texto (n : nat) (f1 f2 : list valor) :
  map str f1 = map str f2 ->
  map str (fila_display n f1) = map str (fila_display n f2).
Proof.
  intros H. unfold fila_display. rewrite !map_map.
  apply map_ext. intros i. unfold campo_display.
  destruct (i <? n)%nat; [|reflexivity].
  rewrite <- !(map_nth str). rewrite H. reflexivity.
Qed.

(** X25.  A lookup changes the kind of some cells and not their text, and
    the projection for the page carries the text over: after any lookup
    the projection has the same labels and, cell by cell, the same text as
    the projection of the frame as it was loaded. *)
Theorem df_html_tras_buscar (cedula : string) (d : DataFrame) :
  let d' := snd (buscar_por_cedula cedula d) in
  columns (df_html d') = columns (df_html d) /\
  map (map str) (filas (df_html d')) = map (map str) (filas (df_html d)).
Proof.
  intros d'. split; [rewrite !df_html_columns; reflexivity|].
  destruct (buscar_estado cedula d) as (cs & _ & Hcs). fold d' in Hcs. rewrite Hcs.
  destruct (columns d) as [|c0 cols] eqn:Hcols.
  - rewrite !df_html_sin_columnas; [reflexivity | exact Hcols |].
    rewrite columns_coercionar. exact Hcols.
  - rewrite !df_html_filas;
      [| rewrite Hcols; discriminate | rewrite columns_coercionar, Hcols; discriminate].
    rewrite columns_coercionar, filas_coercionar. rewrite !map_map.
    apply map_ext. intros f. apply fila_display_mismo_texto.
    apply celdas_mismo_texto, coercionar_fila_celdas.
Qed.

(** The frame of numbers after the lookup of "123": other values, same text. *)
Example df_html_tras_buscar_ejemplo :
  map (map str) (filas (df_html (snd (buscar_por_cedula "123" marco_enteros))))
  = [["123"; "20"; ""; ""; ""; ""]; ["456"; "31"; ""; ""; ""; ""]].
Proof. reflexivity. Qed.

End Proyeccion_tras_buscar.

(** ** What a lookup writes *)

Section Escritura_de_la_busqueda.

Import Ejemplos.

Lemma texto_en_nil (cols : list etiqueta) (fila : list valor) :
  texto_en [] cols fila = fila.
Proof.
  revert fila; induction cols as [|col cols IH]; intros [|v fila]; simpl; try reflexivity.
  rewrite IH. reflexivity.
Qed.

Lemma texto_en_astype (c : etiqueta) (cs cols : list etiqueta) (fila : list valor) :
  texto_en cs cols (astype_str_fila c cols fila) = texto_en (c :: cs) cols fila.
Proof.
  revert fila; induction cols as [|col cols IH]; intros [|v fila]; simpl; try reflexivity.
  rewrite IH. f_equal.
  destruct (etiqueta_eqb col c), (tiene col cs); reflexivity.
Qed.

(** Overwriting the columns [cs] one after the other replaces by its text
    every cell under one of them, and no other. *)
Lemma coercionar_fila_texto_en (cs cols : list etiqueta) (fila : list valor) :
  coercionar_fila cs cols fila = texto_en cs cols fila.
Proof.
  revert fila; induction cs as [|c cs IH]; intros fila.
  - symmetry. apply texto_en_nil.
  - change (coercionar_fila (c :: cs) cols fila)
      with (coercionar_fila cs cols (astype_str_fila c cols fila)).
    rewrite IH. apply texto_en_astype.
Qed.

Lemma existsb_casa_astype (q : string) (c c' : etiqueta) (cols : list etiqueta)
    (fs : list (list valor)) :
  existsb (casa q c cols) (map (astype_str_fila c' cols) fs) = existsb (casa q c cols) fs.
Proof.
  induction fs as [|f fs IH]; simpl; [reflexivity|].
  rewrite casa_astype, IH. reflexivity.
Qed.

Lemma visitadas_astype (q : string) (c' : etiqueta) (cands cols : list etiqueta)
    (fs : list (list valor)) :
  visitadas q cands cols (map (astype_str_fila c' cols) fs) = visitadas q cands cols fs.
Proof.
  induction cands as [|c cands IH]; simpl; [reflexivity|].
  rewrite existsb_casa_astype, IH. reflexivity.
Qed.

Lemma existsb_filter_nil {A : Type} (P : A -> bool) (l : list A) :
  existsb P l = false <-> filter P l = [].
Proof.
  induction l as [|x l IH]; simpl; [tauto|].
  destruct (P x); simpl; [split; discriminate | exact IH].
Qed.

(** The frame that the scan leaves is the frame it received with the
    columns it went through overwritten with their text. *)
Lemma explorar_visitadas (q : string) (cands : list etiqueta) (d : DataFrame) :
  snd (explorar q cands d) = coercionar (visitadas q cands (columns d) (filas d)) d.
Proof.
  revert d; induction cands as [|c cands IH]; intros d; [reflexivity|].
  rewrite explorar_cons. cbn [visitadas].
  destruct (filter (casa q c (columns d)) (filas d)) as [|primera resto] eqn:Hf.
  - rewrite (proj2 (existsb_filter_nil _ _) Hf), IH.
    cbn [columns filas astype_str]. rewrite visitadas_astype. reflexivity.
  - destruct (existsb (casa q c (columns d)) (filas d)) eqn:He; [reflexivity|].
    apply existsb_filter_nil in He. rewrite He in Hf. discriminate.
Qed.

Lemma buscar_visitadas (cedula : string) (d : DataFrame) :
  snd (buscar_por_cedula cedula d) = coercionar (columnas_visitadas cedula d) d.
Proof.
  unfold buscar_por_cedula, buscar_cuerpo, columnas_visitadas.
  destruct (columnas_cedula (columns d)) as [cc|e]; [|reflexivity].
  pose proof (explorar_visitadas (limpiar_cedula cedula) (candidatas (columns d) cc) d) as H.
  destruct (explorar _ _ d) as [r d']. exact H.
Qed.

Lemma visitadas_primera (q : string) (c0 : etiqueta) (resto cols : list etiqueta)
    (fs : list (list valor)) :
  In c0 (visitadas q (c0 :: resto) cols fs).
Proof. simpl. destruct (existsb _ fs); left; reflexivity. Qed.

Lemma visitadas_incl (q : string) (cands cols : list etiqueta) (fs : list (list valor)) :
  incl (visitadas q cands cols fs) cands.
Proof.
  induction cands as [|c cands IH]; simpl; [apply incl_refl|].
  destruct (existsb _ fs).
  - intros x [<-|[]]. left. reflexivity.
  - intros x [<-|Hx]; [left; reflexivity | right; apply IH, Hx].
Qed.

Lemma pertenece (c : etiqueta) (l : list etiqueta) : tiene c l = true <-> In c l.
Proof.
  unfold tiene. rewrite existsb_exists. split.
  - intros (x & Hx & Heq). apply etiqueta_eqb_eq in Heq as ->. exact Hx.
  - intros H. exists c. split; [exact H | apply etiqueta_eqb_refl].
Qed.

Lemma texto_es_texto (v : valor) : VTexto (str v) = v <-> es_celda_texto v.
Proof.
  split.
  - intros H. exists (str v). symmetry. exact H.
  - intros [s ->]. reflexivity.
Qed.

(** The cells under the labels [cs] are text after [texto_en]. *)
Lemma texto_en_celdas (cs cols : list etiqueta) (fila : list valor) (c : etiqueta) (v : valor) :
  In (c, v) (combine cols (texto_en cs cols fila)) -> In c cs -> es_celda_texto v.
Proof.
  revert fila; induction cols as [|col cols IH]; intros [|v0 fila] Hin Hc;
    simpl in Hin; try contradiction.
  destruct Hin as [Heq|Hin]; [|apply (IH fila Hin Hc)].
  injection Heq as -> <-.
  apply pertenece in Hc. rewrite Hc. exists (str v0). reflexivity.
Qed.

(** [texto_en] leaves a row as it is exactly when its cells under the
    labels [cs] are text already. *)
Lemma texto_en_igual (cs cols : list etiqueta) (fila : list valor) :
  texto_en cs cols fila = fila <->
  forall c v, In (c, v) (combine cols fila) -> In c cs -> es_celda_texto v.
Proof.
  revert fila; induction cols as [|col cols IH]; intros [|v0 fila]; simpl;
    try (split; [intros _ c v [] | reflexivity]).
  split.
  - intros H. injection H as Hv Hf. intros c v [Heq|Hin] Hc.
    + injection Heq as -> ->. apply pertenece in Hc. rewrite Hc in Hv.
      apply texto_es_texto, Hv.
    + apply (proj1 (IH fila) Hf c v Hin Hc).
  - intros H. f_equal.
    + destruct (tiene col cs) eqn:Ht; [|reflexivity].
      apply texto_es_texto. apply (H col v0); [left; reflexivity | apply pertenece, Ht].
    + apply IH. intros c v Hin Hc. apply (H c v); [right; exact Hin | exact Hc].
Qed.

Lemma map_igual {A : Type} (g : A -> A) (l : list A) :
  map g l = l <-> forall x, In x l -> g x = x.
Proof.
  induction l as [|x l IH]; simpl; [split; [intros _ ? [] | reflexivity]|].
  split.
  - intros H. injection H as Hx Hl. intros y [<-|Hy]; [exact Hx | apply IH; assumption].
  - intros H. f_equal; [apply H; left; reflexivity|].
    apply IH. intros y Hy. apply H. right. exact Hy.
Qed.

(** C8, as the code has it.  A lookup keeps the labels, the number of
    rows and the text of every cell, but it is not a read-only scan.  It
    goes through the candidate columns in their order, up to the first in
    which some row matches (all of them when none matches), and the frame
    it leaves is the frame it received with every cell under one of those
    columns replaced by its text and every other cell as it was.  The
    first candidate column is always among them.  So the frame is left
    exactly as it was when, and only when, the cells under the columns
    gone through were text already; otherwise later operations read text
    where the source had a value of another kind. *)
Theorem C8_busqueda_coerciona (cedula : string) (d : DataFrame) :
  let d' := snd (buscar_por_cedula cedula d) in
  let vis := columnas_visitadas cedula d in
  columns d' = columns d /\
  List.length (filas d') = List.length (filas d) /\
  Forall2 (Forall2 igual_o_texto) (filas d') (filas d) /\
  map (map str) (filas d') = map (map str) (filas d) /\
  (Forall (Forall es_celda_texto) (filas d) -> d' = d) /\
  (forall cc c,
      columnas_cedula (columns d) = Ok cc ->
      ~ In c (candidatas (columns d) cc) ->
      map (valor_en (columns d') c) (filas d') = map (valor_en (columns d) c) (filas d)) /\
  filas d' = map (texto_en vis (columns d)) (filas d) /\
  (forall cc c0 resto,
      columnas_cedula (columns d) = Ok cc ->
      candidatas (columns d) cc = c0 :: resto ->
      In c0 vis /\ incl vis (c0 :: resto)) /\
  (forall fila' c v',
      In fila' (filas d') -> In (c, v') (combine (columns d) fila') -> In c vis ->
      es_celda_texto v') /\
  (d' = d <->
   forall fila c v,
     In fila (filas d) -> In (c, v) (combine (columns d) fila) -> In c vis ->
     es_celda_texto v).
Proof.
  intros d' vis.
  destruct (buscar_conserva cedula d) as (H1 & H2 & H3 & H4 & H5 & H6).
  fold d' in H1, H2, H3, H4, H5, H6.
  assert (Hfilas : filas d' = map (texto_en vis (columns d)) (filas d)).
  { unfold d', vis. rewrite buscar_visitadas, filas_coercionar.
    apply map_ext. intros f. apply coercionar_fila_texto_en. }
  repeat (split; [assumption|]).
  split; [|split].
  - intros cc c0 resto Hcc Hcands. unfold vis, columnas_visitadas.
    rewrite Hcc, Hcands. split; [apply visitadas_primera | apply visitadas_incl].
  - intros fila' c v' Hf' Hin Hc. rewrite Hfilas in Hf'.
    apply in_map_iff in Hf' as (f & <- & _).
    apply (texto_en_celdas vis (columns d) f c v' Hin Hc).
  - assert (Heq : d' = d <-> map (texto_en vis (columns d)) (filas d) = filas d).
    { rewrite <- Hfilas. split; [intros ->; reflexivity|].
      intros Hf. destruct d' as [cols' fs'], d as [cols fs]. simpl in *. congruence. }
    rewrite Heq, map_igual. split.
    + intros H fila c v Hfila. apply (proj1 (texto_en_igual vis (columns d) fila)).
      apply H, Hfila.
    + intros H fila Hfila. apply texto_en_igual. intros c v. apply H, Hfila.
Qed.

(** The frame of numbers: the lookup of "123" goes through the column
    "cedula" only and leaves its cells as text.  The same frame with its
    identity numbers stored as text is left as it was, although its other
    column holds numbers. *)
Example escritura_ejemplos :
  columnas_visitadas "123" marco_enteros = [ETexto "cedula"] /\
  snd (buscar_por_cedula "123" marco_enteros)
  = {| columns := [ETexto "cedula"; ETexto "edad"];
       filas := [[VTexto "123"; VEntero 20]; [VTexto "456"; VEntero 31]] |} /\
  snd (buscar_por_cedula "999" (snd (buscar_por_cedula "123" marco_enteros)))
  = snd (buscar_por_cedula "123" marco_enteros).
Proof. repeat split. Qed.

End Escritura_de_la_busqueda.
